(** * Secure Research Paper Portal: custody, access control, OTP and signatures

    A shallow embedding of the security core of the portal:
    - [server/acl.js] (kept as [src/unnamed/part_000]): the access-control
      matrix and [checkAccess];
    - [server/crypto.js] (kept in [src/server/utils.js]): the hybrid
      AES-256-GCM / RSA-OAEP helpers, signatures and key derivation;
    - [server/index.js]: the key-custody map and the request handlers;
    - [research-portal/]: the parallel implementation, [cryptoService],
      [authController] and [decisionController];
    - [server/utils.js]: the password policy and the one-time codes;
    - [server/index.js], the remaining handlers: sign-up and its mail
      callback, logout, the listings, the dashboard, the log and the
      sequences of requests;
    - [research-portal/middleware/authMiddleware.js]: the session checks,
      and [authController.resendOTP].

    Part I holds the model, Part II the properties. *)

From Stdlib Require Import ZArith Ascii.
From stdpp Require Import base option list strings pretty gmap.

Set Warnings "-register-all,-clear-no-such-hyp".

Local Open Scope Z_scope.
Local Open Scope string_scope.
Local Open Scope list_scope.

(* ===================================================================== *)
(** * Part I: the model                                                   *)
(* ===================================================================== *)

(** ** Exceptions and results

    A JavaScript call either returns a value or throws. *)

Inductive Exn :=
| TypeError (msg : string)
| ReferenceError (msg : string)
| CryptoError (msg : string)
| Error (msg : string).

Inductive res (A : Type) :=
| Ret (a : A)
| Throw (e : Exn).
Arguments Ret {A} a.
Arguments Throw {A} e.

Definition rbind {A B} (m : res A) (k : A -> res B) : res B :=
  match m with
  | Ret a => k a
  | Throw e => Throw e
  end.

Notation "x <-! m ; k" := (rbind m (fun x => k))
  (at level 100, m at next level, right associativity, only parsing).

Definition is_Ret {A} (m : res A) : bool :=
  match m with Ret _ => true | Throw _ => false end.

(** [Buffer]s are byte sequences. *)
Abbreviation bytes := (list Byte.byte).

#[global] Instance byte_eq_dec : EqDecision Byte.byte := Byte.byte_eq_dec.

(** ** [acl.js]: the access-control matrix

    [ACL] is an object literal and [checkAccess] reads it with the
    bracket operator, which also finds the properties a plain object
    inherits from [Object.prototype].  The fragment of the run time that
    such a read can reach from [ACL] is modelled here. *)

Module Js.

Inductive value :=
| VUndefined
| VNull
| VString (s : string)
| VNumber (n : Z)
| VArray (xs : list string)
| VRecord (own : list (string * value))  (* object literal *)
| VObjectPrototype                       (* [Object.prototype] *)
| VBuiltin (name : string) (arity : Z)   (* a built-in function object *)
| VForeign.                              (* a run-time value outside the fragment *)

(** The own string-keyed properties of [Object.prototype] that hold
    functions, with each function's [name] and [length]. *)
Definition objectPrototypeMethods : list (string * Z) :=
  [ ("constructor", 1); ("toString", 0); ("toLocaleString", 0);
    ("valueOf", 0); ("hasOwnProperty", 1); ("isPrototypeOf", 1);
    ("propertyIsEnumerable", 1); ("__defineGetter__", 2);
    ("__defineSetter__", 2); ("__lookupGetter__", 1);
    ("__lookupSetter__", 1) ].

Fixpoint assoc {A} (k : string) (l : list (string * A)) : option A :=
  match l with
  | [] => None
  | (k', v) :: l' => if bool_decide (k = k') then Some v else assoc k l'
  end.

(** [Object.prototype.constructor] is the function [Object]; the other
    methods are named after their key. *)
Definition builtinName (k : string) : string :=
  if bool_decide (k = "constructor") then "Object" else k.

(** A read [o[k]] that reached [Object.prototype]; [proto] is what the
    [__proto__] accessor returns for the receiver. *)
Definition getInherited (proto : value) (k : string) : value :=
  if bool_decide (k = "__proto__") then proto
  else match assoc k objectPrototypeMethods with
       | Some n => VBuiltin (builtinName k) n
       | None => VUndefined
       end.

(** The read [v[k]]. Reading a property of [undefined] or [null] throws. *)
Definition get (v : value) (k : string) : res value :=
  match v with
  | VUndefined | VNull =>
      Throw (TypeError "Cannot read properties of undefined")
  | VRecord own =>
      match assoc k own with
      | Some x => Ret x
      | None => Ret (getInherited VObjectPrototype k)
      end
  | VObjectPrototype => Ret (getInherited VNull k)
  | VBuiltin name arity =>
      if bool_decide (k = "name") then Ret (VString name)
      else if bool_decide (k = "length") then Ret (VNumber arity)
      else Ret VForeign
  | VString _ | VNumber _ | VArray _ | VForeign => Ret VForeign
  end.

(** JavaScript truthiness; [None] where the fragment does not decide. *)
Definition truthy (v : value) : option bool :=
  match v with
  | VUndefined | VNull => Some false
  | VString s => Some (negb (bool_decide (s = "")))
  | VNumber n => Some (negb (bool_decide (n = 0)))
  | VArray _ | VRecord _ | VObjectPrototype | VBuiltin _ _ => Some true
  | VForeign => None
  end.

(** [String.prototype.includes]: substring search. *)
Fixpoint strIncludes (hay needle : string) : bool :=
  String.prefix needle hay ||
  match hay with
  | EmptyString => false
  | String _ rest => strIncludes rest needle
  end.

(** The method call [v.includes(x)]: arrays and strings have the
    method; numbers, functions and plain objects do not, and calling
    the missing method throws. *)
Definition includes (v : value) (x : string) : option (res bool) :=
  match v with
  | VArray xs => Some (Ret (bool_decide (x ∈ xs)))
  | VString s => Some (Ret (strIncludes s x))
  | VNumber _ | VBuiltin _ _ | VObjectPrototype =>
      Some (Throw (TypeError "allowed.includes is not a function"))
  | VRecord own =>
      match assoc "includes" own with
      | None => Some (Throw (TypeError "allowed.includes is not a function"))
      | Some _ => None
      end
  | VUndefined | VNull =>
      Some (Throw (TypeError "Cannot read properties of undefined"))
  | VForeign => None
  end.

End Js.

Module Acl.
Import Js.

Definition ACL : value :=
  VRecord
    [ ("Author", VRecord [ ("Paper", VArray ["create"; "read"; "update"]);
                           ("Review", VArray []);
                           ("FinalDecision", VArray ["read"]) ]);
      ("Collaborator", VRecord [ ("Paper", VArray ["read"; "update"]);
                                 ("Review", VArray ["read"]);
                                 ("FinalDecision", VArray ["create"; "read"]) ]);
      ("Reviewer", VRecord [ ("Paper", VArray ["read"]);
                             ("Review", VArray ["create"]);
                             ("FinalDecision", VArray []) ]) ].

(** The outcome of a call: a returned boolean, a thrown exception, or
    [None] when the call leaves the modelled fragment of the run time. *)
Definition checkAccess (role objectType action : string) : option (res bool) :=
  match get ACL role with
  | Throw e => Some (Throw e)
  | Ret rolePerms =>
      match truthy rolePerms with
      | None => None
      | Some false => Some (Ret false)
      | Some true =>
          match get rolePerms objectType with
          | Throw e => Some (Throw e)
          | Ret v =>
              match truthy v with
              | None => None
              | Some t => includes (if t then v else VArray []) action
              end
          end
      end
  end.

(** The matrix as a table of rows: role, object type, actions. *)
Definition matrix : list (string * string * list string) :=
  [ ("Author", "Paper", ["create"; "read"; "update"]);
    ("Author", "Review", []);
    ("Author", "FinalDecision", ["read"]);
    ("Collaborator", "Paper", ["read"; "update"]);
    ("Collaborator", "Review", ["read"]);
    ("Collaborator", "FinalDecision", ["create"; "read"]);
    ("Reviewer", "Paper", ["read"]);
    ("Reviewer", "Review", ["create"]);
    ("Reviewer", "FinalDecision", []) ].

(** The triples the table lists. *)
Definition inMatrix (role objectType action : string) : Prop :=
  exists actions, (role, objectType, actions) ∈ matrix /\ action ∈ actions.

(** What the call sites of [index.js] need: an access is granted only
    by a returned [true]; a thrown exception aborts the handler. *)
Definition granted (role objectType action : string) : bool :=
  match checkAccess role objectType action with
  | Some (Ret true) => true
  | _ => false
  end.

End Acl.

(** ** [index.js]: the key-custody map *)

Module Custody.

Record KeyRec := { privateKeyPem : string; expiresAt : Z }.

(** [2 * 60 * 60 * 1000] milliseconds, the session [maxAge]. *)
Definition TTL : Z := 2 * 60 * 60 * 1000.

Definition storePrivateKeyForSession (now : Z) (sessionId pem : string)
    (store : gmap string KeyRec) : gmap string KeyRec :=
  <[sessionId := {| privateKeyPem := pem; expiresAt := now + TTL |}]> store.

(** Returns the looked-up key ([None] for [null]) and the store after
    the call. *)
Definition getPrivateKeyForSession (now : Z) (sessionId : string)
    (store : gmap string KeyRec) : option string * gmap string KeyRec :=
  match store !! sessionId with
  | None => (None, store)
  | Some rec =>
      if bool_decide (now > expiresAt rec)
      then (None, delete sessionId store)
      else (Some (privateKeyPem rec), store)
  end.

Definition clearPrivateKeyForSession (sessionId : string)
    (store : gmap string KeyRec) : gmap string KeyRec :=
  delete sessionId store.

(** The body of the hourly [setInterval] callback. *)
Definition sweep (now : Z) (store : gmap string KeyRec) : gmap string KeyRec :=
  filter (fun kv => ¬ (expiresAt kv.2 <= now)) store.

End Custody.

(** ** Node's [crypto] and [Buffer]

    The primitives of the run time that the helpers call.  Randomness
    ([crypto.randomBytes], the OAEP seed, the PSS salt) and the clock are
    explicit arguments. *)

Class NodeCrypto := {
  (** [buf.toString('base64')] and [Buffer.from(s, 'base64')] *)
  b64enc : bytes -> string;
  b64dec : string -> bytes;
  (** [Buffer.from(s, 'utf8')] and [buf.toString('utf8')] *)
  utf8enc : string -> bytes;
  utf8dec : bytes -> string;
  (** AES-256 in counter mode under key and IV, the transform of both
      [cipher.update] and [decipher.update] in GCM, and the GCM
      authentication tag of a ciphertext *)
  gcmCtr : bytes -> bytes -> bytes -> bytes;
  gcmTag : bytes -> bytes -> bytes -> bytes;
  (** AES-256-CBC with PKCS#7 padding; decryption throws on bad padding *)
  cbcEncrypt : bytes -> bytes -> bytes -> bytes;
  cbcDecrypt : bytes -> bytes -> bytes -> res bytes;
  (** [crypto.publicEncrypt] (OAEP hash, key, OAEP seed, message) and
      [crypto.privateDecrypt] (OAEP hash, key, ciphertext) with
      [RSA_PKCS1_OAEP_PADDING] *)
  publicEncrypt : string -> string -> bytes -> bytes -> res bytes;
  privateDecrypt : string -> string -> bytes -> res bytes;
  (** the key pairs of [generateKeyPairSync]: public PEM, private PEM *)
  keyPair : string -> string -> Prop;
  (** [createHash('sha256').update(b).digest('hex')] *)
  sha256hex : bytes -> string;
  (** [createSign('SHA256')] / [createVerify('SHA256')]: RSASSA-PKCS1-v1_5 *)
  pkcs1Sign : string -> bytes -> res bytes;
  pkcs1Verify : string -> bytes -> bytes -> res bool;
  (** [crypto.sign] / [crypto.verify] as [cryptoService] calls them
      (key, salt, data) *)
  pssSign : string -> bytes -> bytes -> res bytes;
  pssVerify : string -> bytes -> bytes -> res bool;
  (** [bcrypt.compareSync(password, hash)] *)
  bcryptCompare : string -> string -> bool;
  (** [crypto.pbkdf2Sync(password, salt, 100000, 32, 'sha256')] on the
      hex-decoded salt *)
  pbkdf2 : string -> string -> bytes;
  (** [JSON.stringify] of an object whose fields are strings, in the
      order the literal lists them *)
  jsonStringify : list (string * string) -> string;
  (** [new Date(ms).toISOString()] *)
  toISOString : Z -> string;
  (** [s.trim()] *)
  trim : string -> string
}.

(** What the proofs assume of the primitives, one law at a time. *)
Section Laws.
Context `{NodeCrypto}.

Definition base64_roundtrip : Prop := forall b, b64dec (b64enc b) = b.
Definition utf8_roundtrip : Prop := forall s, utf8dec (utf8enc s) = s.
Definition gcm_ctr_involutive : Prop :=
  forall key iv p, gcmCtr key iv (gcmCtr key iv p) = p.
Definition gcm_tag_length : Prop :=
  forall key iv c, length (gcmTag key iv c) = 16%nat.
Definition cbc_roundtrip : Prop :=
  forall key iv p, cbcDecrypt key iv (cbcEncrypt key iv p) = Ret p.
Definition rsa_roundtrip : Prop :=
  forall h pk sk seed m c, keyPair pk sk ->
    publicEncrypt h pk seed m = Ret c -> privateDecrypt h sk c = Ret m.
(** a 2048-bit OAEP key takes a 32-byte message *)
Definition rsa_encrypts_keys : Prop :=
  forall h pk sk seed m, keyPair pk sk -> length m = 32%nat ->
    exists c, publicEncrypt h pk seed m = Ret c.
(** an RSA ciphertext has the length of the modulus: its base64 form is
    not the empty string *)
Definition wrapped_nonempty : Prop :=
  forall h pk seed m c, publicEncrypt h pk seed m = Ret c -> b64enc c <> "".
(** on a key of a pair, verification returns a verdict *)
Definition pkcs1_total : Prop :=
  forall pk sk d s, keyPair pk sk -> exists b, pkcs1Verify pk d s = Ret b.
Definition pkcs1_correct : Prop :=
  forall pk sk d s, keyPair pk sk ->
    pkcs1Sign sk d = Ret s -> pkcs1Verify pk d s = Ret true.
(** the idealisation of unforgeability: a signature verifies for no
    other data *)
Definition pkcs1_binding : Prop :=
  forall pk sk d d' s, keyPair pk sk ->
    pkcs1Sign sk d = Ret s -> pkcs1Verify pk d' s = Ret true -> d' = d.
Definition pss_correct : Prop :=
  forall pk sk salt d s, keyPair pk sk ->
    pssSign sk salt d = Ret s -> pssVerify pk d s = Ret true.
End Laws.

(** ** [crypto.js]: the hybrid helpers of the server *)

Module CryptoJs.
Section WithCrypto.
Context `{NodeCrypto}.

(** [{ iv, tag, ciphertext }], each field base64 *)
Record EncObj := { iv : string; tag : string; ciphertext : string }.

(** [createCipheriv('aes-256-gcm', key, iv)] and [createDecipheriv]
    refuse a key that is not 32 bytes and an empty IV. *)
Definition gcmInit (key ivb : bytes) : res unit :=
  if negb (bool_decide (length key = 32%nat)) then Throw (CryptoError "Invalid key length")
  else if bool_decide (ivb = []) then Throw (CryptoError "Invalid initialization vector")
  else Ret tt.

(** [decipher.setAuthTag(tag)] refuses a tag of a length GCM does not
    define. *)
Definition setAuthTag (t : bytes) : res unit :=
  if bool_decide (length t ∈ [4; 8; 12; 13; 14; 15; 16]%nat) then Ret tt
  else Throw (CryptoError "Invalid authentication tag length").

(** The check [decipher.final()] makes: as many bytes of the computed
    tag as the tag that was set has are compared with it. *)
Definition tagVerifies (key ivb t c : bytes) : Prop :=
  t = take (length t) (gcmTag key ivb c).

#[global] Instance tagVerifies_dec key ivb t c : Decision (tagVerifies key ivb t c) :=
  decide (t = take (length t) (gcmTag key ivb c)).

(** [decipher.final()]: the tag check; an empty buffer on success. *)
Definition decipherFinal (key ivb t c : bytes) : res bytes :=
  if bool_decide (tagVerifies key ivb t c) then Ret []
  else Throw (CryptoError "Unsupported state or unable to authenticate data").

(** [ivb] is the result of [crypto.randomBytes(12)]. *)
Definition aesEncrypt (ivb : bytes) (plaintextBuffer key : bytes) : res EncObj :=
  _ <-! gcmInit key ivb;
  let ct := gcmCtr key ivb plaintextBuffer ++ [] in
  let t := gcmTag key ivb ct in
  Ret {| iv := b64enc ivb; tag := b64enc t; ciphertext := b64enc ct |}.

Definition aesDecrypt (encObj : EncObj) (key : bytes) : res bytes :=
  let ivb := b64dec (iv encObj) in
  let t := b64dec (tag encObj) in
  let ct := b64dec (ciphertext encObj) in
  _ <-! gcmInit key ivb;
  _ <-! setAuthTag t;
  let updated := gcmCtr key ivb ct in
  final <-! decipherFinal key ivb t ct;
  Ret (updated ++ final).

Definition rsaEncrypt (seed : bytes) (publicKeyPem : string) (buffer : bytes) : res string :=
  c <-! publicEncrypt "sha256" publicKeyPem seed buffer;
  Ret (b64enc c).

Definition rsaDecrypt (privateKeyPem : string) (base64 : string) : res bytes :=
  privateDecrypt "sha256" privateKeyPem (b64dec base64).

Definition sha256 (buffer : bytes) : string := sha256hex buffer.

Definition sign (privateKeyPem : string) (data : bytes) : res string :=
  s <-! pkcs1Sign privateKeyPem data;
  Ret (b64enc s).

(** [verify.verify] throws when the key argument is [undefined]. *)
Definition verify (publicKeyPem : option string) (data : bytes)
    (signatureBase64 : string) : res bool :=
  match publicKeyPem with
  | None => Throw (TypeError "The key argument must be of type string")
  | Some pem => pkcs1Verify pem data (b64dec signatureBase64)
  end.

Definition deriveKey (password saltHex : string) : bytes := pbkdf2 password saltHex.

End WithCrypto.
End CryptoJs.

(** ** [index.js]: the data the server keeps

    [data.json] holds the tables; each handler reads the file, works on
    the parsed object and writes it back.  The tables are finite maps
    over their own keys (e-mail addresses and uuids).  A handler takes
    the instant [now] of its request, the reading of [Date.now()], and
    returns its answer with the state it leaves. *)

Module Server.

Inductive Role := Author | Collaborator | Reviewer.

Definition roleName (r : Role) : string :=
  match r with
  | Author => "Author"
  | Collaborator => "Collaborator"
  | Reviewer => "Reviewer"
  end.

Record User := {
  u_email : string;
  u_role : Role;
  passwordHash : string;
  rsaPublicKey : string;
  rsaPrivateKeyEncrypted : CryptoJs.EncObj;
  rsaPrivSalt : string;
  failedLogins : Z;              (* a number, 0 at sign-up *)
  lockUntil : option Z;          (* absent or [null]: [None] *)
  u_id : string
}.

Record OtpRecord := {
  otp : string;
  expires : Z;
  used : bool;
  attempts : option Z            (* absent until the first verify *)
}.

Record Version := { v_ts : Z; v_enc : CryptoJs.EncObj; v_hash : string }.

Record Decision := {
  d_by : string;
  decisionText : string;
  d_hash : string;
  d_signature : string;
  d_ts : Z
}.

Record Paper := {
  p_id : string;
  p_title : string;
  p_metadata : string;
  owner : string;
  collaborators : list string;
  reviewers : list string;
  versions : list Version;
  encryptedKeys : gmap string string;
  decision : option Decision
}.

Record Review := {
  r_id : string;
  r_pid : string;
  r_by : string;
  r_enc : CryptoJs.EncObj;
  r_hash : string;
  r_encryptedKeys : gmap string string;
  r_ts : Z
}.

Record LogEntry := { l_ts : Z; event : string; fields : list (string * string) }.

Record DB := {
  users : gmap string User;
  papers : gmap string Paper;
  reviews : gmap string Review;
  otps : gmap string OtpRecord;
  logs : list LogEntry
}.

(** [req.session.user] *)
Record SessionUser := { s_email : string; s_role : Role; s_id : string }.

(** The process: the file, the session store and the custody map. *)
Record State := {
  db : DB;
  sessions : gmap string SessionUser;
  privateKeyStore : gmap string Custody.KeyRec
}.

(** The JSON bodies the handlers send. *)
Inductive Body :=
| JError (error : string)
| JOk
| JOkId (id : string)
| JPaper (id title metadata fileBase64 hash : string)
| JReview (id pid by_ fileBase64 hash : string) (ts : Z)
| JDecision (dec : Decision) (signature_valid : bool).

Record Response := { status : Z; body : Body }.

(** A handler ends with a response, or with an exception nobody
    caught (Express then answers 500 with no body of the handler's). *)
Definition Outcome : Type := res Response.

Definition json (code : Z) (b : Body) : Outcome :=
  Ret {| status := code; body := b |}.

(** The failure answers of the OTP and login endpoints. *)
Definition otpUsed : Outcome := json 400 (JError "otp used").
Definition otpInvalid : Outcome := json 400 (JError "invalid").
Definition otpExpired : Outcome := json 400 (JError "expired").
Definition loginInvalid : Outcome := json 401 (JError "invalid").
Definition loginLocked : Outcome := json 423 (JError "account locked").

(** The plaintext a body carries, if any. *)
Definition plaintextOf (o : Outcome) : option string :=
  match o with
  | Ret {| body := JPaper _ _ _ f _ |} => Some f
  | Ret {| body := JReview _ _ _ f _ _ |} => Some f
  | _ => None
  end.

(** [db.logEvent(DB, entry)]: append and write the file. *)
Definition logEvent (now : Z) (D : DB) (ev : string) (fs : list (string * string)) : DB :=
  {| users := users D; papers := papers D; reviews := reviews D; otps := otps D;
     logs := logs D ++ [ {| l_ts := now; event := ev; fields := fs |} ] |}.

Definition setUsers (D : DB) (us : gmap string User) : DB :=
  {| users := us; papers := papers D; reviews := reviews D; otps := otps D; logs := logs D |}.
Definition setPapers (D : DB) (ps : gmap string Paper) : DB :=
  {| users := users D; papers := ps; reviews := reviews D; otps := otps D; logs := logs D |}.
Definition setReviews (D : DB) (rs : gmap string Review) : DB :=
  {| users := users D; papers := papers D; reviews := rs; otps := otps D; logs := logs D |}.
Definition setOtps (D : DB) (os : gmap string OtpRecord) : DB :=
  {| users := users D; papers := papers D; reviews := reviews D; otps := os; logs := logs D |}.

Definition setDb (S : State) (D : DB) : State :=
  {| db := D; sessions := sessions S; privateKeyStore := privateKeyStore S |}.
Definition setStore (S : State) (st : gmap string Custody.KeyRec) : State :=
  {| db := db S; sessions := sessions S; privateKeyStore := st |}.

(** *** [POST /api/verify-otp] *)

Definition orZero (a : option Z) : Z := default 0 a.

Definition withAttempts (r : OtpRecord) (n : Z) : OtpRecord :=
  {| otp := otp r; expires := expires r; used := used r; attempts := Some n |}.
Definition markUsed (r : OtpRecord) : OtpRecord :=
  {| otp := otp r; expires := expires r; used := true; attempts := attempts r |}.

(** The limit of mismatched submissions. *)
Definition otpAttemptLimit : Z := 5.

Definition verifyOtp (now : Z) (email submitted : string) (D : DB) : Outcome * DB :=
  match otps D !! email with
  | None => (json 400 (JError "no otp"), D)
  | Some record0 =>
      let record := withAttempts record0 (orZero (attempts record0)) in
      let D0 := setOtps D (<[email := record]> (otps D)) in
      if used record then
        (json 400 (JError "otp used"),
         logEvent now D0 "otp_replay_attempt" [("email", email)])
      else if bool_decide (now > expires record) then
        (json 400 (JError "expired"), logEvent now D0 "otp_expired" [("email", email)])
      else if negb (bool_decide (otp record = submitted)) then
        let record1 := withAttempts record (orZero (attempts record) + 1) in
        let D1 := logEvent now (setOtps D (<[email := record1]> (otps D)))
                    "otp_invalid" [("email", email)] in
        let D2 := if bool_decide (orZero (attempts record1) >= otpAttemptLimit)
                  then setOtps D1 (<[email := markUsed record1]> (otps D1))
                  else D1 in
        (json 400 (JError "invalid"), D2)
      else
        let D1 := setOtps D (<[email := markUsed record]> (otps D)) in
        (json 200 JOk, logEvent now D1 "otp_verified" [("email", email)])
  end.

(** *** [POST /api/login] *)

Definition lockDuration : Z := 15 * 60 * 1000.
Definition loginFailureLimit : Z := 5.

(** [user.lockUntil && Date.now() < user.lockUntil] *)
Definition isLocked (now : Z) (u : User) : bool :=
  match lockUntil u with
  | None => false
  | Some l => negb (bool_decide (l = 0)) && bool_decide (now < l)
  end.

Definition withLogin (u : User) (failed : Z) (lock : option Z) : User :=
  {| u_email := u_email u; u_role := u_role u; passwordHash := passwordHash u;
     rsaPublicKey := rsaPublicKey u;
     rsaPrivateKeyEncrypted := rsaPrivateKeyEncrypted u;
     rsaPrivSalt := rsaPrivSalt u;
     failedLogins := failed; lockUntil := lock; u_id := u_id u |}.

Section WithCrypto.
Context `{NodeCrypto}.
Import CryptoJs.

Definition login (now : Z) (sessionID email password : string) (S : State)
    : Outcome * State :=
  let D := db S in
  match users D !! email with
  | None =>
      (json 401 (JError "invalid"),
       setDb S (logEvent now D "login_failed_unknown" [("email", email)]))
  | Some user =>
      if isLocked now user then
        (json 423 (JError "account locked"),
         setDb S (logEvent now D "login_locked" [("email", email)]))
      else if negb (bcryptCompare password (passwordHash user)) then
        let n := failedLogins user + 1 in
        let user1 := withLogin user n
                       (if bool_decide (n >= loginFailureLimit)
                        then Some (now + lockDuration) else lockUntil user) in
        (json 401 (JError "invalid"),
         setDb S (logEvent now (setUsers D (<[email := user1]> (users D)))
                    "login_failed" [("email", email)]))
      else
        let user1 := withLogin user 0 None in
        let D1 := setUsers D (<[email := user1]> (users D)) in
        match aesDecrypt (rsaPrivateKeyEncrypted user)
                (deriveKey password (rsaPrivSalt user)) with
        | Throw e =>
            (json 500 (JError "crypto"),
             setDb S (logEvent now D1 "login_priv_decrypt_failed" [("email", email)]))
        | Ret plain =>
            let privKey := utf8dec plain in
            let su := {| s_email := u_email user; s_role := u_role user;
                         s_id := u_id user |} in
            (json 200 JOk,
             {| db := logEvent now D1 "login_success" [("email", email)];
                sessions := <[sessionID := su]> (sessions S);
                privateKeyStore :=
                  Custody.storePrivateKeyForSession now sessionID privKey
                    (privateKeyStore S) |})
        end
  end.

(** *** [requireAuth] and the paper handlers *)

Definition unauthenticated (now : Z) (S : State) : Outcome * State :=
  (json 401 (JError "auth required"),
   setDb S (logEvent now (db S) "unauthenticated_access" [])).

(** [a.indexOf(v)] *)
Fixpoint indexOf (v : string) (a : list string) : option nat :=
  match a with
  | [] => None
  | x :: a' => if bool_decide (x = v) then Some 0%nat else S <$> indexOf v a'
  end.

(** [a.filter((v,i,a) => a.indexOf(v) === i)] *)
Definition dedupe (a : list string) : list string :=
  (filter (fun iv : nat * string => indexOf iv.2 a = Some iv.1)
          (imap (fun i v => (i, v)) a)).*2.

(** The randomness one sealing request draws: the AES key, the IV,
    the OAEP seed of the i-th wrap and the uuid of the new object. *)
Record Entropy := {
  e_aesKey : bytes;
  e_iv : bytes;
  e_seed : nat -> bytes;
  e_id : string
}.

(** [u && u.rsaPublicKey] for [u = DB.users[r]] *)
Definition hasPublicKey (us : gmap string User) (r : string) : bool :=
  match us !! r with
  | Some u => negb (bool_decide (rsaPublicKey u = ""))
  | None => false
  end.

(** One round of the [forEach] that wraps the AES key: a recipient that
    is a registered user with a public key gets an entry. *)
Definition wrapOne (seed : bytes) (us : gmap string User) (aesKey : bytes)
    (keys : gmap string string) (r : string) : res (gmap string string) :=
  match us !! r with
  | Some u =>
      if bool_decide (rsaPublicKey u = "") then Ret keys
      else c <-! rsaEncrypt seed (rsaPublicKey u) aesKey;
           Ret (<[r := c]> keys)
  | None => Ret keys
  end.

Fixpoint wrapLoop (i : nat) (seeds : nat -> bytes) (us : gmap string User)
    (aesKey : bytes) (keys : gmap string string) (recipients : list string)
    : res (gmap string string) :=
  match recipients with
  | [] => Ret keys
  | r :: rest =>
      keys1 <-! wrapOne (seeds i) us aesKey keys r;
      wrapLoop (S i) seeds us aesKey keys1 rest
  end.

Definition wrapKeys (seeds : nat -> bytes) (us : gmap string User)
    (aesKey : bytes) (recipients : list string) : res (gmap string string) :=
  wrapLoop 0 seeds us aesKey ∅ recipients.

(** What a wrapped-key entry is: the AES key encrypted to the public
    key of the user it is filed under. *)
Definition wrappedFor (us : gmap string User) (key : bytes) (r x : string) : Prop :=
  exists u seed c, us !! r = Some u /\
    publicEncrypt "sha256" (rsaPublicKey u) seed key = Ret c /\ x = b64enc c.

Record PaperRequest := {
  q_title : string;
  q_metadata : string;
  q_fileBase64 : string;
  q_collaborators : list string;
  q_reviewers : list string
}.

(** The recipient list of a new paper: author, collaborators, reviewers. *)
Definition paperRecipients (author : string) (q : PaperRequest) : list string :=
  dedupe (author :: q_collaborators q ++ q_reviewers q).

(** [POST /api/papers] *)
Definition createPaper (now : Z) (ent : Entropy) (sessionID : string)
    (q : PaperRequest) (S : State) : Outcome * State :=
  match sessions S !! sessionID with
  | None => unauthenticated now S
  | Some user =>
      if negb (Acl.granted (roleName (s_role user)) "Paper" "create") then
        (* the denial branch reads [DB] above its [const] declaration *)
        (Throw (ReferenceError "Cannot access 'DB' before initialization"), S)
      else if bool_decide (q_title q = "") || bool_decide (q_fileBase64 q = "") then
        (json 400 (JError "missing"), S)
      else
        let D := db S in
        let fileBuf := b64dec (q_fileBase64 q) in
        match aesEncrypt (e_iv ent) fileBuf (e_aesKey ent) with
        | Throw e => (Throw e, S)
        | Ret enc =>
            let hash := sha256 fileBuf in
            let recipients := paperRecipients (s_email user) q in
            match wrapKeys (e_seed ent) (users D) (e_aesKey ent) recipients with
            | Throw e => (Throw e, S)
            | Ret keys =>
                let pid := e_id ent in
                let paper :=
                  {| p_id := pid; p_title := q_title q; p_metadata := q_metadata q;
                     owner := s_email user;
                     collaborators := q_collaborators q;
                     reviewers := q_reviewers q;
                     versions := [ {| v_ts := now; v_enc := enc; v_hash := hash |} ];
                     encryptedKeys := keys;
                     decision := None |} in
                (json 200 (JOkId pid),
                 setDb S (logEvent now (setPapers D (<[pid := paper]> (papers D)))
                            "paper_created" [("pid", pid); ("by", s_email user)]))
            end
        end
  end.

(** The body of a [try] block that unwraps the key and decrypts. *)
Definition unwrapAndDecrypt (priv encKey : string) (enc : option EncObj) : res bytes :=
  aesKey <-! rsaDecrypt priv encKey;
  match enc with
  | None => Throw (TypeError "Cannot read properties of undefined (reading 'enc')")
  | Some e => aesDecrypt e aesKey
  end.

(** [GET /api/papers/:id] *)
Definition getPaper (now : Z) (sessionID pid : string) (S : State) : Outcome * State :=
  match sessions S !! sessionID with
  | None => unauthenticated now S
  | Some user =>
      let D := db S in
      match papers D !! pid with
      | None => (json 404 (JError "not found"), S)
      | Some paper =>
          let allowedUsers := owner paper :: collaborators paper ++ reviewers paper in
          if negb (bool_decide (s_email user ∈ allowedUsers)) then
            (json 403 (JError "forbidden"),
             setDb S (logEvent now D "access_denied"
                        [("by", s_email user); ("pid", pid); ("reason", "not a recipient")]))
          else if negb (Acl.granted (roleName (s_role user)) "Paper" "read") then
            (json 403 (JError "forbidden-role"), S)
          else
            match encryptedKeys paper !! s_email user with
            | None => (json 403 (JError "no key"), S)
            | Some encKey =>
                if bool_decide (encKey = "") then (json 403 (JError "no key"), S)
                else
                  let '(priv, store) :=
                    Custody.getPrivateKeyForSession now sessionID (privateKeyStore S) in
                  let S1 := setStore S store in
                  match priv with
                  | None => (json 401 (JError "private key not available; re-login required"), S1)
                  | Some pem =>
                      if bool_decide (pem = "") then
                        (json 401 (JError "private key not available; re-login required"), S1)
                      else
                        let latest := last (versions paper) in
                        match unwrapAndDecrypt pem encKey (v_enc <$> latest) with
                        | Throw e =>
                            (json 500 (JError "decrypt"),
                             setDb S1 (logEvent now D "decrypt_failed"
                                         [("pid", pid); ("by", s_email user)]))
                        | Ret plain =>
                            (json 200 (JPaper pid (p_title paper) (p_metadata paper)
                                         (b64enc plain)
                                         (default "" (v_hash <$> latest))),
                             setDb S1 (logEvent now D "paper_decrypted"
                                         [("pid", pid); ("by", s_email user)]))
                        end
                  end
            end
      end
  end.

(** The recipient list of a review: the paper's owner and collaborators. *)
Definition reviewRecipients (paper : Paper) : list string :=
  owner paper :: collaborators paper.

(** [POST /api/papers/:id/reviews] *)
Definition submitReview (now : Z) (ent : Entropy) (sessionID pid reviewBase64 : string)
    (S : State) : Outcome * State :=
  match sessions S !! sessionID with
  | None => unauthenticated now S
  | Some user =>
      let D := db S in
      match papers D !! pid with
      | None => (json 404 (JError "not found"), S)
      | Some paper =>
          if negb (bool_decide (s_email user ∈ reviewers paper)) then
            (json 403 (JError "not assigned"), S)
          else if negb (Acl.granted (roleName (s_role user)) "Review" "create") then
            (json 403 (JError "forbidden-role"), S)
          else
            let revBuf := b64dec reviewBase64 in
            match aesEncrypt (e_iv ent) revBuf (e_aesKey ent) with
            | Throw e => (Throw e, S)
            | Ret enc =>
                match wrapKeys (e_seed ent) (users D) (e_aesKey ent)
                        (reviewRecipients paper) with
                | Throw e => (Throw e, S)
                | Ret keys =>
                    let rid := e_id ent in
                    let review :=
                      {| r_id := rid; r_pid := pid; r_by := s_email user; r_enc := enc;
                         r_hash := sha256 revBuf; r_encryptedKeys := keys; r_ts := now |} in
                    (json 200 (JOkId rid),
                     setDb S (logEvent now (setReviews D (<[rid := review]> (reviews D)))
                                "review_submitted"
                                [("rid", rid); ("pid", pid); ("by", s_email user)]))
                end
            end
      end
  end.

(** [GET /api/reviews/:id] *)
Definition getReview (now : Z) (sessionID rid : string) (S : State) : Outcome * State :=
  match sessions S !! sessionID with
  | None => unauthenticated now S
  | Some user =>
      let D := db S in
      match reviews D !! rid with
      | None => (json 404 (JError "not found"), S)
      | Some review =>
          match papers D !! r_pid review with
          | None => (json 404 (JError "parent paper not found"), S)
          | Some paper =>
              if negb (bool_decide (owner paper = s_email user)
                       || bool_decide (s_email user ∈ collaborators paper)) then
                (json 403 (JError "forbidden"),
                 setDb S (logEvent now D "access_denied"
                            [("by", s_email user); ("rid", rid);
                             ("reason", "not owner or collaborator")]))
              else if negb (Acl.granted (roleName (s_role user)) "Review" "read") then
                (json 403 (JError "forbidden-role"), S)
              else
                match r_encryptedKeys review !! s_email user with
                | None => (json 403 (JError "no key"), S)
                | Some encKey =>
                    if bool_decide (encKey = "") then (json 403 (JError "no key"), S)
                    else
                      let '(priv, store) :=
                        Custody.getPrivateKeyForSession now sessionID (privateKeyStore S) in
                      let S1 := setStore S store in
                      match priv with
                      | None =>
                          (json 401 (JError "private key not available; re-login required"),
                           S1)
                      | Some pem =>
                          if bool_decide (pem = "") then
                            (json 401
                               (JError "private key not available; re-login required"), S1)
                          else
                            match unwrapAndDecrypt pem encKey (Some (r_enc review)) with
                            | Throw e =>
                                (json 500 (JError "decrypt"),
                                 setDb S1 (logEvent now D "review_decrypt_failed"
                                             [("rid", rid); ("by", s_email user)]))
                            | Ret plain =>
                                (json 200 (JReview rid (r_pid review) (r_by review)
                                             (b64enc plain) (r_hash review) (r_ts review)),
                                 setDb S1 (logEvent now D "review_decrypted"
                                             [("rid", rid); ("by", s_email user)]))
                            end
                      end
                end
          end
      end
  end.

(** *** The decision handlers *)

Definition withDecision (p : Paper) (d : Decision) : Paper :=
  {| p_id := p_id p; p_title := p_title p; p_metadata := p_metadata p;
     owner := owner p; collaborators := collaborators p; reviewers := reviewers p;
     versions := versions p; encryptedKeys := encryptedKeys p;
     decision := Some d |}.

(** The bytes the server signs and verifies for a decision. *)
Definition signedBytes (text : string) : bytes := utf8enc text.

(** [POST /api/papers/:id/decision] *)
Definition issueDecision (now : Z) (sessionID pid text : string) (S : State)
    : Outcome * State :=
  match sessions S !! sessionID with
  | None => unauthenticated now S
  | Some user =>
      let D := db S in
      match papers D !! pid with
      | None => (json 404 (JError "not found"), S)
      | Some paper =>
          if negb (bool_decide (s_email user ∈ collaborators paper)) then
            (json 403 (JError "not collaborator"), S)
          else if negb (Acl.granted (roleName (s_role user)) "FinalDecision" "create") then
            (json 403 (JError "forbidden-role"), S)
          else
            let '(priv, store) :=
              Custody.getPrivateKeyForSession now sessionID (privateKeyStore S) in
            let S1 := setStore S store in
            match priv with
            | None => (json 401 (JError "private key not available; re-login required"), S1)
            | Some pem =>
                if bool_decide (pem = "") then
                  (json 401 (JError "private key not available; re-login required"), S1)
                else
                  let buf := signedBytes text in
                  match sign pem buf with
                  | Throw e => (Throw e, S1)
                  | Ret signature =>
                      let d := {| d_by := s_email user; decisionText := text;
                                  d_hash := sha256 buf; d_signature := signature;
                                  d_ts := now |} in
                      (json 200 JOk,
                       setDb S1 (logEvent now
                                   (setPapers D (<[pid := withDecision paper d]> (papers D)))
                                   "decision_issued" [("pid", pid); ("by", s_email user)]))
                  end
            end
      end
  end.

(** The verification [GET /api/papers/:id/decision] runs on a stored
    decision. *)
Definition verifyDecision (D : DB) (dec : Decision) : res bool :=
  verify (rsaPublicKey <$> users D !! d_by dec)
         (signedBytes (decisionText dec)) (d_signature dec).

(** [GET /api/papers/:id/decision] *)
Definition getDecision (now : Z) (sessionID pid : string) (S : State)
    : Outcome * State :=
  match sessions S !! sessionID with
  | None => unauthenticated now S
  | Some user =>
      let D := db S in
      match papers D !! pid ≫= decision with
      | None => (json 404 (JError "no decision"), S)
      | Some dec =>
          if negb (Acl.granted (roleName (s_role user)) "FinalDecision" "read") then
            (json 403 (JError "forbidden"),
             setDb S (logEvent now D "access_denied"
                        [("by", s_email user); ("object", "FinalDecision"); ("pid", pid)]))
          else
            match verifyDecision D dec with
            | Throw e => (Throw e, S)
            | Ret ok =>
                (json 200 (JDecision dec ok),
                 setDb S (logEvent now D "decision_read" [("pid", pid); ("by", s_email user)]))
            end
      end
  end.

End WithCrypto.
End Server.

(** ** [research-portal/services/cryptoService.js] *)

Module CryptoService.
Section WithCrypto.
Context `{NodeCrypto}.

(** The key files: path to content ([fs.readFileSync] throws on a
    missing file). *)
Definition readFileSync (fs : gmap string string) (path : string) : res string :=
  match fs !! path with
  | Some s => Ret s
  | None => Throw (Error "ENOENT: no such file or directory")
  end.

(** [createCipheriv('aes-256-cbc', key, iv)] refuses a key that is not
    32 bytes and an IV that is not 16. *)
Definition cbcInit (key ivb : bytes) : res unit :=
  if negb (bool_decide (length key = 32%nat)) then Throw (CryptoError "Invalid key length")
  else if negb (bool_decide (length ivb = 16%nat)) then
    Throw (CryptoError "Invalid initialization vector")
  else Ret tt.

Definition encryptAES (plaintext key ivb : bytes) : res bytes :=
  _ <-! cbcInit key ivb;
  Ret (cbcEncrypt key ivb plaintext).

Definition decryptAES (ciphertext key ivb : bytes) : res bytes :=
  _ <-! cbcInit key ivb;
  cbcDecrypt key ivb ciphertext.

(** [try { ... } catch (error) { throw new Error(prefix + error.message) }] *)
Definition rethrow {A} (prefix : string) (m : res A) : res A :=
  match m with
  | Ret a => Ret a
  | Throw _ => Throw (Error prefix)
  end.

Definition encryptKeyWithRSA (fs : gmap string string) (seed : bytes)
    (aesKey : bytes) (publicKeyPath : string) : res bytes :=
  rethrow "RSA key encryption failed"
    (publicKey <-! readFileSync fs publicKeyPath;
     publicEncrypt "sha1" publicKey seed aesKey).

Definition decryptKeyWithRSA (fs : gmap string string)
    (encryptedKey : bytes) (privateKeyPath : string) : res bytes :=
  rethrow "RSA key decryption failed"
    (privateKey <-! readFileSync fs privateKeyPath;
     privateDecrypt "sha1" privateKey encryptedKey).

Definition hashSHA256 (data : bytes) : string := sha256hex data.

Record EncryptedPackage := {
  encryptedData : string;
  iv : string;
  encryptedKey : string;
  hash : string
}.

Record DecryptedPackage := {
  data : bytes;
  hashVerified : bool;
  originalHash : string;
  calculatedHash : string
}.

(** [aesKey] and [ivb] are the results of [generateAESKey] and
    [generateIV]. *)
Definition encryptFile (fs : gmap string string) (aesKey ivb seed : bytes)
    (fileBuffer : bytes) (publicKeyPath : string) : res EncryptedPackage :=
  encryptedFile <-! encryptAES fileBuffer aesKey ivb;
  encKey <-! encryptKeyWithRSA fs seed aesKey publicKeyPath;
  let h := hashSHA256 fileBuffer in
  Ret {| encryptedData := b64enc encryptedFile; iv := b64enc ivb;
         encryptedKey := b64enc encKey; hash := h |}.

Definition decryptFile (fs : gmap string string)
    (encryptedPackage : EncryptedPackage) (privateKeyPath : string)
    : res DecryptedPackage :=
  rethrow "File decryption failed"
    (let encryptedKeyBuffer := b64dec (encryptedKey encryptedPackage) in
     aesKey <-! decryptKeyWithRSA fs encryptedKeyBuffer privateKeyPath;
     let ivb := b64dec (iv encryptedPackage) in
     let encryptedFileBuffer := b64dec (encryptedData encryptedPackage) in
     decryptedFile <-! decryptAES encryptedFileBuffer aesKey ivb;
     let calculated := hashSHA256 decryptedFile in
     let verified := bool_decide (calculated = hash encryptedPackage) in
     Ret {| data := decryptedFile; hashVerified := verified;
            originalHash := hash encryptedPackage;
            calculatedHash := calculated |}).

(** What [downloadPaper] does with the package: the bytes are sent
    only when the hash matched. *)
Inductive Download :=
| Sent (file : bytes)
| IntegrityFailed          (* 400, File integrity check failed *)
| DecryptFailed.           (* 500, Failed to decrypt file *)

Definition downloadPaper (fs : gmap string string)
    (encryptedPackage : EncryptedPackage) (privateKeyPath : string) : Download :=
  match decryptFile fs encryptedPackage privateKeyPath with
  | Throw _ => DecryptFailed
  | Ret decryptedPackage =>
      if negb (hashVerified decryptedPackage) then IntegrityFailed
      else Sent (data decryptedPackage)
  end.

Definition signData (fs : gmap string string) (salt : bytes) (d : bytes)
    (privateKeyPath : string) : res string :=
  rethrow "Digital signature failed"
    (privateKey <-! readFileSync fs privateKeyPath;
     s <-! pssSign privateKey salt d;
     Ret (b64enc s)).

Definition verifySignature (fs : gmap string string) (d : bytes)
    (signature : string) (publicKeyPath : string) : bool :=
  match (publicKey <-! readFileSync fs publicKeyPath;
         pssVerify publicKey d (b64dec signature)) with
  | Ret b => b
  | Throw _ => false
  end.

End WithCrypto.
End CryptoService.

(** ** [research-portal/controllers/authController.js]: [verifyOTP] *)

Module AuthController.

Record User := {
  email : string;
  username : string;
  otpCode : option string;       (* [null]: [None] *)
  otpExpiry : option Z;
  isEmailVerified : bool;
  lastLogin : option Z
}.

(** [req.session.pendingRegistration] *)
Record Pending := {
  pe_email : string;
  pe_username : string;
  pe_otpCode : string;
  pe_otpExpiry : Z
}.

Record Session := {
  userId : option string;
  mfaVerified : bool;
  pendingRegistration : option Pending
}.

(** The [User] collection by [_id], the session of the caller and the
    audit trail of MFA verifications (e-mail, success). *)
Record State := {
  users : gmap string User;
  session : Session;
  audit : list (string * bool)
}.

Record Reply := { status : Z; message : string }.

Definition invalidOTP : Reply := {| status := 401; message := "Invalid OTP" |}.
Definition loginSuccessful : Reply := {| status := 200; message := "Login successful" |}.

Definition isDigit (c : Ascii.ascii) : bool :=
  let n := Ascii.nat_of_ascii c in (48 <=? n)%nat && (n <=? 57)%nat.

Fixpoint allDigits (s : string) : bool :=
  match s with
  | EmptyString => true
  | String c r => isDigit c && allDigits r
  end.

(** [/^\d{6}$/.test(otp)] *)
Definition sixDigits (s : string) : bool :=
  bool_decide (String.length s = 6%nat) && allDigits s.

(** [new Date() > expiry], where [null] converts to 0 *)
Definition after (now : Z) (expiry : option Z) : bool :=
  bool_decide (now > default 0 expiry).

Definition logMFA (S : State) (who : string) (ok : bool) : State :=
  {| users := users S; session := session S; audit := audit S ++ [(who, ok)] |}.

(** [newId] is the [_id] a freshly saved user gets. *)
Definition verifyOTP (now : Z) (newId : string) (otp : string) (S : State)
    : Reply * State :=
  if bool_decide (otp = "") then ({| status := 400; message := "OTP required" |}, S)
  else
    match userId (session S), pendingRegistration (session S) with
    | None, Some pending =>
        if negb (sixDigits otp) then
          ({| status := 400; message := "OTP must be 6 digits" |}, S)
        else if negb (bool_decide (pe_otpCode pending = otp)) then
          ({| status := 401; message := "Invalid OTP" |}, logMFA S (pe_email pending) false)
        else if bool_decide (now > pe_otpExpiry pending) then
          ({| status := 401; message := "OTP expired. Please register again." |},
           logMFA S (pe_email pending) false)
        else
          let newUser := {| email := pe_email pending; username := pe_username pending;
                            otpCode := None; otpExpiry := None;
                            isEmailVerified := true; lastLogin := None |} in
          ({| status := 201;
              message := "Registration complete. Account created and verified." |},
           {| users := <[newId := newUser]> (users S);
              session := {| userId := Some newId; mfaVerified := true;
                            pendingRegistration := None |};
              audit := audit S ++ [(pe_email pending, true)] |})
    | None, None => ({| status := 401; message := "Please login first" |}, S)
    | Some uid, _ =>
        if negb (sixDigits otp) then
          ({| status := 400; message := "OTP must be 6 digits" |}, S)
        else
          match users S !! uid with
          | None => ({| status := 401; message := "User not found" |}, S)
          | Some user =>
              if negb (bool_decide (otpCode user = Some otp)) then
                ({| status := 401; message := "Invalid OTP" |}, logMFA S (email user) false)
              else if after now (otpExpiry user) then
                ({| status := 401; message := "OTP expired. Please login again." |},
                 logMFA S (email user) false)
              else
                let user1 := {| email := email user; username := username user;
                                otpCode := None; otpExpiry := None;
                                isEmailVerified := true; lastLogin := Some now |} in
                ({| status := 200; message := "Login successful" |},
                 {| users := <[uid := user1]> (users S);
                    session := {| userId := userId (session S); mfaVerified := true;
                                  pendingRegistration := pendingRegistration (session S) |};
                    audit := audit S ++ [(email user, true)] |})
          end
    end.

End AuthController.

(** ** [research-portal/controllers/decisionController.js] *)

Module DecisionController.

(** A document of the [Decision] collection. *)
Record DecisionDoc := {
  _id : string;
  paperId : string;
  decision : string;
  summary : string;
  editorId : string;
  editorEmail : string;
  reviewsSummary : string;
  averageRating : string;
  decidedAt : Z;
  signature : string;
  signatureAlgorithm : string;
  createdAt : Z
}.

(** The fields [makeDecision] collects in [decisionData]. *)
Record DecisionData := {
  dd_paperId : string;
  dd_decision : string;
  dd_summary : string;
  dd_editorId : string;
  dd_editorEmail : string;
  dd_reviewsSummary : string;
  dd_averageRating : string;
  dd_decidedAt : Z;
  dd_signature : string;
  dd_signatureAlgorithm : string
}.

Record Request := {
  q_paperId : string;
  q_decision : string;
  q_summary : string;
  q_userId : string;
  q_userEmail : string;
  (** the digest of the paper's reviews: summary lines, average rating *)
  q_reviewsSummary : string;
  q_averageRating : string
}.

(** The [Decision] collection in insertion order and the ids of the
    papers that exist. *)
Record State := {
  decisions : list DecisionDoc;
  papers : gset string
}.

Record Reply := { status : Z; message : string }.

Definition privateKeyPath : string := "keys/private.pem".
Definition publicKeyPath : string := "keys/public.pem".

(** [Decision.findOne({ paperId })] *)
Definition findOne (pid : string) (ds : list DecisionDoc) : option DecisionDoc :=
  List.find (fun d => bool_decide (paperId d = pid)) ds.

(** [Decision.findById(id)] *)
Definition findById (id : string) (ds : list DecisionDoc) : option DecisionDoc :=
  List.find (fun d => bool_decide (_id d = id)) ds.

(** The document after [$set]-ing the fields of [decisionData]. *)
Definition applyUpdate (d : DecisionDoc) (u : DecisionData) : DecisionDoc :=
  {| _id := _id d; paperId := dd_paperId u; decision := dd_decision u;
     summary := dd_summary u; editorId := dd_editorId u;
     editorEmail := dd_editorEmail u; reviewsSummary := dd_reviewsSummary u;
     averageRating := dd_averageRating u; decidedAt := dd_decidedAt u;
     signature := dd_signature u; signatureAlgorithm := dd_signatureAlgorithm u;
     createdAt := createdAt d |}.

(** [Decision.findByIdAndUpdate(id, decisionData, { new: true })] *)
Definition findByIdAndUpdate (id : string) (u : DecisionData) (ds : list DecisionDoc)
    : list DecisionDoc :=
  map (fun d => if bool_decide (_id d = id) then applyUpdate d u else d) ds.

(** [new Decision(decisionData)] saved under a fresh [_id]. *)
Definition newDecision (id : string) (now : Z) (u : DecisionData) : DecisionDoc :=
  {| _id := id; paperId := dd_paperId u; decision := dd_decision u;
     summary := dd_summary u; editorId := dd_editorId u;
     editorEmail := dd_editorEmail u; reviewsSummary := dd_reviewsSummary u;
     averageRating := dd_averageRating u; decidedAt := dd_decidedAt u;
     signature := dd_signature u; signatureAlgorithm := dd_signatureAlgorithm u;
     createdAt := now |}.

Section WithCrypto.
Context `{NodeCrypto}.

(** The serialisation both [makeDecision] and
    [verifyDecisionSignature] build. *)
Definition canonical (pid dec summ : string) (iso : string) : bytes :=
  utf8enc (jsonStringify [ ("paperId", pid); ("decision", dec);
                           ("summary", summ); ("decidedAt", iso) ]).

Definition dataToSign (q : Request) (clock : Z) : bytes :=
  canonical (q_paperId q) (q_decision q) (q_summary q) (toISOString clock).

Definition dataToVerify (d : DecisionDoc) : bytes :=
  canonical (paperId d) (decision d) (summary d) (toISOString (decidedAt d)).

(** [decisionData], with the signature added. *)
Definition decisionDataOf (q : Request) (t1 : Z) (sig : string) : DecisionData :=
  {| dd_paperId := q_paperId q; dd_decision := q_decision q;
     dd_summary := trim (q_summary q);
     dd_editorId := q_userId q; dd_editorEmail := q_userEmail q;
     dd_reviewsSummary := q_reviewsSummary q;
     dd_averageRating := q_averageRating q;
     dd_decidedAt := t1;
     dd_signature := sig;
     dd_signatureAlgorithm := "RSA-PSS with SHA-256" |}.

(** [t1] and [t2] are the two readings of the clock, for [decidedAt]
    of the stored data and for the signed string; [newId] is the [_id]
    of a decision created now. *)
Definition makeDecision (fs : gmap string string) (salt : bytes)
    (t1 t2 : Z) (newId : string) (q : Request) (S : State) : Reply * State :=
  if bool_decide (q_decision q = "") || bool_decide (q_summary q = "") then
    ({| status := 400; message := "Decision and summary required" |}, S)
  else if negb (bool_decide
                  (q_decision q ∈ ["ACCEPTED"; "REJECTED"; "REVISION_REQUESTED"])) then
    ({| status := 400; message := "Invalid decision type" |}, S)
  else if bool_decide (String.length (q_summary q) < 50)%nat then
    ({| status := 400; message := "Summary must be at least 50 characters" |}, S)
  else if negb (bool_decide (q_paperId q ∈ papers S)) then
    ({| status := 404; message := "Paper not found" |}, S)
  else
    match CryptoService.signData fs salt (dataToSign q t2) privateKeyPath with
    | Throw _ => ({| status := 500; message := "Failed to digitally sign decision" |}, S)
    | Ret sig =>
        let decisionData := decisionDataOf q t1 sig in
        let ds :=
          match findOne (q_paperId q) (decisions S) with
          | Some finalDecision =>
              findByIdAndUpdate (_id finalDecision) decisionData (decisions S)
          | None => decisions S ++ [newDecision newId t1 decisionData]
          end in
        ({| status := 201; message := "Decision recorded and digitally signed" |},
         {| decisions := ds; papers := papers S |})
    end.

(** The [isSignatureValid] field [verifyDecisionSignature] reports;
    [None] is the 404 for an unknown decision. *)
Definition verifyDecisionSignature (fs : gmap string string)
    (decisionId : string) (S : State) : option bool :=
  match findById decisionId (decisions S) with
  | None => None
  | Some d =>
      Some (CryptoService.verifySignature fs (dataToVerify d) (signature d) publicKeyPath)
  end.

End WithCrypto.
End DecisionController.

(** ** Sequences of requests *)

Module Runs.
Import Server.

(** Successive [POST /api/verify-otp] requests for one e-mail, each
    with its time and submitted code. *)
Fixpoint verifyOtpMany (calls : list (Z * string)) (email : string) (D : DB)
    : list Outcome * DB :=
  match calls with
  | [] => ([], D)
  | (t, code) :: rest =>
      let '(o, D1) := verifyOtp t email code D in
      let '(os, D2) := verifyOtpMany rest email D1 in
      (o :: os, D2)
  end.

Section WithCrypto.
Context `{NodeCrypto}.

(** Successive [POST /api/login] requests for one e-mail from one
    session, each with its time and password. *)
Fixpoint loginMany (calls : list (Z * string)) (sessionID email : string) (S : State)
    : list Outcome * State :=
  match calls with
  | [] => ([], S)
  | (t, pw) :: rest =>
      let '(o, S1) := login t sessionID email pw S in
      let '(os, S2) := loginMany rest sessionID email S1 in
      (o :: os, S2)
  end.

End WithCrypto.

(** Successive [verifyOTP] calls of the research portal. *)
Fixpoint verifyOTPMany (calls : list (Z * string)) (newId : string)
    (S : AuthController.State) : list AuthController.Reply * AuthController.State :=
  match calls with
  | [] => ([], S)
  | (t, code) :: rest =>
      let '(o, S1) := AuthController.verifyOTP t newId code S in
      let '(os, S2) := verifyOTPMany rest newId S1 in
      (o :: os, S2)
  end.

End Runs.

(** ** A small concrete instance of the primitives

    Transparent stand-ins that satisfy the laws above; they give the
    general statements concrete instances to run on. *)

Module Toy.

Definition zeroByte : Byte.byte := Byte.x00.

Definition pad (n : nat) (b : bytes) : bytes := take n (b ++ replicate n zeroByte).

Fixpoint stripPrefix (p b : bytes) : option bytes :=
  match p, b with
  | [], _ => Some b
  | x :: p', y :: b' => if bool_decide (x = y) then stripPrefix p' b' else None
  | _ :: _, [] => None
  end.

Definition keyBytes (pem : string) : bytes := String.list_byte_of_string pem.

Definition wrapMark : Byte.byte := Byte.x01.

Definition verifyWith (pk : string) (d s : bytes) : res bool :=
  Ret (bool_decide (s = keyBytes pk ++ d)).

Definition flatten (o : list (string * string)) : string :=
  foldr (fun kv acc => kv.1 +:+ ":" +:+ kv.2 +:+ ";" +:+ acc) "" o.

Definition isSpace (c : Ascii.ascii) : bool := bool_decide (c = " "%char).

Fixpoint dropSpaces (l : list Ascii.ascii) : list Ascii.ascii :=
  match l with
  | c :: l' => if isSpace c then dropSpaces l' else l
  | [] => []
  end.

Definition trimSpaces (s : string) : string :=
  String.string_of_list_ascii
    (rev (dropSpaces (rev (dropSpaces (String.list_ascii_of_string s))))).

#[global] Instance crypto : NodeCrypto := {|
  b64enc := String.string_of_list_byte;
  b64dec := String.list_byte_of_string;
  utf8enc := String.list_byte_of_string;
  utf8dec := String.string_of_list_byte;
  gcmCtr := fun _ _ p => rev p;
  gcmTag := fun key ivb c => pad 16 (c ++ ivb ++ key);
  cbcEncrypt := fun _ _ p => rev p;
  cbcDecrypt := fun _ _ c => Ret (rev c);
  publicEncrypt := fun _ pk _ m => Ret (wrapMark :: keyBytes pk ++ m);
  privateDecrypt := fun _ sk c =>
    match stripPrefix (wrapMark :: keyBytes sk) c with
    | Some m => Ret m
    | None => Throw (CryptoError "oaep decoding error")
    end;
  keyPair := fun pk sk => sk = pk;
  sha256hex := String.string_of_list_byte;
  pkcs1Sign := fun sk d => Ret (keyBytes sk ++ d);
  pkcs1Verify := verifyWith;
  pssSign := fun sk _ d => Ret (keyBytes sk ++ d);
  pssVerify := verifyWith;
  bcryptCompare := fun pw h => bool_decide (h = pw);
  pbkdf2 := fun pw _ => pad 32 (keyBytes pw);
  jsonStringify := flatten;
  toISOString := fun z => pretty z;
  trim := trimSpaces
|}.

End Toy.

(** ** Concrete scenarios over the small instance *)

Module Scenario.
Import Server.

Definition alice : string := "alice@example.com".
Definition colab : string := "colab@example.com".
Definition rev : string := "rev@example.com".
Definition mallory : string := "mallory@example.com".
Definition ghost : string := "ghost@example.com".

(** The challenge of the spec's scenario: code 482913, five minutes. *)
Definition challenge : OtpRecord :=
  {| otp := "482913"; expires := 300000; used := false; attempts := None |}.

Definition emptyDb : DB :=
  {| users := ∅; papers := ∅; reviews := ∅; otps := ∅; logs := [] |}.

Definition otpDb : DB := setOtps emptyDb {[ alice := challenge ]}.

Definition fiveWrongCodes : list (Z * string) :=
  [ (1000, "000000"); (2000, "111111"); (3000, "222222");
    (4000, "333333"); (5000, "444444") ].

(** A portal user half-way through login, the same code pending. *)
Definition portalUser : AuthController.User :=
  {| AuthController.email := alice; AuthController.username := "alice";
     AuthController.otpCode := Some "482913";
     AuthController.otpExpiry := Some 300000;
     AuthController.isEmailVerified := false;
     AuthController.lastLogin := None |}.

Definition portalState : AuthController.State :=
  {| AuthController.users := {[ "u1" := portalUser ]};
     AuthController.session :=
       {| AuthController.userId := Some "u1"; AuthController.mfaVerified := false;
          AuthController.pendingRegistration := None |};
     AuthController.audit := [] |}.

(** A registered user: the stand-in key pair is (pem, pem), the
    password hash the password, the private key sealed under the
    password-derived key. *)
Definition sealedKey (pem password : string) : CryptoJs.EncObj :=
  match CryptoJs.aesEncrypt (Toy.pad 12 []) (utf8enc pem) (CryptoJs.deriveKey password "00") with
  | Ret e => e
  | Throw _ => {| CryptoJs.iv := ""; CryptoJs.tag := ""; CryptoJs.ciphertext := "" |}
  end.

Definition mkUser (mail : string) (r : Role) (pem password : string) : User :=
  {| u_email := mail; u_role := r; passwordHash := password;
     rsaPublicKey := pem; rsaPrivateKeyEncrypted := sealedKey pem password;
     rsaPrivSalt := "00"; failedLogins := 0; lockUntil := None; u_id := "id-" +:+ mail |}.

Definition password : string := "StrongPass!234".

Definition registered : gmap string User :=
  <[alice := mkUser alice Author "KEY-A" password]>
  (<[colab := mkUser colab Collaborator "KEY-C" password]>
  (<[rev := mkUser rev Reviewer "KEY-R" password]>
  (<[mallory := mkUser mallory Reviewer "KEY-M" password]> ∅))).

Definition start : State :=
  {| db := setUsers emptyDb registered; sessions := ∅; privateKeyStore := ∅ |}.

Definition fiveWrongPasswords : list (Z * string) :=
  [ (1000, "guess-1"); (2000, "guess-2"); (3000, "guess-3");
    (4000, "guess-4"); (5000, "guess-5") ].

(** Everybody logs in, each from a session of their own. *)
Definition loginAs (t : Z) (sid mail : string) (S : State) : State :=
  (login t sid mail password S).2.

Definition loggedIn : State :=
  loginAs 4 "sess-m" mallory
    (loginAs 3 "sess-r" rev
       (loginAs 2 "sess-c" colab
          (loginAs 1 "sess-a" alice start))).

Definition entropy : Entropy :=
  {| e_aesKey := Toy.pad 32 (Toy.keyBytes "k1"); e_iv := Toy.pad 12 (Toy.keyBytes "n1");
     e_seed := fun _ => []; e_id := "paper-1" |}.

(** Alice submits the file "hello" with one collaborator and one reviewer. *)
Definition paperReq : PaperRequest :=
  {| q_title := "Test Paper"; q_metadata := "{}"; q_fileBase64 := "hello";
     q_collaborators := [colab]; q_reviewers := [rev] |}.

(** The same with a collaborator who never signed up. *)
Definition ghostReq : PaperRequest :=
  {| q_title := "Test Paper"; q_metadata := "{}"; q_fileBase64 := "hello";
     q_collaborators := [colab; ghost]; q_reviewers := [rev] |}.

Definition sealed : State := (createPaper 7000 entropy "sess-a" paperReq loggedIn).2.

(** The key files of the research portal and a sealed file. *)
Definition keyFiles : gmap string string :=
  {[ DecisionController.publicKeyPath := "PORTAL-KEY";
     DecisionController.privateKeyPath := "PORTAL-KEY" ]}.

Definition emptyPackage : CryptoService.EncryptedPackage :=
  {| CryptoService.encryptedData := ""; CryptoService.iv := "";
     CryptoService.encryptedKey := ""; CryptoService.hash := "" |}.

Definition package : CryptoService.EncryptedPackage :=
  match CryptoService.encryptFile keyFiles (Toy.pad 32 (Toy.keyBytes "k2"))
          (Toy.pad 16 (Toy.keyBytes "n2")) [] (utf8enc "hello")
          DecisionController.publicKeyPath with
  | Ret pkg => pkg
  | Throw _ => emptyPackage
  end.

(** The stored ciphertext with one bit of its last byte flipped
    ([h], 0x68, becomes [H], 0x48). *)
Definition tamperedPackage : CryptoService.EncryptedPackage :=
  {| CryptoService.encryptedData := "olleH";
     CryptoService.iv := CryptoService.iv package;
     CryptoService.encryptedKey := CryptoService.encryptedKey package;
     CryptoService.hash := CryptoService.hash package |}.

(** The sealed file as stored, with another value in its hash field. *)
Definition mislabelledPackage : CryptoService.EncryptedPackage :=
  {| CryptoService.encryptedData := CryptoService.encryptedData package;
     CryptoService.iv := CryptoService.iv package;
     CryptoService.encryptedKey := CryptoService.encryptedKey package;
     CryptoService.hash := "0000" |}.

(** The collaborator issues the decision on the sealed paper. *)
Definition decisionText1 : string := "Accept after minor revisions".

Definition decided : State :=
  (issueDecision 9000 "sess-c" "paper-1" decisionText1 sealed).2.

(** The record [GET /api/papers/paper-1/decision] then reads. *)
Definition storedDecision : Decision :=
  {| d_by := colab; decisionText := decisionText1;
     d_hash := CryptoJs.sha256 (signedBytes decisionText1);
     d_signature := "KEY-CAccept after minor revisions"; d_ts := 9000 |}.

(** The same record with its timestamp moved by a day. *)
Definition redatedDecision : Decision :=
  {| d_by := d_by storedDecision; decisionText := decisionText storedDecision;
     d_hash := d_hash storedDecision; d_signature := d_signature storedDecision;
     d_ts := d_ts storedDecision + 86400000 |}.

(** The research portal: an editor decides on paper [p1], twice. *)
Definition portalPapers : DecisionController.State :=
  {| DecisionController.decisions := []; DecisionController.papers := {[ "p1" ]} |}.

Definition accept : DecisionController.Request :=
  {| DecisionController.q_paperId := "p1";
     DecisionController.q_decision := "ACCEPTED";
     DecisionController.q_summary :=
       "The reviewers agree that the paper is sound and well written.";
     DecisionController.q_userId := "editor-1";
     DecisionController.q_userEmail := "editor@example.com";
     DecisionController.q_reviewsSummary := "";
     DecisionController.q_averageRating := "0" |}.

Definition reject : DecisionController.Request :=
  {| DecisionController.q_paperId := "p1";
     DecisionController.q_decision := "REJECTED";
     DecisionController.q_summary :=
       "On a second reading the main result does not hold as stated.";
     DecisionController.q_userId := "editor-1";
     DecisionController.q_userEmail := "editor@example.com";
     DecisionController.q_reviewsSummary := "";
     DecisionController.q_averageRating := "0" |}.

Definition accepted : DecisionController.State :=
  (DecisionController.makeDecision keyFiles [] 1000 1000 "dec-1" accept portalPapers).2.

Definition rejected : DecisionController.State :=
  (DecisionController.makeDecision keyFiles [] 2000 2000 "dec-2" reject accepted).2.

End Scenario.

(** ** [utils.js]: the password policy and the one-time codes *)

Module Utils.

(** A character of a string is a UTF-16 code unit; the model has the
    code units below 256. *)
Definition code (c : Ascii.ascii) : nat := Ascii.nat_of_ascii c.

Definition isUpper (c : Ascii.ascii) : bool := (65 <=? code c)%nat && (code c <=? 90)%nat.
Definition isLower (c : Ascii.ascii) : bool := (97 <=? code c)%nat && (code c <=? 122)%nat.
Definition isDigit (c : Ascii.ascii) : bool := (48 <=? code c)%nat && (code c <=? 57)%nat.
(** [[^A-Za-z0-9]] *)
Definition isOther (c : Ascii.ascii) : bool := negb (isUpper c || isLower c || isDigit c).

(** [/[class]/.test(s)]: some character of [s] is in the class. *)
Fixpoint test (class : Ascii.ascii -> bool) (s : string) : bool :=
  match s with
  | EmptyString => false
  | String c rest => class c || test class rest
  end.

Definition validatePassword (password : string) : bool :=
  if bool_decide (password = "") || (String.length password <? 12)%nat then false
  else if negb (test isUpper password) then false
  else if negb (test isLower password) then false
  else if negb (test isDigit password) then false
  else if negb (test isOther password) then false
  else true.

(** [n] is the draw [crypto.randomInt(100000, 1000000)]; [toString]
    writes it in decimal. *)
Definition generateOTP (n : Z) : string := pretty n.

End Utils.

(** ** [Buffer.toString('hex')] and [bcrypt.hashSync] *)

Module Hex.

Definition digit (n : N) : Ascii.ascii :=
  match n with
  | 0 => "0" | 1 => "1" | 2 => "2" | 3 => "3" | 4 => "4" | 5 => "5" | 6 => "6"
  | 7 => "7" | 8 => "8" | 9 => "9" | 10 => "a" | 11 => "b" | 12 => "c"
  | 13 => "d" | 14 => "e" | _ => "f"
  end%char%N.

Definition ofByte (b : Byte.byte) : string :=
  let n := Byte.to_N b in
  String (digit (n / 16)%N) (String (digit (n mod 16)%N) EmptyString).

Fixpoint toHex (b : bytes) : string :=
  match b with
  | [] => ""
  | x :: rest => ofByte x +:+ toHex rest
  end.

End Hex.

(** [bcrypt.hashSync(password, salt)], the salt drawn by
    [bcrypt.genSaltSync(12)]. *)
Class NodeBcrypt := {
  bcryptHash : string -> string -> string
}.

(** A hash compares equal to the password it was made from. *)
Definition bcrypt_correct `{NodeCrypto} `{NodeBcrypt} : Prop :=
  forall password salt, bcryptCompare password (bcryptHash password salt) = true.

(** The idealisation of collision resistance: a hash compares equal to
    no other password. *)
Definition bcrypt_binding `{NodeCrypto} `{NodeBcrypt} : Prop :=
  forall password password' salt,
    bcryptCompare password' (bcryptHash password salt) = true -> password' = password.

(** ** [index.js]: the remaining handlers *)

Module Handlers.
Import Server CryptoJs.

(** The truthiness of the read [o[k]] for a plain object [o] whose own
    properties are the entries of [m], each an object: the read also
    finds what [o] inherits from [Object.prototype]. *)
Definition truthyAt {A} (m : gmap string A) (k : string) : bool :=
  match m !! k with
  | Some _ => true
  | None => default false (Js.truthy (Js.getInherited Js.VObjectPrototype k))
  end.

(** [['Author','Collaborator','Reviewer'].includes(role)] *)
Definition roleOf (role : string) : option Role :=
  if bool_decide (role = "Author") then Some Author
  else if bool_decide (role = "Collaborator") then Some Collaborator
  else if bool_decide (role = "Reviewer") then Some Reviewer
  else None.

(** The randomness a sign-up draws: the RSA key pair, the PBKDF2 salt,
    the IV that seals the private key, the bcrypt salt, the uuid and the
    OTP draw. *)
Record SignupEntropy := {
  g_publicKey : string;
  g_privateKey : string;
  g_salt : bytes;
  g_iv : bytes;
  g_bcryptSalt : string;
  g_id : string;
  g_otp : Z
}.

(** The lifetime of a sign-up code, [5*60*1000]. *)
Definition otpLifetime : Z := 5 * 60 * 1000.

Section WithCrypto.
Context `{NodeCrypto} `{NodeBcrypt}.

(** The user and the code a sign-up files. *)
Definition newUser (ent : SignupEntropy) (email password : string) (r : Role)
    (enc : EncObj) : User :=
  {| u_email := email; u_role := r;
     passwordHash := bcryptHash password (g_bcryptSalt ent);
     rsaPublicKey := g_publicKey ent;
     rsaPrivateKeyEncrypted := enc;
     rsaPrivSalt := Hex.toHex (g_salt ent);
     failedLogins := 0; lockUntil := None; u_id := g_id ent |}.

Definition newCode (now : Z) (ent : SignupEntropy) : OtpRecord :=
  {| otp := Utils.generateOTP (g_otp ent); expires := now + otpLifetime;
     used := false; attempts := None |}.

(** [POST /api/signup]; the answer [{ ok: true, note }] is [JOk]. *)
Definition signup (now : Z) (ent : SignupEntropy) (email password role : string)
    (S : State) : Outcome * State :=
  if bool_decide (email = "") || bool_decide (password = "") || bool_decide (role = "")
  then (json 400 (JError "missing"), S)
  else
    match roleOf role with
    | None => (json 400 (JError "invalid role"), S)
    | Some r =>
        if negb (Utils.validatePassword password) then
          (json 400 (JError "weak password"), S)
        else
          let D := db S in
          if truthyAt (users D) email then (json 400 (JError "exists"), S)
          else
            let saltHex := Hex.toHex (g_salt ent) in
            let derived := deriveKey password saltHex in
            match aesEncrypt (g_iv ent) (utf8enc (g_privateKey ent)) derived with
            | Throw e => (Throw e, S)
            | Ret enc =>
                let user := newUser ent email password r enc in
                let D1 := logEvent now (setUsers D (<[email := user]> (users D)))
                            "signup" [("email", email)] in
                (json 200 JOk,
                 setDb S (setOtps D1 (<[email := newCode now ent]> (otps D1))))
            end
    end.

(** The callback that runs when the mail of a sign-up has been sent or
    has failed: it appends to [DB], the object the sign-up request
    parsed and changed, and writes that object to the file. *)
Definition otpSent (now : Z) (email : string) (sent : bool) (DB : Server.DB)
    (S : State) : State :=
  setDb S (logEvent now DB "otp_sent"
             [("email", email); ("sent", if sent then "true" else "false")]).

End WithCrypto.

(** [POST /api/logout] *)
Definition logout (now : Z) (sessionID : string) (S : State) : Outcome * State :=
  match sessions S !! sessionID with
  | None => unauthenticated now S
  | Some _ =>
      (json 200 JOk,
       {| db := db S;
          sessions := delete sessionID (sessions S);
          privateKeyStore :=
            Custody.clearPrivateKeyForSession sessionID (privateKeyStore S) |})
  end.

(** The answers of the read-only endpoints: an error with its status,
    or the payload. *)
Inductive Reply (A : Type) :=
| Refused (status : Z) (error : string)
| Sent (payload : A).
Arguments Refused {A} status error.
Arguments Sent {A} payload.

Definition authRequired {A} (now : Z) (S : State) : res (Reply A) * State :=
  (Ret (Refused 401 "auth required"), (unauthenticated now S).2).

(** [GET /api/logs] *)
Definition getLogs (now : Z) (sessionID : string) (S : State)
    : res (Reply (list LogEntry)) * State :=
  match sessions S !! sessionID with
  | None => authRequired now S
  | Some user =>
      if negb (Acl.granted (roleName (s_role user)) "FinalDecision" "read") then
        (* the denial branch reads [DB] above its [const] declaration *)
        (Throw (ReferenceError "Cannot access 'DB' before initialization"), S)
      else (Ret (Sent (logs (db S))), S)
  end.

(** [GET /api/me] *)
Definition me (now : Z) (sessionID : string) (S : State)
    : res (Reply SessionUser) * State :=
  match sessions S !! sessionID with
  | None => authRequired now S
  | Some u => (Ret (Sent u), S)
  end.

(** [Object.values(o)]; the source enumerates in insertion order, the
    map in the order of its keys. *)
Definition objectValues {A} (m : gmap string A) : list A := (map_to_list m).*2.

(** [[p.owner, ...p.collaborators, ...p.reviewers]] *)
Definition allowedUsers (p : Paper) : list string :=
  owner p :: collaborators p ++ reviewers p.

(** The reviews filed under a paper. *)
Definition reviewsOf (D : DB) (p : Paper) : list Review :=
  filter (fun r => r_pid r = p_id p) (objectValues (reviews D)).

Record Summary := {
  sm_id : string;
  sm_title : string;
  sm_owner : string;
  sm_collaborators : list string;
  sm_reviewers : list string;
  versionCount : nat;
  sm_hash : option string;        (* [undefined] for a paper without versions *)
  reviewCount : nat
}.

Definition summaryOf (D : DB) (p : Paper) : Summary :=
  {| sm_id := p_id p; sm_title := p_title p; sm_owner := owner p;
     sm_collaborators := collaborators p; sm_reviewers := reviewers p;
     versionCount := length (versions p);
     sm_hash := v_hash <$> last (versions p);
     reviewCount := length (reviewsOf D p) |}.

(** [GET /api/papers] *)
Definition listPapers (now : Z) (sessionID : string) (S : State)
    : res (Reply (list Summary)) * State :=
  match sessions S !! sessionID with
  | None => authRequired now S
  | Some user =>
      let D := db S in
      let papers :=
        summaryOf D <$>
          filter (fun p => s_email user ∈ allowedUsers p) (objectValues (papers D)) in
      (Ret (Sent papers), setDb S (logEvent now D "papers_list" [("by", s_email user)]))
  end.

(** The rows of the three dashboards. *)
Inductive Row :=
| AuthorRow (id title : string) (collaborators reviewers : list string)
    (versions reviews : nat) (decision : option Decision)
| CollaboratorRow (id title owner : string) (reviews : list (string * string * Z))
    (decision : option Decision)
| ReviewerRow (id title owner : string).

Definition rowId (r : Row) : string :=
  match r with
  | AuthorRow id _ _ _ _ _ _ => id
  | CollaboratorRow id _ _ _ _ => id
  | ReviewerRow id _ _ => id
  end.

(** The rows of the dashboard of a role. *)
Definition rowsOf (D : DB) (user : SessionUser) : list Row :=
  let all := objectValues (papers D) in
  match s_role user with
  | Author =>
      (fun p => AuthorRow (p_id p) (p_title p) (collaborators p) (reviewers p)
                  (length (versions p)) (length (reviewsOf D p)) (decision p))
      <$> filter (fun p => owner p = s_email user) all
  | Collaborator =>
      (fun p => CollaboratorRow (p_id p) (p_title p) (owner p)
                  ((fun r => (r_id r, r_by r, r_ts r)) <$> reviewsOf D p)
                  (decision p))
      <$> filter (fun p => s_email user ∈ collaborators p) all
  | Reviewer =>
      (fun p => ReviewerRow (p_id p) (p_title p) (owner p))
      <$> filter (fun p => s_email user ∈ reviewers p) all
  end.

(** [GET /api/dashboard]; a session's role is one of the three, the
    last answer of the source (400, unknown role) has no case here. *)
Definition dashboard (now : Z) (sessionID : string) (S : State)
    : res (Reply (string * list Row)) * State :=
  match sessions S !! sessionID with
  | None => authRequired now S
  | Some user =>
      let D := db S in
      (Ret (Sent (roleName (s_role user), rowsOf D user)),
       setDb S (logEvent now D "dashboard_view"
                  [("role", roleName (s_role user)); ("by", s_email user)]))
  end.

(** *** The requests of the server, one after the other

    Besides the requests, the events are the hourly sweep and the
    callbacks of the sign-up mails.  A callback that runs before any
    later write is an event of a sequence; one that runs after a later
    write is [otpSent] with the object of its sign-up. *)

Inductive Request :=
| Signup (ent : SignupEntropy) (email password role : string)
| VerifyOtp (email otp : string)
| Login (sessionID email password : string)
| Logout (sessionID : string)
| CreatePaper (ent : Entropy) (sessionID : string) (q : PaperRequest)
| GetPaper (sessionID pid : string)
| SubmitReview (ent : Entropy) (sessionID pid reviewBase64 : string)
| GetReview (sessionID rid : string)
| IssueDecision (sessionID pid decisionText : string)
| GetDecision (sessionID pid : string)
| ListPapers (sessionID : string)
| Dashboard (sessionID : string)
| GetLogs (sessionID : string)
| Me (sessionID : string)
| MailSent (email : string) (sent : bool)
    (* the callback of a sign-up mail, run before any later write *)
| Sweep.                      (* the hourly timer *)

Section WithCrypto.
Context `{NodeCrypto} `{NodeBcrypt}.

(** The state a request leaves. *)
Definition handle (now : Z) (r : Request) (S : State) : State :=
  match r with
  | Signup ent email password role => (signup now ent email password role S).2
  | VerifyOtp email code => setDb S (verifyOtp now email code (db S)).2
  | Login sid email password => (login now sid email password S).2
  | Logout sid => (logout now sid S).2
  | CreatePaper ent sid q => (createPaper now ent sid q S).2
  | GetPaper sid pid => (getPaper now sid pid S).2
  | SubmitReview ent sid pid rb => (submitReview now ent sid pid rb S).2
  | GetReview sid rid => (getReview now sid rid S).2
  | IssueDecision sid pid text => (issueDecision now sid pid text S).2
  | GetDecision sid pid => (getDecision now sid pid S).2
  | ListPapers sid => (listPapers now sid S).2
  | Dashboard sid => (dashboard now sid S).2
  | GetLogs sid => (getLogs now sid S).2
  | Me sid => (me now sid S).2
  | MailSent email sent =>
      (* no write since the sign-up: the object the callback holds is
         the content of the file *)
      otpSent now email sent (db S) S
  | Sweep => setStore S (Custody.sweep now (privateKeyStore S))
  end.

(** A sequence of requests, each with the instant it is served at. *)
Fixpoint run (trace : list (Z * Request)) (S : State) : State :=
  match trace with
  | [] => S
  | (now, r) :: rest => run rest (handle now r S)
  end.

End WithCrypto.

(** The uuid a request draws is not in use: the paper or review it
    creates overwrites none. *)
Definition fresh (r : Request) (S : State) : Prop :=
  match r with
  | CreatePaper ent _ _ => papers (db S) !! e_id ent = None
  | SubmitReview ent _ _ _ => reviews (db S) !! e_id ent = None
  | _ => True
  end.

(** *** What a request can do to the state

    Besides appending to the log and touching the OTP table, a request
    does one of seven things. *)

(** The fields of a user no handler writes after sign-up. *)
Definition sameIdentity (u u' : User) : Prop :=
  u_email u' = u_email u /\ u_role u' = u_role u /\
  passwordHash u' = passwordHash u /\ rsaPublicKey u' = rsaPublicKey u /\
  rsaPrivateKeyEncrypted u' = rsaPrivateKeyEncrypted u /\
  rsaPrivSalt u' = rsaPrivSalt u /\ u_id u' = u_id u.

(** The fields of a paper no handler writes after its creation. *)
Definition sameContent (p p' : Paper) : Prop :=
  p_id p' = p_id p /\ p_title p' = p_title p /\ p_metadata p' = p_metadata p /\
  owner p' = owner p /\ collaborators p' = collaborators p /\
  reviewers p' = reviewers p /\ versions p' = versions p /\
  encryptedKeys p' = encryptedKeys p.

Definition sessionOf (u : User) : SessionUser :=
  {| s_email := u_email u; s_role := u_role u; s_id := u_id u |}.

Section WithCrypto.
Context `{NodeCrypto} `{NodeBcrypt}.

(** How a sign-up made its user: from the keys the request drew, the
    private key sealed under the key derived from the password. *)
Definition madeBy (r : Request) (email : string) (u : User) : Prop :=
  exists ent pw role ro enc,
    r = Signup ent email pw role /\ u = newUser ent email pw ro enc /\
    aesEncrypt (g_iv ent) (utf8enc (g_privateKey ent))
      (deriveKey pw (Hex.toHex (g_salt ent))) = Ret enc.

(** How a login got the key it holds for the session. *)
Definition unlockedBy (u : User) (key : Custody.KeyRec) : Prop :=
  exists pw plain,
    bcryptCompare pw (passwordHash u) = true /\
    aesDecrypt (rsaPrivateKeyEncrypted u) (deriveKey pw (rsaPrivSalt u)) = Ret plain /\
    Custody.privateKeyPem key = utf8dec plain.

(** A decision signed with the key held for a session. *)
Definition signedWith (S : State) (sid : string) (d : Decision) : Prop :=
  exists k,
    privateKeyStore S !! sid = Some k /\
    sign (Custody.privateKeyPem k) (signedBytes (decisionText d)) = Ret (d_signature d).

(** A sealed object with its wrapped keys: the object is the
    encryption of some bytes under a key, and each entry wraps that key
    for the user it is filed under. *)
Definition sealedFor (us : gmap string User) (enc : EncObj)
    (keys : gmap string string) : Prop :=
  exists key ivb plain,
    aesEncrypt ivb plain key = Ret enc /\
    forall x y, keys !! x = Some y -> wrappedFor us key x y.

Inductive change (r : Request) (S S' : State) : Prop :=
| Quiet :
    users (db S') = users (db S) -> papers (db S') = papers (db S) ->
    reviews (db S') = reviews (db S) -> sessions S' = sessions S ->
    privateKeyStore S' ⊆ privateKeyStore S ->
    change r S S'
| SignedUp email u :
    users (db S) !! email = None -> u_email u = email ->
    users (db S') = <[email := u]> (users (db S)) ->
    papers (db S') = papers (db S) -> reviews (db S') = reviews (db S) ->
    sessions S' = sessions S -> privateKeyStore S' = privateKeyStore S ->
    madeBy r email u ->
    change r S S'
| Counted email u u' :
    users (db S) !! email = Some u -> sameIdentity u u' ->
    users (db S') = <[email := u']> (users (db S)) ->
    papers (db S') = papers (db S) -> reviews (db S') = reviews (db S) ->
    sessions S' = sessions S -> privateKeyStore S' = privateKeyStore S ->
    change r S S'
| LoggedIn sid email u u' key :
    users (db S) !! email = Some u -> sameIdentity u u' ->
    users (db S') = <[email := u']> (users (db S)) ->
    papers (db S') = papers (db S) -> reviews (db S') = reviews (db S) ->
    sessions S' = <[sid := sessionOf u]> (sessions S) ->
    privateKeyStore S' = <[sid := key]> (privateKeyStore S) ->
    unlockedBy u key ->
    change r S S'
| LoggedOut sid :
    users (db S') = users (db S) -> papers (db S') = papers (db S) ->
    reviews (db S') = reviews (db S) ->
    sessions S' = delete sid (sessions S) ->
    privateKeyStore S' = delete sid (privateKeyStore S) ->
    change r S S'
| PaperCreated sid user pid p :
    sessions S !! sid = Some user -> s_role user = Author ->
    (fresh r S -> papers (db S) !! pid = None) ->
    p_id p = pid -> owner p = s_email user -> length (versions p) = 1%nat ->
    decision p = None ->
    (forall x, x ∈ dom (encryptedKeys p) -> x ∈ allowedUsers p) ->
    papers (db S') = <[pid := p]> (papers (db S)) ->
    users (db S') = users (db S) -> reviews (db S') = reviews (db S) ->
    sessions S' = sessions S -> privateKeyStore S' = privateKeyStore S ->
    (exists v, versions p = [v] /\
       sealedFor (users (db S)) (v_enc v) (encryptedKeys p)) ->
    change r S S'
| Decided sid user pid p d :
    sessions S !! sid = Some user -> s_role user = Collaborator ->
    papers (db S) !! pid = Some p ->
    d_by d = s_email user -> s_email user ∈ collaborators p ->
    papers (db S') = <[pid := withDecision p d]> (papers (db S)) ->
    users (db S') = users (db S) -> reviews (db S') = reviews (db S) ->
    sessions S' = sessions S -> privateKeyStore S' ⊆ privateKeyStore S ->
    signedWith S sid d ->
    change r S S'
| ReviewFiled sid user rid rv p :
    sessions S !! sid = Some user -> s_role user = Reviewer ->
    (fresh r S -> reviews (db S) !! rid = None) ->
    r_id rv = rid -> papers (db S) !! r_pid rv = Some p ->
    r_by rv = s_email user -> s_email user ∈ reviewers p ->
    (forall x, x ∈ dom (r_encryptedKeys rv) -> x ∈ reviewRecipients p) ->
    reviews (db S') = <[rid := rv]> (reviews (db S)) ->
    users (db S') = users (db S) -> papers (db S') = papers (db S) ->
    sessions S' = sessions S -> privateKeyStore S' = privateKeyStore S ->
    sealedFor (users (db S)) (r_enc rv) (r_encryptedKeys rv) ->
    change r S S'.


(** The uuids drawn along a sequence of requests are not in use. *)
Fixpoint freshRun (trace : list (Z * Request)) (S : State) : Prop :=
  match trace with
  | [] => True
  | (now, r) :: rest => fresh r S /\ freshRun rest (handle now r S)
  end.

End WithCrypto.

(** Key generation gives key pairs. *)
Definition goodKeys `{NodeCrypto} (r : Request) : Prop :=
  match r with
  | Signup ent _ _ _ => keyPair (g_publicKey ent) (g_privateKey ent)
  | _ => True
  end.

(** *** The invariant of the states the server reaches *)

Definition registeredAs (S : State) (email : string) (role : Role) : Prop :=
  exists u, users (db S) !! email = Some u /\ u_role u = role.

Record Inv (S : State) : Prop := {
  (** a user is filed under their e-mail address *)
  inv_users : forall e u, users (db S) !! e = Some u -> u_email u = e;
  (** a session belongs to a registered user and carries their role *)
  inv_sessions : forall sid su, sessions S !! sid = Some su ->
    exists u, users (db S) !! s_email su = Some u /\ su = sessionOf u;
  (** a private key is held for a live session only *)
  inv_keys : forall sid k, privateKeyStore S !! sid = Some k ->
    is_Some (sessions S !! sid);
  (** a paper has its one version, an owner who signed up as Author,
      wrapped keys for listed people only, and a decision, if any, by
      one of its collaborators who signed up as Collaborator *)
  inv_papers : forall pid p, papers (db S) !! pid = Some p ->
    p_id p = pid /\ length (versions p) = 1%nat /\
    registeredAs S (owner p) Author /\
    (forall x, x ∈ dom (encryptedKeys p) -> x ∈ allowedUsers p) /\
    (forall d, decision p = Some d ->
       d_by d ∈ collaborators p /\ registeredAs S (d_by d) Collaborator);
  (** a review is filed under a stored paper by one of its reviewers,
      who signed up as Reviewer, with keys for owner and collaborators
      only *)
  inv_reviews : forall rid rv, reviews (db S) !! rid = Some rv ->
    r_id rv = rid /\
    exists p, papers (db S) !! r_pid rv = Some p /\ r_by rv ∈ reviewers p /\
      registeredAs S (r_by rv) Reviewer /\
      (forall x, x ∈ dom (r_encryptedKeys rv) -> x ∈ reviewRecipients p)
}.

(** What the keys and the sealed objects of a reached state are. *)
Record Sealed `{NodeCrypto} `{NodeBcrypt} (S : State) : Prop := {
  (** a user's hash is that of a password under whose derived key the
      private key of the user's key pair is sealed *)
  sl_users : forall e u, users (db S) !! e = Some u ->
    exists pw salt ivb sk,
      passwordHash u = bcryptHash pw salt /\
      aesEncrypt ivb (utf8enc sk) (deriveKey pw (rsaPrivSalt u))
        = Ret (rsaPrivateKeyEncrypted u) /\
      keyPair (rsaPublicKey u) sk;
  (** the key held for a session is the private key of its user *)
  sl_keys : forall sid k su,
    privateKeyStore S !! sid = Some k -> sessions S !! sid = Some su ->
    exists u, users (db S) !! s_email su = Some u /\
      keyPair (rsaPublicKey u) (Custody.privateKeyPem k);
  (** a stored decision verifies *)
  sl_decisions : forall pid p d, papers (db S) !! pid = Some p ->
    decision p = Some d -> verifyDecision (db S) d = Ret true;
  (** papers and reviews are sealed for the holders of their keys *)
  sl_papers : forall pid p, papers (db S) !! pid = Some p ->
    exists v, versions p = [v] /\
      sealedFor (users (db S)) (v_enc v) (encryptedKeys p);
  sl_reviews : forall rid rv, reviews (db S) !! rid = Some rv ->
    sealedFor (users (db S)) (r_enc rv) (r_encryptedKeys rv)
}.

(** The server before the first request: an empty file, no session. *)
Definition initial : State :=
  {| db := {| users := ∅; papers := ∅; reviews := ∅; otps := ∅; logs := [] |};
     sessions := ∅; privateKeyStore := ∅ |}.

End Handlers.

(** ** The research portal: [cryptoService.generateOTP],
       [authMiddleware] and [authController.resendOTP] *)

Module PortalAuth.
Import AuthController.

(** [n] is the draw [crypto.randomInt(100000, 999999)]. *)
Definition generateOTP (n : Z) : string := pretty n.

(** [isAuthenticated]: [next()], or the answer 401. *)
Definition isAuthenticated (s : Session) : bool :=
  bool_decide (is_Some (userId s)) && mfaVerified s.

(** [requireMFA]: [next()], or the answer 403. *)
Definition requireMFA (s : Session) : bool := mfaVerified s.

(** [parseInt(process.env.OTP_EXPIRY || 300000)], the variable unset *)
Definition OTP_EXPIRY : Z := 300000.

Definition withSession (S : State) (s : Session) : State :=
  {| users := users S; session := s; audit := audit S |}.

Definition sendFailed : Reply := {| status := 500; message := "Failed to send OTP" |}.
Definition resent : Reply := {| status := 200; message := "OTP resent to email" |}.

(** [resendOTP]; [draw] is the draw of [generateOTP] and [emailSent]
    the result of [emailService.sendOTP]. *)
Definition resendOTP (now draw : Z) (emailSent : bool) (S : State) : Reply * State :=
  let otp := generateOTP draw in
  match userId (session S), pendingRegistration (session S) with
  | None, Some pending =>
      let pending1 := {| pe_email := pe_email pending; pe_username := pe_username pending;
                         pe_otpCode := otp; pe_otpExpiry := now + OTP_EXPIRY |} in
      let S1 := withSession S {| userId := None; mfaVerified := mfaVerified (session S);
                                 pendingRegistration := Some pending1 |} in
      if negb emailSent then (sendFailed, S1) else (resent, S1)
  | None, None => ({| status := 401; message := "Please login first" |}, S)
  | Some uid, _ =>
      match users S !! uid with
      | None => ({| status := 401; message := "User not found" |}, S)
      | Some user =>
          let user1 := {| email := email user; username := username user;
                          otpCode := Some otp; otpExpiry := Some (now + OTP_EXPIRY);
                          isEmailVerified := isEmailVerified user;
                          lastLogin := lastLogin user |} in
          let S1 := {| users := <[uid := user1]> (users S); session := session S;
                       audit := audit S |} in
          if negb emailSent then (sendFailed, S1) else (resent, S1)
      end
  end.

(** [process.env.SESSION_TIMEOUT || 3600000], the variable unset *)
Definition SESSION_TIMEOUT : Z := 3600000.

(** [checkSessionTimeout] on the [lastActivity] stamp of the session:
    [None] when the session is destroyed and the answer is 401,
    otherwise the stamp the request leaves. *)
Definition checkSessionTimeout (now : Z) (lastActivity : option Z) : option Z :=
  let last := match lastActivity with
              | Some l => if bool_decide (l = 0) then now else l
              | None => now
              end in
  if bool_decide (now - last > SESSION_TIMEOUT) then None else Some now.

(** Successive requests of one session, by their instants: whether
    each of them passes the timeout check. *)
Fixpoint served (times : list Z) (lastActivity : option Z) : bool :=
  match times with
  | [] => true
  | t :: rest =>
      match checkSessionTimeout t lastActivity with
      | None => false
      | Some stamp => served rest (Some stamp)
      end
  end.

End PortalAuth.

(** ** A stand-in for bcrypt and a run of the server from the empty file *)

Module ToyBcrypt.

(** The hash is the password, as [Toy.crypto] compares. *)
#[global] Instance bcrypt : NodeBcrypt := {|
  bcryptHash := fun password _ => password
|}.

End ToyBcrypt.

Module Story.
Import Server Handlers.

Definition dave : string := "dave@example.com".

(** The draws of a sign-up: the key pair is (pem, pem), the PBKDF2 salt
    one zero byte. *)
Definition draws (pem id : string) (code : Z) : SignupEntropy :=
  {| g_publicKey := pem; g_privateKey := pem; g_salt := [Toy.zeroByte];
     g_iv := Toy.pad 12 []; g_bcryptSalt := "$2a$12$"; g_id := id; g_otp := code |}.

Definition drawsA : SignupEntropy := draws "KEY-A" "id-alice@example.com" 482913.
Definition drawsC : SignupEntropy := draws "KEY-C" "id-colab@example.com" 100000.
Definition drawsR : SignupEntropy := draws "KEY-R" "id-rev@example.com" 999999.
Definition drawsD : SignupEntropy := draws "KEY-D" "id-dave@example.com" 271828.

Definition reviewEntropy : Entropy :=
  {| e_aesKey := Toy.pad 32 (Toy.keyBytes "k3"); e_iv := Toy.pad 12 (Toy.keyBytes "n3");
     e_seed := fun _ => []; e_id := "review-1" |}.

(** Alice signs up and is alone in the file. *)
Definition aliceOnly : State :=
  (signup 1000 drawsA Scenario.alice Scenario.password "Author" initial).2.

(** Four people sign up; three log in; Alice submits a paper, the
    reviewer a review, the collaborator the decision. *)
Definition signups : list (Z * Request) :=
  [ (1000, Signup drawsA Scenario.alice Scenario.password "Author");
    (1500, MailSent Scenario.alice true);
    (2000, Signup drawsC Scenario.colab Scenario.password "Collaborator");
    (3000, Signup drawsR Scenario.rev Scenario.password "Reviewer");
    (3500, Signup drawsD dave Scenario.password "Collaborator");
    (4000, VerifyOtp Scenario.alice "482913") ].

Definition work : list (Z * Request) :=
  [ (5000, Login "sess-a" Scenario.alice Scenario.password);
    (6000, Login "sess-c" Scenario.colab Scenario.password);
    (7000, Login "sess-r" Scenario.rev Scenario.password);
    (7500, Login "sess-d" dave Scenario.password);
    (8000, CreatePaper Scenario.entropy "sess-a" Scenario.paperReq);
    (8500, SubmitReview reviewEntropy "sess-r" "paper-1" "sound");
    (9000, IssueDecision "sess-c" "paper-1" Scenario.decisionText1);
    (11000, GetPaper "sess-r" "paper-1");
    (12000, ListPapers "sess-a");
    (13000, Logout "sess-r");
    (3700000, Sweep) ].

Definition trace : list (Z * Request) := signups ++ work.

Definition signedUp : State := run signups initial.
Definition done : State := run trace initial.

(** Alice after five wrong passwords, the last at 5000. *)
Definition lockedAlice : User :=
  withLogin (Scenario.mkUser Scenario.alice Author "KEY-A" Scenario.password)
    5 (Some (5000 + lockDuration)).

Definition locked : State :=
  setDb Scenario.start
    (setUsers (db Scenario.start)
       (<[Scenario.alice := lockedAlice]> (users (db Scenario.start)))).

(** The requests of one portal session, fifty minutes apart. *)
Definition fiftyMinutes : list Z := [3000000; 6000000; 9000000; 12000000].

End Story.

(** ** Tactics *)

(** Case analysis on every decided test in the goal. *)
Ltac acl_cases :=
  repeat (case_bool_decide; try discriminate; try congruence; subst; simpl).

(** Every branch of a handler leaves the goal as it stands. *)
Ltac frame :=
  unfold Server.unauthenticated;
  repeat (case_match || case_bool_decide); simpl; try done.

(** Division by a constant. *)
Ltac divlia := zify; Z.div_mod_to_equations; lia.

(** A request that leaves users, papers, reviews and sessions alone. *)
Ltac quiet :=
  apply Handlers.Quiet; simpl; try done;
  try reflexivity; try apply delete_subseteq; try apply map_filter_subseteq.

(** Every branch of a handler appends to the log or leaves it. *)
Ltac logs_grow :=
  unfold Handlers.authRequired, Server.unauthenticated,
    Custody.getPrivateKeyForSession;
  repeat (case_match || case_bool_decide); simplify_eq/=;
  try reflexivity; try (by apply prefix_app_r).

(* ===================================================================== *)
(** * Part II: the properties                                             *)
(* ===================================================================== *)

(** ** The access-control matrix *)

Section AclFacts.
Import Js Acl.

(** Every triple of the table is granted. *)
Lemma inMatrix_granted role o a :
  inMatrix role o a -> checkAccess role o a = Some (Ret true).
Proof.
  intros (acts & Hrow & Ha).
  unfold matrix in Hrow.
  repeat (apply elem_of_cons in Hrow as [Hrow|Hrow];
          [ inversion Hrow; subst; clear Hrow;
            unfold checkAccess; simpl; acl_cases;
            try (by apply elem_of_nil in Ha) | ]).
  by apply elem_of_nil in Hrow.
Qed.

(** For the three roles that sign-up admits, nothing outside the table
    is granted, whatever the object type and action. *)
Lemma checkAccess_role_sound (r : Server.Role) o a :
  checkAccess (Server.roleName r) o a = Some (Ret true) ->
  inMatrix (Server.roleName r) o a.
Proof.
  unfold inMatrix, matrix.
  destruct r; unfold checkAccess; simpl; acl_cases;
    unfold getInherited; simpl; acl_cases;
    try (intros _; eexists; split; [|eassumption]; set_solver).
Qed.

Lemma granted_iff_inMatrix (r : Server.Role) o a :
  granted (Server.roleName r) o a = true <-> inMatrix (Server.roleName r) o a.
Proof.
  unfold granted. split.
  - destruct (checkAccess _ o a) as [[[]|]|] eqn:E; try discriminate.
    intros _. by apply checkAccess_role_sound.
  - intros Hm. by rewrite (inMatrix_granted _ _ _ Hm).
Qed.

Lemma constructor_not_in_matrix : ~ inMatrix "constructor" "name" "Object".
Proof.
  intros (acts & Hrow & _). unfold matrix in Hrow.
  repeat (apply elem_of_cons in Hrow as [Hrow|Hrow]; [discriminate|]).
  by apply elem_of_nil in Hrow.
Qed.
End AclFacts.

(** C8: the access check is not fail-closed on every triple.  The role
    ["constructor"] is in no row of the matrix, yet
    [checkAccess("constructor", "name", "Object")] returns [true]: the
    bracket read [ACL["constructor"]] finds the inherited function
    [Object], whose [name] is the string ["Object"], and
    ["Object".includes("Object")] holds.  With a known role and the
    object type ["constructor"] the call throws instead of returning
    [false]. *)
Theorem checkAccess_inherited_role_grants :
  Acl.checkAccess "constructor" "name" "Object" = Some (Ret true) /\
  ~ Acl.inMatrix "constructor" "name" "Object" /\
  Acl.checkAccess "Author" "constructor" "read"
    = Some (Throw (TypeError "allowed.includes is not a function")).
Proof.
  split; [reflexivity|]. split; [apply constructor_not_in_matrix|reflexivity].
Qed.

(** ** Key custody *)

Section CustodyFacts.
Import Custody.

Lemma lookup_expired (store : gmap string KeyRec) sid rec now :
  store !! sid = Some rec -> now > expiresAt rec ->
  getPrivateKeyForSession now sid store = (None, delete sid store).
Proof.
  intros Hs Hn. unfold getPrivateKeyForSession. rewrite Hs.
  by rewrite bool_decide_true.
Qed.

(** A key bound at [t0] is gone at any later time past the TTL. *)
Lemma bind_then_lookup_after_ttl (store : gmap string KeyRec) sid pem t0 now :
  now > t0 + TTL ->
  getPrivateKeyForSession now sid (storePrivateKeyForSession t0 sid pem store)
    = (None, delete sid store).
Proof.
  intros Hn. unfold storePrivateKeyForSession.
  erewrite lookup_expired; [|apply lookup_insert_eq|simpl; lia].
  by rewrite delete_insert_eq.
Qed.

(** Until then it is returned and stays. *)
Lemma bind_then_lookup_within_ttl (store : gmap string KeyRec) sid pem t0 now :
  now <= t0 + TTL ->
  getPrivateKeyForSession now sid (storePrivateKeyForSession t0 sid pem store)
    = (Some pem, storePrivateKeyForSession t0 sid pem store).
Proof.
  intros Hn. unfold getPrivateKeyForSession, storePrivateKeyForSession.
  rewrite lookup_insert_eq. simpl. by rewrite bool_decide_false by lia.
Qed.

(** The sweep keeps exactly the entries that expire later than [now]. *)
Lemma sweep_spec (store : gmap string KeyRec) now sid rec :
  sweep now store !! sid = Some rec <->
  store !! sid = Some rec /\ now < expiresAt rec.
Proof.
  unfold sweep. rewrite map_lookup_filter_Some. simpl. intuition lia.
Qed.
End CustodyFacts.

(** C7: a lookup strictly after the expiry instant of the stored handle
    returns [null], whatever else is in the map, and removes the entry of
    that session (and only that one) from the custody map. *)
Theorem custody_lookup_after_expiry_evicts
    (store : gmap string Custody.KeyRec) (sid : string) (rec : Custody.KeyRec) (now : Z) :
  store !! sid = Some rec ->
  now > Custody.expiresAt rec ->
  let r := Custody.getPrivateKeyForSession now sid store in
  r.1 = None /\ r.2 !! sid = None /\
  (forall sid', sid' <> sid -> r.2 !! sid' = store !! sid').
Proof.
  intros Hs Hn r. subst r. rewrite (lookup_expired store sid rec now Hs Hn). simpl.
  split; [done|]. split; [apply lookup_delete_eq|].
  intros sid' Hne. by apply lookup_delete_ne.
Qed.

Lemma custody_lookup_after_expiry_evicts_witness :
  let store := Custody.storePrivateKeyForSession 1000 "sess-1" "PEM" ∅ in
  let r := Custody.getPrivateKeyForSession (1000 + Custody.TTL + 1) "sess-1" store in
  r.1 = None /\ r.2 !! "sess-1" = None /\
  (forall sid', sid' <> "sess-1" -> r.2 !! sid' = store !! sid').
Proof.
  intros store.
  apply (custody_lookup_after_expiry_evicts store "sess-1"
           {| Custody.privateKeyPem := "PEM"; Custody.expiresAt := 1000 + Custody.TTL |}).
  - apply lookup_insert_eq.
  - simpl. lia.
Defined.

(** ** The OTP challenge of the server *)

Section OtpFacts.
Import Server Runs.


Lemma verifyOtp_used D email r now code :
  otps D !! email = Some r -> used r = true ->
  exists D' r', verifyOtp now email code D = (otpUsed, D') /\
    otps D' !! email = Some r' /\ used r' = true.
Proof.
  intros Hr Hu. unfold verifyOtp. rewrite Hr. simpl. rewrite Hu.
  eexists _, _. split; [reflexivity|]. simpl.
  rewrite lookup_insert_eq. split; [reflexivity|]. exact Hu.
Qed.

Lemma verifyOtpMany_used calls : forall D email r,
  otps D !! email = Some r -> used r = true ->
  (verifyOtpMany calls email D).1 = replicate (length calls) otpUsed.
Proof.
  induction calls as [|[t c] rest IH]; intros D email r Hr Hu; [reflexivity|].
  simpl. destruct (verifyOtp_used D email r t c Hr Hu) as (D' & r' & -> & Hr' & Hu').
  specialize (IH D' email r' Hr' Hu').
  destruct (verifyOtpMany rest email D') as [os D2]. simpl in *. by rewrite IH.
Qed.

Lemma verifyOtp_ok D email now code D' :
  verifyOtp now email code D = (json 200 JOk, D') ->
  exists r', otps D' !! email = Some r' /\ used r' = true.
Proof.
  unfold verifyOtp. destruct (otps D !! email) as [r|] eqn:Hr; [|by intros [=]].
  simpl. destruct (used r); [by intros [=]|].
  case_bool_decide; [by intros [=]|].
  case_bool_decide; simpl; [|by intros [=]].
  intros [= <-]. eexists. simpl. rewrite lookup_insert_eq. done.
Qed.

Lemma verifyOtp_mismatch D email r now code :
  otps D !! email = Some r -> used r = false ->
  now <= expires r -> code <> otp r ->
  exists D' r', verifyOtp now email code D = (otpInvalid, D') /\
    otps D' !! email = Some r' /\
    otp r' = otp r /\ expires r' = expires r /\
    attempts r' = Some (orZero (attempts r) + 1) /\
    used r' = bool_decide (orZero (attempts r) + 1 >= otpAttemptLimit).
Proof.
  intros Hr Hu Hexp Hc. unfold verifyOtp. rewrite Hr. simpl. rewrite Hu.
  rewrite bool_decide_false by lia.
  rewrite (bool_decide_false (otp r = code)) by congruence. simpl.
  case_bool_decide.
  - eexists _, _. split; [reflexivity|]. simpl. rewrite !lookup_insert_eq.
    split; [reflexivity|]. simpl. done.
  - eexists _, _. split; [reflexivity|]. simpl. rewrite !lookup_insert_eq.
    split; [reflexivity|]. simpl. rewrite Hu. done.
Qed.

Lemma mismatch_run calls : forall D email r,
  otps D !! email = Some r -> used r = false ->
  orZero (attempts r) + Z.of_nat (length calls) <= otpAttemptLimit ->
  Forall (fun c : Z * string => c.1 <= expires r /\ c.2 <> otp r) calls ->
  exists D' r', verifyOtpMany calls email D = (replicate (length calls) otpInvalid, D') /\
    otps D' !! email = Some r' /\
    orZero (attempts r') = orZero (attempts r) + Z.of_nat (length calls) /\
    (calls <> [] -> used r' = bool_decide (orZero (attempts r') >= otpAttemptLimit)).
Proof.
  induction calls as [|[t c] rest IH]; intros D email r Hr Hu Hn Hall.
  - exists D, r. simpl. split; [done|]. split; [done|]. split; [lia|done].
  - apply Forall_cons in Hall as [[Ht Hc] Hall]. simpl in Ht, Hc.
    destruct (verifyOtp_mismatch D email r t c Hr Hu Ht Hc)
      as (D1 & r1 & E1 & Hr1 & Ho & He & Ha & Hu1).
    simpl. rewrite E1.
    destruct rest as [|c2 rest].
    + simpl. exists D1, r1. split; [done|]. split; [done|].
      rewrite Ha. simpl. split; [lia|]. intros _. rewrite Hu1. done.
    + assert (used r1 = false) as Hu1'.
      { rewrite Hu1. apply bool_decide_false. simpl length in Hn. lia. }
      destruct (IH D1 email r1 Hr1 Hu1') as (D2 & r2 & E2 & Hr2 & Ha2 & Hu2).
      { rewrite Ha. simpl orZero. simpl length in *. lia. }
      { rewrite Ho, He. exact Hall. }
      rewrite E2. exists D2, r2. split; [done|]. split; [done|].
      split.
      * rewrite Ha2, Ha. simpl orZero. simpl length. lia.
      * intros _. apply Hu2. done.
Qed.

End OtpFacts.

(** ** Login and lockout *)

Section LoginFacts.
Context `{NodeCrypto}.
Import Server Runs.


Lemma login_locked now sid email pw S u :
  users (db S) !! email = Some u -> isLocked now u = true ->
  login now sid email pw S =
    (loginLocked, setDb S (logEvent now (db S) "login_locked" [("email", email)])).
Proof. intros Hu Hl. unfold login. by rewrite Hu, Hl. Qed.

Lemma login_wrong now sid email pw S u :
  users (db S) !! email = Some u -> isLocked now u = false ->
  bcryptCompare pw (passwordHash u) = false ->
  exists S' u', login now sid email pw S = (loginInvalid, S') /\
    users (db S') !! email = Some u' /\
    passwordHash u' = passwordHash u /\
    failedLogins u' = failedLogins u + 1 /\
    lockUntil u' = (if bool_decide (failedLogins u + 1 >= loginFailureLimit)
                    then Some (now + lockDuration) else lockUntil u).
Proof.
  intros Hu Hl Hp. unfold login. rewrite Hu, Hl, Hp. simpl.
  eexists _, _. split; [reflexivity|]. simpl. rewrite lookup_insert_eq. done.
Qed.

Lemma login_success now sid email pw S u :
  users (db S) !! email = Some u -> isLocked now u = false ->
  bcryptCompare pw (passwordHash u) = true ->
  exists o S' u', login now sid email pw S = (o, S') /\
    (o = json 200 JOk \/ o = json 500 (JError "crypto")) /\
    users (db S') !! email = Some u' /\
    failedLogins u' = 0 /\ lockUntil u' = None.
Proof.
  intros Hu Hl Hp. unfold login. rewrite Hu, Hl, Hp. simpl.
  destruct (CryptoJs.aesDecrypt _ _);
    eexists _, _, _; (split; [reflexivity|]); simpl; rewrite lookup_insert_eq; auto.
Qed.

Lemma wrong_run calls : forall sid email S u,
  users (db S) !! email = Some u -> lockUntil u = None ->
  failedLogins u + Z.of_nat (length calls) <= loginFailureLimit ->
  Forall (fun c : Z * string => bcryptCompare c.2 (passwordHash u) = false) calls ->
  exists S' u', loginMany calls sid email S = (replicate (length calls) loginInvalid, S') /\
    users (db S') !! email = Some u' /\
    passwordHash u' = passwordHash u /\
    failedLogins u' = failedLogins u + Z.of_nat (length calls) /\
    lockUntil u' =
      match last calls with
      | Some c => if bool_decide (failedLogins u' >= loginFailureLimit)
                  then Some (c.1 + lockDuration) else None
      | None => None
      end.
Proof.
  induction calls as [|[t pw] rest IH]; intros sid email S u Hu Hl Hn Hall.
  - exists S, u. simpl. repeat split; try done. lia.
  - apply Forall_cons in Hall as [Hpw Hall]. simpl in Hpw.
    assert (isLocked t u = false) as Hnl by (unfold isLocked; by rewrite Hl).
    destruct (login_wrong t sid email pw S u Hu Hnl Hpw)
      as (S1 & u1 & E1 & Hu1 & Hh1 & Hf1 & Hk1).
    simpl. rewrite E1.
    destruct rest as [|c2 rest].
    + simpl. exists S1, u1. split; [done|]. split; [done|]. split; [done|].
      split; [lia|]. rewrite Hk1, Hf1, Hl. done.
    + assert (lockUntil u1 = None) as Hl1.
      { rewrite Hk1, Hl. rewrite bool_decide_false; [done|]. simpl length in Hn.
        unfold loginFailureLimit in *. lia. }
      destruct (IH sid email S1 u1 Hu1 Hl1) as (S2 & u2 & E2 & Hu2 & Hh2 & Hf2 & Hk2).
      { rewrite Hf1. simpl length in *. lia. }
      { rewrite Hh1. exact Hall. }
      rewrite E2. exists S2, u2. split; [done|]. split; [done|].
      split; [congruence|]. split; [|exact Hk2].
      rewrite Hf2, Hf1. simpl length. lia.
Qed.

End LoginFacts.

(** ** The OTP check of the research portal *)

Section AuthFacts.
Import AuthController Runs.


Lemma auth_mismatch S uid u now id code :
  userId (session S) = Some uid -> users S !! uid = Some u ->
  sixDigits code = true -> otpCode u <> Some code ->
  verifyOTP now id code S = (invalidOTP, logMFA S (email u) false).
Proof.
  intros Hs Hu H6 Hc. unfold verifyOTP.
  rewrite bool_decide_false.
  2:{ intros ->. discriminate H6. }
  rewrite Hs, H6, Hu. simpl. by rewrite bool_decide_false.
Qed.

Lemma auth_accepts S uid u now id code :
  userId (session S) = Some uid -> users S !! uid = Some u ->
  sixDigits code = true -> otpCode u = Some code ->
  after now (otpExpiry u) = false ->
  exists S' u', verifyOTP now id code S = (loginSuccessful, S') /\
    userId (session S') = Some uid /\
    users S' !! uid = Some u' /\ otpCode u' = None.
Proof.
  intros Hs Hu H6 Hc He. unfold verifyOTP.
  rewrite bool_decide_false.
  2:{ intros ->. discriminate H6. }
  rewrite Hs, H6, Hu. simpl. rewrite bool_decide_true by done. simpl. rewrite He.
  eexists _, _. split; [reflexivity|]. simpl. rewrite lookup_insert_eq. done.
Qed.

(** Mismatches leave the challenge as it was: any number of them. *)
Lemma auth_mismatch_run calls : forall S uid u id,
  userId (session S) = Some uid -> users S !! uid = Some u ->
  Forall (fun c : Z * string => sixDigits c.2 = true /\ otpCode u <> Some c.2) calls ->
  exists S', verifyOTPMany calls id S = (replicate (length calls) invalidOTP, S') /\
    userId (session S') = Some uid /\ users S' !! uid = Some u.
Proof.
  induction calls as [|[t c] rest IH]; intros S uid u id Hs Hu Hall.
  - exists S. done.
  - apply Forall_cons in Hall as [[H6 Hc] Hall]. simpl in H6, Hc.
    simpl. rewrite (auth_mismatch S uid u t id c Hs Hu H6 Hc).
    destruct (IH (logMFA S (email u) false) uid u id Hs Hu Hall) as (S' & E & Hs' & Hu').
    rewrite E. exists S'. done.
Qed.

(** Once the code is cleared no verify succeeds, and it stays cleared. *)
Lemma auth_cleared S uid u now id code :
  userId (session S) = Some uid -> users S !! uid = Some u -> otpCode u = None ->
  exists r S', verifyOTP now id code S = (r, S') /\
    (status r = 400 \/ status r = 401) /\
    userId (session S') = Some uid /\ users S' !! uid = Some u.
Proof.
  intros Hs Hu Hc. unfold verifyOTP.
  case_bool_decide; [eexists _, _; split; [reflexivity|]; simpl; auto|].
  rewrite Hs. destruct (sixDigits code); simpl;
    [|eexists _, _; split; [reflexivity|]; simpl; auto].
  rewrite Hu, Hc. simpl.
  eexists _, _; split; [reflexivity|]; simpl; auto.
Qed.

Lemma auth_cleared_run calls : forall S uid u id,
  userId (session S) = Some uid -> users S !! uid = Some u -> otpCode u = None ->
  Forall (fun r => status r = 400 \/ status r = 401) (verifyOTPMany calls id S).1.
Proof.
  induction calls as [|[t c] rest IH]; intros S uid u id Hs Hu Hc; [constructor|].
  simpl. destruct (auth_cleared S uid u t id c Hs Hu Hc) as (r & S' & E & Hr & Hs' & Hu').
  rewrite E. specialize (IH S' uid u id Hs' Hu' Hc).
  destruct (verifyOTPMany rest id S') as [os S2]. simpl in *. by constructor.
Qed.
End AuthFacts.

(** ** OTP challenges: single use and lockout *)




(** ** Account lockout *)




(** ** Sealing: the wrapped-key map *)

Section SealFacts.
Context `{NodeCrypto}.
Import Server CryptoJs.

Lemma indexOf_Some v a i : indexOf v a = Some i -> a !! i = Some v.
Proof.
  revert i. induction a as [|x a IH]; intros i; simpl; [done|].
  case_bool_decide; [intros [= <-]; by subst|].
  destruct (indexOf v a) as [j|]; simpl; [|done].
  intros [= <-]. simpl. by apply IH.
Qed.

Lemma indexOf_elem v a : v ∈ a -> exists i, indexOf v a = Some i.
Proof.
  induction a as [|x a IH]; [by intros ?%elem_of_nil|].
  intros Hv. simpl. case_bool_decide; [by eexists|].
  apply elem_of_cons in Hv as [->|Hv]; [done|].
  destruct (IH Hv) as [i ->]. by eexists.
Qed.

Lemma elem_of_dedupe a v : v ∈ dedupe a <-> v ∈ a.
Proof.
  unfold dedupe. rewrite list_elem_of_fmap. split.
  - intros ([i w] & -> & Hin). apply list_elem_of_filter in Hin as [Hidx _].
    simpl in *. apply indexOf_Some in Hidx. by eapply list_elem_of_lookup_2.
  - intros Hv. destruct (indexOf_elem v a Hv) as [i Hi].
    exists (i, v). split; [done|]. apply list_elem_of_filter. split; [done|].
    apply list_elem_of_lookup. exists i. rewrite list_lookup_imap.
    apply indexOf_Some in Hi. by rewrite Hi.
Qed.

Lemma wrapOne_dom seed us key acc r keys :
  wrapOne seed us key acc r = Ret keys ->
  forall x, x ∈ dom keys <-> x ∈ dom acc \/ (x = r /\ hasPublicKey us r = true).
Proof.
  unfold wrapOne, hasPublicKey. destruct (us !! r) as [u|]; simpl.
  - case_bool_decide; simpl.
    + intros [= <-] x. naive_solver.
    + destruct (rsaEncrypt _ _ _) as [c|]; simpl; [|done].
      intros [= <-] x. rewrite dom_insert_L. set_solver.
  - intros [= <-] x. naive_solver.
Qed.

Lemma wrapLoop_dom rs : forall i seeds us key acc keys,
  wrapLoop i seeds us key acc rs = Ret keys ->
  forall x, x ∈ dom keys <-> x ∈ dom acc \/ (x ∈ rs /\ hasPublicKey us x = true).
Proof.
  induction rs as [|r rs IH]; intros i seeds us key acc keys; simpl.
  - intros [= <-] x. set_solver.
  - destruct (wrapOne _ us key acc r) as [k1|] eqn:E1; simpl; [|done].
    intros E x. rewrite (IH _ _ _ _ _ _ E x), (wrapOne_dom _ _ _ _ _ _ E1 x).
    rewrite elem_of_cons. naive_solver.
Qed.

Lemma wrapOne_wrapped seed us key acc r keys :
  wrapOne seed us key acc r = Ret keys ->
  (forall y x, acc !! y = Some x -> wrappedFor us key y x) ->
  forall y x, keys !! y = Some x -> wrappedFor us key y x.
Proof.
  unfold wrapOne. destruct (us !! r) as [u|] eqn:Hu; simpl.
  - case_bool_decide; simpl; [by intros [= <-]|].
    unfold rsaEncrypt.
    destruct (publicEncrypt _ _ _ _) as [c|] eqn:Ec; simpl; [|done].
    intros [= <-] Hacc y x. rewrite lookup_insert. case_decide.
    + subst y. intros [= <-]. by exists u, seed, c.
    + apply Hacc.
  - by intros [= <-].
Qed.

Lemma wrapLoop_wrapped rs : forall i seeds us key acc keys,
  wrapLoop i seeds us key acc rs = Ret keys ->
  (forall y x, acc !! y = Some x -> wrappedFor us key y x) ->
  forall y x, keys !! y = Some x -> wrappedFor us key y x.
Proof.
  induction rs as [|r rs IH]; intros i seeds us key acc keys; simpl.
  - by intros [= <-].
  - destruct (wrapOne _ us key acc r) as [k1|] eqn:E1; simpl; [|done].
    intros E Hacc. eapply IH; [exact E|]. by eapply wrapOne_wrapped.
Qed.

Lemma wrapLoop_total rs : forall i seeds us key acc,
  rsa_encrypts_keys -> length key = 32%nat ->
  (forall r u, r ∈ rs -> us !! r = Some u -> rsaPublicKey u <> "" ->
     exists sk, keyPair (rsaPublicKey u) sk) ->
  exists keys, wrapLoop i seeds us key acc rs = Ret keys.
Proof.
  induction rs as [|r rs IH]; intros i seeds us key acc Hrsa Hlen Hkeys; simpl.
  - by eexists.
  - assert (exists k1, wrapOne (seeds i) us key acc r = Ret k1) as [k1 ->].
    { unfold wrapOne. destruct (us !! r) as [u|] eqn:Hu; [|by eexists].
      case_bool_decide; [by eexists|].
      destruct (Hkeys r u) as [sk Hsk]; [set_solver|done|done|].
      destruct (Hrsa "sha256" _ _ (seeds i) key Hsk Hlen) as [c Hc].
      unfold rsaEncrypt. rewrite Hc. simpl. by eexists. }
    simpl. apply IH; [done|done|]. intros r' u' Hr'. apply Hkeys. set_solver.
Qed.

End SealFacts.


(** ** Creating and reading papers *)

Section PaperFacts.
Context `{NodeCrypto}.
Import Server CryptoJs.

(** What a successful [POST /api/papers] did. *)
Lemma createPaper_ok now ent sid q S pid S' :
  createPaper now ent sid q S = (json 200 (JOkId pid), S') ->
  exists user enc keys paper,
    sessions S !! sid = Some user /\
    Acl.granted (roleName (s_role user)) "Paper" "create" = true /\
    pid = e_id ent /\
    aesEncrypt (e_iv ent) (b64dec (q_fileBase64 q)) (e_aesKey ent) = Ret enc /\
    wrapKeys (e_seed ent) (users (db S)) (e_aesKey ent)
      (paperRecipients (s_email user) q) = Ret keys /\
    papers (db S') !! pid = Some paper /\
    owner paper = s_email user /\
    collaborators paper = q_collaborators q /\
    reviewers paper = q_reviewers q /\
    versions paper = [ {| v_ts := now; v_enc := enc;
                          v_hash := sha256 (b64dec (q_fileBase64 q)) |} ] /\
    encryptedKeys paper = keys /\
    decision paper = None /\
    users (db S') = users (db S) /\
    sessions S' = sessions S /\
    privateKeyStore S' = privateKeyStore S.
Proof.
  unfold createPaper. destruct (sessions S !! sid) as [user|]; [|by intros [=]].
  destruct (Acl.granted _ _ _) eqn:Hg; simpl; [|by intros [=]].
  destruct (bool_decide (q_title q = "") || bool_decide (q_fileBase64 q = ""));
    [by intros [=]|].
  destruct (aesEncrypt _ _ _) as [enc|] eqn:Eenc; [|by intros [=]].
  destruct (wrapKeys _ _ _ _) as [keys|] eqn:Ek; [|by intros [=]].
  intros [= <- <-]. eexists user, enc, keys, _. simpl.
  rewrite lookup_insert_eq. repeat split; done.
Qed.

(** The people [GET /api/papers/:id] lets through are the recipients
    the paper was sealed for. *)
Lemma paperRecipients_allowed author q x :
  x ∈ paperRecipients author q <-> x ∈ author :: q_collaborators q ++ q_reviewers q.
Proof. apply elem_of_dedupe. Qed.

Lemma getPaper_not_recipient now sid pid S user paper :
  sessions S !! sid = Some user ->
  papers (db S) !! pid = Some paper ->
  s_email user ∉ owner paper :: collaborators paper ++ reviewers paper ->
  getPaper now sid pid S =
    (json 403 (JError "forbidden"),
     setDb S (logEvent now (db S) "access_denied"
                [("by", s_email user); ("pid", pid); ("reason", "not a recipient")])).
Proof.
  intros Hs Hp Hx. unfold getPaper. rewrite Hs, Hp.
  by rewrite bool_decide_false.
Qed.

End PaperFacts.


Section ReviewFacts.
Context `{NodeCrypto}.
Import Server CryptoJs.

(** What a successful [POST /api/papers/:id/reviews] did. *)
Lemma submitReview_ok now ent sid pid rb S rid S' :
  submitReview now ent sid pid rb S = (json 200 (JOkId rid), S') ->
  exists user paper enc keys review,
    sessions S !! sid = Some user /\
    papers (db S) !! pid = Some paper /\
    s_email user ∈ reviewers paper /\
    aesEncrypt (e_iv ent) (b64dec rb) (e_aesKey ent) = Ret enc /\
    wrapKeys (e_seed ent) (users (db S)) (e_aesKey ent) (reviewRecipients paper) = Ret keys /\
    reviews (db S') !! rid = Some review /\
    r_enc review = enc /\ r_encryptedKeys review = keys /\
    papers (db S') = papers (db S).
Proof.
  unfold submitReview. destruct (sessions S !! sid) as [user|]; [|by intros [=]].
  destruct (papers (db S) !! pid) as [paper|] eqn:Hp; [|by intros [=]].
  case_bool_decide; simpl; [|by intros [=]].
  destruct (Acl.granted _ _ _); simpl; [|by intros [=]].
  destruct (aesEncrypt _ _ _) as [enc|] eqn:Eenc; [|by intros [=]].
  destruct (wrapKeys _ _ _ _) as [keys|] eqn:Ek; [|by intros [=]].
  intros [= <- <-]. eexists user, paper, enc, keys, _. simpl.
  rewrite lookup_insert_eq. repeat split; done.
Qed.
End ReviewFacts.

(** C5 (amended): when a paper or a review is sealed, the key set of
    the wrapped-key map is the set of listed recipients (owner,
    collaborators and reviewers of a paper; owner and collaborators of
    the paper for a review) that are registered users with a public key
    at that moment: each of them has one entry, nobody else has one, and
    a listed recipient who is not registered has none. *)
Theorem wrapped_keys_are_registered_recipients `{NodeCrypto} :
  (forall now ent sid q S pid S',
     Server.createPaper now ent sid q S = (Server.json 200 (Server.JOkId pid), S') ->
     exists paper,
       Server.papers (Server.db S') !! pid = Some paper /\
       forall r, r ∈ dom (Server.encryptedKeys paper) <->
         r ∈ Server.owner paper :: Server.collaborators paper ++ Server.reviewers paper /\
         Server.hasPublicKey (Server.users (Server.db S)) r = true)
  /\
  (forall now ent sid pid rb S rid S',
     Server.submitReview now ent sid pid rb S = (Server.json 200 (Server.JOkId rid), S') ->
     exists paper review,
       Server.papers (Server.db S) !! pid = Some paper /\
       Server.reviews (Server.db S') !! rid = Some review /\
       forall r, r ∈ dom (Server.r_encryptedKeys review) <->
         r ∈ Server.owner paper :: Server.collaborators paper /\
         Server.hasPublicKey (Server.users (Server.db S)) r = true).
Proof.
  split.
  - intros now ent sid q S pid S' Hok.
    destruct (createPaper_ok now ent sid q S pid S' Hok)
      as (user & enc & keys & paper & _ & _ & _ & _ & Hk & Hp & Ho & Hc & Hr & _ & Hek & _).
    exists paper. split; [done|]. intros r.
    unfold Server.wrapKeys in Hk.
    rewrite Hek, (wrapLoop_dom _ _ _ _ _ _ _ Hk r), dom_empty_L, Ho, Hc, Hr.
    rewrite paperRecipients_allowed. set_solver.
  - intros now ent sid pid rb S rid S' Hok.
    destruct (submitReview_ok now ent sid pid rb S rid S' Hok)
      as (user & paper & enc & keys & review & _ & Hp & _ & _ & Hk & Hrv & _ & Hek & _).
    exists paper, review. split; [done|]. split; [done|]. intros r.
    unfold Server.wrapKeys in Hk.
    rewrite Hek, (wrapLoop_dom _ _ _ _ _ _ _ Hk r), dom_empty_L.
    unfold Server.reviewRecipients. set_solver.
Qed.

Lemma wrapped_keys_are_registered_recipients_witness :
  exists paper,
    Server.papers (Server.db Scenario.sealed) !! "paper-1" = Some paper /\
    forall r, r ∈ dom (Server.encryptedKeys paper) <->
      r ∈ Server.owner paper :: Server.collaborators paper ++ Server.reviewers paper /\
      Server.hasPublicKey (Server.users (Server.db Scenario.loggedIn)) r = true.
Proof.
  apply (proj1 wrapped_keys_are_registered_recipients
           7000 Scenario.entropy "sess-a" Scenario.paperReq Scenario.loggedIn
           "paper-1" Scenario.sealed).
  vm_compute. reflexivity.
Defined.

(** C5 as stated fails: a listed collaborator who never signed up is
    stored in the paper's recipient lists and gets no wrapped key. *)
Lemma unregistered_recipient_gets_no_key :
  exists S' paper,
    Server.createPaper 7000 Scenario.entropy "sess-a" Scenario.ghostReq Scenario.loggedIn
      = (Server.json 200 (Server.JOkId "paper-1"), S') /\
    Server.papers (Server.db S') !! "paper-1" = Some paper /\
    Scenario.ghost ∈ Server.collaborators paper /\
    Scenario.ghost ∉ dom (Server.encryptedKeys paper).
Proof.
  eexists _, _. split; [vm_compute; reflexivity|].
  split; [vm_compute; reflexivity|].
  split; [set_solver|].
  apply not_elem_of_dom. vm_compute. reflexivity.
Qed.




(** ** Integrity of what decryption returns *)

Section IntegrityFacts.
Context `{NodeCrypto}.
Import Server CryptoJs.

(** [aesDecrypt] returns only what passed the tag check of [final()]. *)
Lemma aesDecrypt_authentic enc key p :
  aesDecrypt enc key = Ret p ->
  tagVerifies key (b64dec (iv enc)) (b64dec (tag enc)) (b64dec (ciphertext enc)) /\
  p = gcmCtr key (b64dec (iv enc)) (b64dec (ciphertext enc)).
Proof.
  unfold aesDecrypt. destruct (gcmInit _ _); simpl; [|done].
  destruct (setAuthTag _); simpl; [|done].
  unfold decipherFinal. case_bool_decide; simpl; [|done].
  intros [= <-]. by rewrite app_nil_r.
Qed.

(** A tag that does not match makes it throw. *)
Lemma aesDecrypt_bad_tag enc key :
  ~ tagVerifies key (b64dec (iv enc)) (b64dec (tag enc)) (b64dec (ciphertext enc)) ->
  is_Ret (aesDecrypt enc key) = false.
Proof.
  intros Hne. destruct (aesDecrypt enc key) as [p|] eqn:E; [|done].
  by apply aesDecrypt_authentic in E as [? _].
Qed.

(** The plaintext [GET /api/papers/:id] sends passed the tag check
    under the key unwrapped for the caller. *)
Lemma getPaper_plaintext_verified now sid pid S f :
  plaintextOf (getPaper now sid pid S).1 = Some f ->
  exists paper v user encKey pem aesKey,
    papers (db S) !! pid = Some paper /\
    last (versions paper) = Some v /\
    sessions S !! sid = Some user /\
    encryptedKeys paper !! s_email user = Some encKey /\
    rsaDecrypt pem encKey = Ret aesKey /\
    tagVerifies aesKey (b64dec (iv (v_enc v))) (b64dec (tag (v_enc v)))
      (b64dec (ciphertext (v_enc v))) /\
    f = b64enc (gcmCtr aesKey (b64dec (iv (v_enc v))) (b64dec (ciphertext (v_enc v)))).
Proof.
  unfold getPaper, unauthenticated.
  destruct (sessions S !! sid) as [user|]; [|by intros [=]].
  destruct (papers (db S) !! pid) as [paper|]; [|by intros [=]].
  case_bool_decide; simpl; [|by intros [=]].
  destruct (Acl.granted _ _ _); simpl; [|by intros [=]].
  destruct (encryptedKeys paper !! s_email user) as [encKey|] eqn:Hk; [|by intros [=]].
  case_bool_decide; [by intros [=]|].
  destruct (Custody.getPrivateKeyForSession _ _ _) as [[pem|] store]; [|by intros [=]].
  case_bool_decide; [by intros [=]|].
  destruct (unwrapAndDecrypt pem encKey _) as [plain|] eqn:E; [|by intros [=]].
  simpl. intros [= <-].
  unfold unwrapAndDecrypt in E.
  destruct (rsaDecrypt pem encKey) as [aesKey|] eqn:Er; simpl in E; [|done].
  destruct (last (versions paper)) as [v|] eqn:Hl; simpl in E; [|done].
  apply aesDecrypt_authentic in E as [Ht ->].
  by exists paper, v, user, encKey, pem, aesKey.
Qed.

(** The same holds for the plaintext [GET /api/reviews/:id] sends. *)
Lemma getReview_plaintext_verified now sid rid S f :
  plaintextOf (getReview now sid rid S).1 = Some f ->
  exists review aesKey,
    reviews (db S) !! rid = Some review /\
    tagVerifies aesKey (b64dec (iv (r_enc review))) (b64dec (tag (r_enc review)))
      (b64dec (ciphertext (r_enc review))) /\
    f = b64enc (gcmCtr aesKey (b64dec (iv (r_enc review)))
                       (b64dec (ciphertext (r_enc review)))).
Proof.
  unfold getReview, unauthenticated.
  destruct (sessions S !! sid) as [user|]; [|by intros [=]].
  destruct (reviews (db S) !! rid) as [review|]; [|by intros [=]].
  destruct (papers (db S) !! r_pid review) as [paper|]; [|by intros [=]].
  destruct (negb _); [by intros [=]|].
  destruct (Acl.granted _ _ _); simpl; [|by intros [=]].
  destruct (r_encryptedKeys review !! s_email user) as [encKey|]; [|by intros [=]].
  case_bool_decide; [by intros [=]|].
  destruct (Custody.getPrivateKeyForSession _ _ _) as [[pem|] store]; [|by intros [=]].
  case_bool_decide; [by intros [=]|].
  destruct (unwrapAndDecrypt pem encKey _) as [plain|] eqn:E; [|by intros [=]].
  simpl. intros [= <-].
  unfold unwrapAndDecrypt in E.
  destruct (rsaDecrypt pem encKey) as [aesKey|]; simpl in E; [|done].
  apply aesDecrypt_authentic in E as [Ht ->].
  by exists review, aesKey.
Qed.

(** [decryptFile] hands the decrypted bytes back with a flag. *)
Lemma decryptFile_flags fs pkg path d :
  CryptoService.decryptFile fs pkg path = Ret d ->
  CryptoService.hashVerified d
    = bool_decide (CryptoService.hashSHA256 (CryptoService.data d) = CryptoService.hash pkg).
Proof.
  unfold CryptoService.decryptFile, CryptoService.rethrow.
  destruct (CryptoService.decryptKeyWithRSA _ _ _) as [k|]; simpl; [|done].
  destruct (CryptoService.decryptAES _ _ _) as [f|]; simpl; [|done].
  by intros [= <-].
Qed.

(** When the key unwraps and the CBC decryption goes through, the bytes
    are returned whether or not the hash matches. *)
Lemma decryptFile_returns_flagged fs pkg path k f :
  CryptoService.decryptKeyWithRSA fs (b64dec (CryptoService.encryptedKey pkg)) path
    = Ret k ->
  CryptoService.decryptAES (b64dec (CryptoService.encryptedData pkg)) k
    (b64dec (CryptoService.iv pkg)) = Ret f ->
  CryptoService.decryptFile fs pkg path =
    Ret {| CryptoService.data := f;
           CryptoService.hashVerified :=
             bool_decide (CryptoService.hashSHA256 f = CryptoService.hash pkg);
           CryptoService.originalHash := CryptoService.hash pkg;
           CryptoService.calculatedHash := CryptoService.hashSHA256 f |}.
Proof.
  intros Hk Hf. unfold CryptoService.decryptFile. by rewrite Hk; simpl; rewrite Hf.
Qed.

(** [downloadPaper] sends them only when the flag is set. *)
Lemma downloadPaper_sent_verified fs pkg path file :
  CryptoService.downloadPaper fs pkg path = CryptoService.Sent file ->
  CryptoService.hashSHA256 file = CryptoService.hash pkg.
Proof.
  unfold CryptoService.downloadPaper.
  destruct (CryptoService.decryptFile fs pkg path) as [d|] eqn:E; [|done].
  rewrite (decryptFile_flags _ _ _ _ E).
  case_bool_decide; simpl; [|done]. by intros [= <-].
Qed.

(** Changing the tag of a sealed object, or its ciphertext in a way the
    tag tells apart, makes [aesDecrypt] throw. *)
Lemma tampered_seal_rejected ivb plain key enc t' c' :
  base64_roundtrip -> gcm_tag_length ->
  aesEncrypt ivb plain key = Ret enc ->
  (c' = ciphertext enc /\
   length (b64dec t') = 16%nat /\ b64dec t' <> b64dec (tag enc)) \/
  (t' = tag enc /\
   gcmTag key ivb (b64dec c') <> gcmTag key ivb (b64dec (ciphertext enc))) ->
  is_Ret (aesDecrypt {| iv := iv enc; tag := t'; ciphertext := c' |} key) = false.
Proof.
  intros Hb64 Htag Henc Hdiff. apply aesDecrypt_bad_tag. simpl.
  unfold aesEncrypt in Henc. destruct (gcmInit key ivb); simpl in Henc; [|done].
  injection Henc as <-. simpl in *. rewrite app_nil_r in *. rewrite !Hb64 in *.
  unfold tagVerifies.
  destruct Hdiff as [[-> [Hl Ht]]|[-> Hc]]; rewrite ?Hb64.
  - rewrite Hl, <- (Htag key ivb (gcmCtr key ivb plain)) at 1.
    rewrite firstn_all. congruence.
  - rewrite (Htag key ivb (gcmCtr key ivb plain)).
    rewrite <- (Htag key ivb (b64dec c')), firstn_all. congruence.
Qed.
End IntegrityFacts.





(** ** Seal, then open *)

Section RoundTripFacts.
Context `{NodeCrypto}.
Import Server CryptoJs.

Lemma aes_roundtrip ivb plain key :
  base64_roundtrip -> gcm_ctr_involutive -> gcm_tag_length ->
  length key = 32%nat -> ivb <> [] ->
  exists enc, aesEncrypt ivb plain key = Ret enc /\ aesDecrypt enc key = Ret plain.
Proof.
  intros Hb64 Hctr Htag Hlen Hiv.
  assert (gcmInit key ivb = Ret tt) as Hinit.
  { unfold gcmInit. rewrite bool_decide_true by done. simpl.
    by rewrite bool_decide_false. }
  unfold aesEncrypt. rewrite Hinit. simpl. eexists. split; [reflexivity|].
  unfold aesDecrypt. simpl. rewrite !Hb64, Hinit. simpl.
  unfold setAuthTag. rewrite Htag. rewrite bool_decide_true by set_solver. simpl.
  unfold decipherFinal, tagVerifies. rewrite app_nil_r.
  rewrite bool_decide_true by (by rewrite firstn_all). simpl.
  by rewrite Hctr, app_nil_r.
Qed.

Lemma unwrap_roundtrip us key r x u sk :
  base64_roundtrip -> rsa_roundtrip ->
  wrappedFor us key r x -> us !! r = Some u -> keyPair (rsaPublicKey u) sk ->
  rsaDecrypt sk x = Ret key.
Proof.
  intros Hb64 Hrsa (u' & seed & c & Hu' & Hc & ->) Hu Hk.
  assert (u' = u) as -> by congruence.
  unfold rsaDecrypt. rewrite Hb64. by eapply Hrsa.
Qed.

Lemma granted_read_paper (r : Role) :
  Acl.granted (roleName r) "Paper" "read" = true.
Proof. by destruct r. Qed.

(** A listed recipient with a wrapped key and a live session key reads
    the latest version. *)
Lemma getPaper_opens now sid pid S reader paper encKey sk exp v plain :
  sessions S !! sid = Some reader ->
  papers (db S) !! pid = Some paper ->
  s_email reader ∈ owner paper :: collaborators paper ++ reviewers paper ->
  encryptedKeys paper !! s_email reader = Some encKey -> encKey <> "" ->
  privateKeyStore S !! sid
    = Some {| Custody.privateKeyPem := sk; Custody.expiresAt := exp |} ->
  now <= exp -> sk <> "" ->
  last (versions paper) = Some v ->
  unwrapAndDecrypt sk encKey (Some (v_enc v)) = Ret plain ->
  getPaper now sid pid S =
    (json 200 (JPaper pid (p_title paper) (p_metadata paper) (b64enc plain) (v_hash v)),
     setDb S (logEvent now (db S) "paper_decrypted"
                [("pid", pid); ("by", s_email reader)])).
Proof.
  intros Hs Hp Hin Hk Hne Hst Hnow Hsk Hl Hdec. unfold getPaper.
  rewrite Hs, Hp. rewrite bool_decide_true by done. simpl.
  rewrite granted_read_paper. simpl. rewrite Hk.
  rewrite bool_decide_false by done.
  unfold Custody.getPrivateKeyForSession. rewrite Hst. simpl.
  rewrite bool_decide_false by lia.
  rewrite bool_decide_false by done.
  rewrite Hl. simpl. rewrite Hdec. simpl.
  by destruct S.
Qed.

End RoundTripFacts.

(** ** Binding the key at login *)

Section BindFacts.
Context `{NodeCrypto}.
Import Server CryptoJs.

(** A login with the right password unlocks the private key that was
    sealed under the password-derived key and binds it to the session
    for the TTL. *)
Lemma login_binds_unlocked_key now sid email pw S u ivb pem :
  base64_roundtrip -> utf8_roundtrip -> gcm_ctr_involutive -> gcm_tag_length ->
  users (db S) !! email = Some u ->
  isLocked now u = false ->
  bcryptCompare pw (passwordHash u) = true ->
  length (deriveKey pw (rsaPrivSalt u)) = 32%nat -> ivb <> [] ->
  aesEncrypt ivb (utf8enc pem) (deriveKey pw (rsaPrivSalt u))
    = Ret (rsaPrivateKeyEncrypted u) ->
  exists S',
    login now sid email pw S = (json 200 JOk, S') /\
    privateKeyStore S' !! sid
      = Some {| Custody.privateKeyPem := pem; Custody.expiresAt := now + Custody.TTL |} /\
    sessions S' !! sid
      = Some {| s_email := u_email u; s_role := u_role u; s_id := u_id u |}.
Proof.
  intros Hb64 Hutf Hctr Htag Hu Hl Hp Hlen Hiv Henc.
  destruct (aes_roundtrip ivb (utf8enc pem) (deriveKey pw (rsaPrivSalt u)))
    as (enc & Henc' & Hdec); try done.
  rewrite Henc in Henc'. injection Henc' as <-.
  unfold login. rewrite Hu, Hl, Hp. simpl. rewrite Hdec.
  eexists. split; [reflexivity|]. simpl.
  unfold Custody.storePrivateKeyForSession. rewrite !lookup_insert_eq.
  by rewrite Hutf.
Qed.

End BindFacts.



Section RoundTripFacts2.
Context `{NodeCrypto}.
Import Server CryptoJs.

Lemma seal_then_open now0 ent sidA q S0 author :
  base64_roundtrip -> gcm_ctr_involutive -> gcm_tag_length ->
  rsa_roundtrip -> rsa_encrypts_keys -> wrapped_nonempty ->
  sessions S0 !! sidA = Some author ->
  s_role author = Author ->
  q_title q <> "" -> q_fileBase64 q <> "" ->
  length (e_aesKey ent) = 32%nat -> e_iv ent <> [] ->
  (forall r u, users (db S0) !! r = Some u -> rsaPublicKey u <> "" ->
     exists sk, keyPair (rsaPublicKey u) sk) ->
  exists S1,
    createPaper now0 ent sidA q S0 = (json 200 (JOkId (e_id ent)), S1) /\
    forall now sidR reader u sk exp,
      sessions S1 !! sidR = Some reader ->
      s_email reader ∈ paperRecipients (s_email author) q ->
      users (db S0) !! s_email reader = Some u ->
      rsaPublicKey u <> "" ->
      keyPair (rsaPublicKey u) sk -> sk <> "" ->
      privateKeyStore S1 !! sidR
        = Some {| Custody.privateKeyPem := sk; Custody.expiresAt := exp |} ->
      now <= exp ->
      exists S2,
        getPaper now sidR (e_id ent) S1 =
          (json 200 (JPaper (e_id ent) (q_title q) (q_metadata q)
                       (b64enc (b64dec (q_fileBase64 q)))
                       (sha256 (b64dec (q_fileBase64 q)))), S2).
Proof.
  intros Hb64 Hctr Htag Hrsa Hrsat Hne Hs Hrole Ht Hf Hlen Hiv Hkeys.
  destruct (aes_roundtrip (e_iv ent) (b64dec (q_fileBase64 q)) (e_aesKey ent))
    as (enc & Henc & Hdec); try done.
  destruct (wrapLoop_total (paperRecipients (s_email author) q) 0 (e_seed ent)
              (users (db S0)) (e_aesKey ent) ∅ Hrsat Hlen) as [keys Hk].
  { intros r u _. apply Hkeys. }
  set (v := {| v_ts := now0; v_enc := enc;
               v_hash := sha256 (b64dec (q_fileBase64 q)) |}).
  set (paper := {| p_id := e_id ent; p_title := q_title q; p_metadata := q_metadata q;
                   owner := s_email author; collaborators := q_collaborators q;
                   reviewers := q_reviewers q; versions := [v];
                   encryptedKeys := keys; decision := None |}).
  exists (setDb S0 (logEvent now0 (setPapers (db S0) (<[e_id ent := paper]> (papers (db S0))))
                      "paper_created" [("pid", e_id ent); ("by", s_email author)])).
  split.
  { unfold createPaper. rewrite Hs, Hrole. simpl.
    rewrite !bool_decide_false by done. simpl.
    rewrite Henc. unfold wrapKeys. rewrite Hk. reflexivity. }
  intros now sidR reader u sk exp Hsr Hin Hu Hpk Hkp Hsk Hst Hnow.
  assert (s_email reader ∈ dom keys) as Hdom.
  { apply (wrapLoop_dom _ _ _ _ _ _ _ Hk). right. split; [done|].
    unfold hasPublicKey. rewrite Hu. by rewrite bool_decide_false. }
  apply elem_of_dom in Hdom as [x Hx].
  assert (wrappedFor (users (db S0)) (e_aesKey ent) (s_email reader) x) as Hw.
  { eapply (wrapLoop_wrapped _ _ _ _ _ _ _ Hk); [|exact Hx].
    intros y z. by rewrite lookup_empty. }
  assert (x <> "") as Hxne.
  { destruct Hw as (u' & seed & c & _ & Hc & ->). by eapply Hne. }
  erewrite (getPaper_opens now sidR (e_id ent) _ reader paper x sk exp v
              (b64dec (q_fileBase64 q))); [by eexists| | | | | | | | | |].
  - exact Hsr.
  - simpl. apply lookup_insert_eq.
  - simpl. by apply paperRecipients_allowed.
  - exact Hx.
  - exact Hxne.
  - exact Hst.
  - exact Hnow.
  - exact Hsk.
  - reflexivity.
  - simpl. unfold unwrapAndDecrypt.
    rewrite (unwrap_roundtrip _ _ _ _ u sk Hb64 Hrsa Hw Hu Hkp). simpl. exact Hdec.
Qed.

Lemma encryptFile_decryptFile fs key ivb seed file pubPath privPath pk sk :
  base64_roundtrip -> cbc_roundtrip -> rsa_roundtrip -> rsa_encrypts_keys ->
  fs !! pubPath = Some pk -> fs !! privPath = Some sk -> keyPair pk sk ->
  length key = 32%nat -> length ivb = 16%nat ->
  exists pkg,
    CryptoService.encryptFile fs key ivb seed file pubPath = Ret pkg /\
    CryptoService.decryptFile fs pkg privPath =
      Ret {| CryptoService.data := file; CryptoService.hashVerified := true;
             CryptoService.originalHash := CryptoService.hashSHA256 file;
             CryptoService.calculatedHash := CryptoService.hashSHA256 file |}.
Proof.
  intros Hb64 Hcbc Hrsa Hrsat Hpub Hpriv Hkp Hlen Hiv.
  assert (CryptoService.cbcInit key ivb = Ret tt) as Hinit.
  { unfold CryptoService.cbcInit. by rewrite !bool_decide_true. }
  destruct (Hrsat "sha1" pk sk seed key Hkp Hlen) as [c Hc].
  unfold CryptoService.encryptFile, CryptoService.encryptAES,
    CryptoService.encryptKeyWithRSA, CryptoService.readFileSync.
  rewrite Hinit, Hpub. simpl. rewrite Hc. simpl.
  eexists. split; [reflexivity|].
  unfold CryptoService.decryptFile, CryptoService.decryptKeyWithRSA,
    CryptoService.decryptAES, CryptoService.readFileSync. simpl.
  rewrite !Hb64, Hpriv. simpl. rewrite (Hrsa _ _ _ _ _ _ Hkp Hc). simpl.
  rewrite Hinit. simpl. rewrite Hcbc. simpl.
  by rewrite bool_decide_true.
Qed.

End RoundTripFacts2.


(** The small instance satisfies the laws. *)

Section ToyLaws.
Import Toy.

Lemma stripPrefix_app p m : stripPrefix p (p ++ m) = Some m.
Proof.
  induction p as [|x p IH]; simpl; [done|]. by rewrite bool_decide_true.
Qed.

Lemma pad_length n b : length (pad n b) = n.
Proof.
  unfold pad. rewrite length_take, length_app, length_replicate. lia.
Qed.

Lemma toy_base64_roundtrip : @base64_roundtrip crypto.
Proof. intros b. apply String.list_byte_of_string_of_list_byte. Qed.

Lemma toy_utf8_roundtrip : @utf8_roundtrip crypto.
Proof. intros s. apply String.string_of_list_byte_of_string. Qed.

Lemma toy_gcm_ctr_involutive : @gcm_ctr_involutive crypto.
Proof. intros key iv p. simpl. apply rev_involutive. Qed.

Lemma toy_gcm_tag_length : @gcm_tag_length crypto.
Proof. intros key iv c. simpl. apply pad_length. Qed.

Lemma toy_cbc_roundtrip : @cbc_roundtrip crypto.
Proof. intros key iv p. simpl. by rewrite rev_involutive. Qed.

Lemma toy_rsa_roundtrip : @rsa_roundtrip crypto.
Proof.
  intros h pk sk seed m c Hk. simpl in *. subst sk. intros [= <-].
  rewrite bool_decide_true by done.
  by rewrite stripPrefix_app.
Qed.

Lemma toy_rsa_encrypts_keys : @rsa_encrypts_keys crypto.
Proof. intros h pk sk seed m _ _. simpl. by eexists. Qed.

Lemma toy_wrapped_nonempty : @wrapped_nonempty crypto.
Proof. intros h pk seed m c. simpl. by intros [= <-]. Qed.

Lemma toy_pkcs1_total : @pkcs1_total crypto.
Proof. intros pk sk d s _. simpl. unfold verifyWith. by eexists. Qed.

Lemma toy_pkcs1_correct : @pkcs1_correct crypto.
Proof.
  intros pk sk d s Hk. simpl in *. subst sk. intros [= <-].
  unfold verifyWith. by rewrite bool_decide_true.
Qed.

Lemma toy_pkcs1_binding : @pkcs1_binding crypto.
Proof.
  intros pk sk d d' s Hk. simpl in *. subst sk. intros [= <-].
  unfold verifyWith. intros [= Hb]. apply bool_decide_eq_true in Hb.
  by apply app_inv_head in Hb.
Qed.

Lemma toy_pss_correct : @pss_correct crypto.
Proof.
  intros pk sk salt d s Hk. simpl in *. subst sk. intros [= <-].
  unfold verifyWith. by rewrite bool_decide_true.
Qed.
End ToyLaws.

(** Instances of the general statements on the small instance. *)

Lemma bind_then_lookup_within_ttl_witness :
  Custody.getPrivateKeyForSession 5000 "sess-1"
    (Custody.storePrivateKeyForSession 1000 "sess-1" "PEM" ∅)
  = (Some "PEM", Custody.storePrivateKeyForSession 1000 "sess-1" "PEM" ∅).
Proof.
  apply (bind_then_lookup_within_ttl ∅ "sess-1" "PEM" 1000 5000).
  unfold Custody.TTL. lia.
Defined.

Lemma login_binds_unlocked_key_witness :
  exists S',
    Server.login 1 "sess-a" Scenario.alice Scenario.password Scenario.start
      = (Server.json 200 Server.JOk, S') /\
    Server.privateKeyStore S' !! "sess-a"
      = Some {| Custody.privateKeyPem := "KEY-A";
                Custody.expiresAt := 1 + Custody.TTL |} /\
    Server.sessions S' !! "sess-a"
      = Some {| Server.s_email := Scenario.alice; Server.s_role := Server.Author;
                Server.s_id := "id-alice@example.com" |}.
Proof.
  apply (login_binds_unlocked_key 1 "sess-a" Scenario.alice Scenario.password
           Scenario.start
           (Scenario.mkUser Scenario.alice Server.Author "KEY-A" Scenario.password)
           (Toy.pad 12 []) "KEY-A"
           toy_base64_roundtrip toy_utf8_roundtrip toy_gcm_ctr_involutive
           toy_gcm_tag_length).
  - apply lookup_insert_eq.
  - reflexivity.
  - reflexivity.
  - reflexivity.
  - discriminate.
  - vm_compute. reflexivity.
Defined.

Lemma tampered_seal_rejected_witness :
  is_Ret (CryptoJs.aesDecrypt
            {| CryptoJs.iv := CryptoJs.iv (Scenario.sealedKey "KEY-A" Scenario.password);
               CryptoJs.tag := "forged tag 16 b.";
               CryptoJs.ciphertext :=
                 CryptoJs.ciphertext (Scenario.sealedKey "KEY-A" Scenario.password) |}
            (CryptoJs.deriveKey Scenario.password "00")) = false.
Proof.
  apply (tampered_seal_rejected (Toy.pad 12 []) (utf8enc "KEY-A")
           (CryptoJs.deriveKey Scenario.password "00")
           (Scenario.sealedKey "KEY-A" Scenario.password)
           "forged tag 16 b."
           (CryptoJs.ciphertext (Scenario.sealedKey "KEY-A" Scenario.password))
           toy_base64_roundtrip toy_gcm_tag_length).
  - vm_compute. reflexivity.
  - left. split; [reflexivity|]. split; [vm_compute; reflexivity|].
    vm_compute. discriminate.
Defined.

(** C2: sealing then opening is the identity on the plaintext.  Under
    the laws of the primitives (base64, counter mode, tag length, OAEP
    and CBC round trips), a paper an author creates with a 32-byte key
    and a non-empty IV is stored, and every listed recipient who is a
    registered user reads it back with the private key of their key
    pair: the file in the answer decodes to the bytes that were
    submitted.  In the research portal [decryptFile] after
    [encryptFile] returns the file, with the hash verified. *)
Theorem seal_then_open_roundtrip `{NodeCrypto} :
  base64_roundtrip -> gcm_ctr_involutive -> gcm_tag_length -> cbc_roundtrip ->
  rsa_roundtrip -> rsa_encrypts_keys -> wrapped_nonempty ->
  (forall now0 ent sidA q S0 author,
     Server.sessions S0 !! sidA = Some author ->
     Server.s_role author = Server.Author ->
     Server.q_title q <> "" -> Server.q_fileBase64 q <> "" ->
     length (Server.e_aesKey ent) = 32%nat -> Server.e_iv ent <> [] ->
     (forall r u, Server.users (Server.db S0) !! r = Some u ->
        Server.rsaPublicKey u <> "" -> exists sk, keyPair (Server.rsaPublicKey u) sk) ->
     exists S1,
       Server.createPaper now0 ent sidA q S0
         = (Server.json 200 (Server.JOkId (Server.e_id ent)), S1) /\
       forall now sidR reader u sk exp,
         Server.sessions S1 !! sidR = Some reader ->
         Server.s_email reader ∈ Server.paperRecipients (Server.s_email author) q ->
         Server.users (Server.db S0) !! Server.s_email reader = Some u ->
         Server.rsaPublicKey u <> "" ->
         keyPair (Server.rsaPublicKey u) sk -> sk <> "" ->
         Server.privateKeyStore S1 !! sidR
           = Some {| Custody.privateKeyPem := sk; Custody.expiresAt := exp |} ->
         now <= exp ->
         exists S2,
           Server.getPaper now sidR (Server.e_id ent) S1 =
             (Server.json 200
                (Server.JPaper (Server.e_id ent) (Server.q_title q) (Server.q_metadata q)
                   (b64enc (b64dec (Server.q_fileBase64 q)))
                   (CryptoJs.sha256 (b64dec (Server.q_fileBase64 q)))), S2) /\
           b64dec (b64enc (b64dec (Server.q_fileBase64 q)))
             = b64dec (Server.q_fileBase64 q))
  /\
  (forall fs key ivb seed file pubPath privPath pk sk,
     fs !! pubPath = Some pk -> fs !! privPath = Some sk -> keyPair pk sk ->
     length key = 32%nat -> length ivb = 16%nat ->
     exists pkg d,
       CryptoService.encryptFile fs key ivb seed file pubPath = Ret pkg /\
       CryptoService.decryptFile fs pkg privPath = Ret d /\
       CryptoService.data d = file /\ CryptoService.hashVerified d = true).
Proof.
  intros Hb64 Hctr Htag Hcbc Hrsa Hrsat Hne. split.
  - intros now0 ent sidA q S0 author Hs Hrole Ht Hf Hlen Hiv Hkeys.
    destruct (seal_then_open now0 ent sidA q S0 author) as (S1 & Hc & Hopen); try done.
    exists S1. split; [done|].
    intros now sidR reader u sk exp Hsr Hin Hu Hpk Hkp Hsk Hst Hnow.
    destruct (Hopen now sidR reader u sk exp) as (S2 & Hg); try done.
    exists S2. split; [done|]. apply Hb64.
  - intros fs key ivb seed file pubPath privPath pk sk Hpub Hpriv Hkp Hlen Hiv.
    destruct (encryptFile_decryptFile fs key ivb seed file pubPath privPath pk sk)
      as (pkg & He & Hd); try done.
    eexists pkg, _. split; [done|]. split; [exact Hd|]. done.
Qed.

Lemma seal_then_open_roundtrip_witness :
  exists S2,
    Server.getPaper 8000 "sess-r" "paper-1" Scenario.sealed =
      (Server.json 200 (Server.JPaper "paper-1" "Test Paper" "{}" "hello" "hello"), S2).
Proof.
  destruct (proj1 (seal_then_open_roundtrip
                     toy_base64_roundtrip toy_gcm_ctr_involutive toy_gcm_tag_length
                     toy_cbc_roundtrip toy_rsa_roundtrip toy_rsa_encrypts_keys
                     toy_wrapped_nonempty)
              7000 Scenario.entropy "sess-a" Scenario.paperReq Scenario.loggedIn
              {| Server.s_email := Scenario.alice; Server.s_role := Server.Author;
                 Server.s_id := "id-alice@example.com" |})
    as (S1 & Hc & Hopen).
  - vm_compute. reflexivity.
  - reflexivity.
  - discriminate.
  - discriminate.
  - reflexivity.
  - discriminate.
  - intros r u _ _. by exists (Server.rsaPublicKey u).
  - assert (S1 = Scenario.sealed) as ->.
    { unfold Scenario.sealed. by rewrite Hc. }
    destruct (Hopen 8000 "sess-r"
                {| Server.s_email := Scenario.rev; Server.s_role := Server.Reviewer;
                   Server.s_id := "id-rev@example.com" |}
                (Scenario.mkUser Scenario.rev Server.Reviewer "KEY-R" Scenario.password)
                "KEY-R" (3 + Custody.TTL))
      as (S2 & Hg & _).
    + vm_compute. reflexivity.
    + apply (bool_decide_unpack _). vm_compute. exact I.
    + vm_compute. reflexivity.
    + discriminate.
    + reflexivity.
    + discriminate.
    + vm_compute. reflexivity.
    + vm_compute. discriminate.
    + exists S2. exact Hg.
Defined.


(** ** Decisions: what is signed, what is verified, what is replaced *)

Section DecisionFacts.
Context `{NodeCrypto}.
Import Server CryptoJs.

(** What a successful [POST /api/papers/:id/decision] did. *)
Lemma issueDecision_ok now sid pid text S S' :
  issueDecision now sid pid text S = (json 200 JOk, S') ->
  exists user paper pem sig,
    sessions S !! sid = Some user /\
    papers (db S) !! pid = Some paper /\
    (Custody.getPrivateKeyForSession now sid (privateKeyStore S)).1 = Some pem /\
    sign pem (signedBytes text) = Ret sig /\
    papers (db S') =
      <[pid := withDecision paper
                 {| d_by := s_email user; decisionText := text;
                    d_hash := sha256 (signedBytes text); d_signature := sig;
                    d_ts := now |}]> (papers (db S)) /\
    users (db S') = users (db S).
Proof.
  unfold issueDecision, unauthenticated.
  destruct (sessions S !! sid) as [user|]; [|by intros [=]].
  destruct (papers (db S) !! pid) as [paper|]; [|by intros [=]].
  case_bool_decide; simpl; [|by intros [=]].
  destruct (Acl.granted _ _ _); simpl; [|by intros [=]].
  destruct (Custody.getPrivateKeyForSession _ _ _) as [[pem|] store]; [|by intros [=]].
  case_bool_decide; [by intros [=]|].
  destruct (sign pem _) as [sig|] eqn:Es; [|by intros [=]].
  intros [= <-]. by exists user, paper, pem, sig.
Qed.

(** The verification reads the signer, the text and the signature of
    the stored record, nothing else. *)
Lemma verifyDecision_reads D dec dec' :
  d_by dec' = d_by dec -> decisionText dec' = decisionText dec ->
  d_signature dec' = d_signature dec ->
  verifyDecision D dec' = verifyDecision D dec.
Proof. unfold verifyDecision. by intros -> -> ->. Qed.

Lemma signed_decision_verifies D dec u sk :
  base64_roundtrip -> pkcs1_correct ->
  users D !! d_by dec = Some u -> keyPair (rsaPublicKey u) sk ->
  sign sk (signedBytes (decisionText dec)) = Ret (d_signature dec) ->
  verifyDecision D dec = Ret true.
Proof.
  intros Hb64 Hok Hu Hk Hs. unfold verifyDecision, verify. rewrite Hu. simpl.
  unfold sign in Hs. destruct (pkcs1Sign sk _) as [s|] eqn:E; simpl in Hs; [|done].
  injection Hs as Hs. rewrite <- Hs, Hb64. by eapply Hok.
Qed.

Lemma edited_text_fails D dec u sk text0 :
  base64_roundtrip -> pkcs1_binding -> pkcs1_total ->
  users D !! d_by dec = Some u -> keyPair (rsaPublicKey u) sk ->
  sign sk (signedBytes text0) = Ret (d_signature dec) ->
  signedBytes (decisionText dec) <> signedBytes text0 ->
  verifyDecision D dec = Ret false.
Proof.
  intros Hb64 Hbind Htot Hu Hk Hs Hne. unfold verifyDecision, verify. rewrite Hu. simpl.
  unfold sign in Hs. destruct (pkcs1Sign sk _) as [s|] eqn:E; simpl in Hs; [|done].
  injection Hs as Hs. rewrite <- Hs, Hb64.
  destruct (Htot _ _ (signedBytes (decisionText dec)) s Hk) as [[] Hv]; [|done].
  exfalso. apply Hne. by eapply Hbind.
Qed.

(** The portal serialises the same four fields when it signs and when
    it verifies. *)
Lemma portal_serialisations q t1 t2 sig d id now :
  DecisionController.dataToSign q t2
    = DecisionController.canonical (DecisionController.q_paperId q)
        (DecisionController.q_decision q) (DecisionController.q_summary q)
        (toISOString t2) /\
  DecisionController.dataToVerify
      (DecisionController.applyUpdate d (DecisionController.decisionDataOf q t1 sig))
    = DecisionController.canonical (DecisionController.q_paperId q)
        (DecisionController.q_decision q) (trim (DecisionController.q_summary q))
        (toISOString t1) /\
  DecisionController.dataToVerify
      (DecisionController.newDecision id now (DecisionController.decisionDataOf q t1 sig))
    = DecisionController.canonical (DecisionController.q_paperId q)
        (DecisionController.q_decision q) (trim (DecisionController.q_summary q))
        (toISOString t1).
Proof. done. Qed.

(** What a successful [makeDecision] did to the collection. *)
Lemma makeDecision_ok fs salt t1 t2 newId q S S' :
  DecisionController.makeDecision fs salt t1 t2 newId q S
    = ({| DecisionController.status := 201;
          DecisionController.message := "Decision recorded and digitally signed" |}, S') ->
  exists sig,
    CryptoService.signData fs salt (DecisionController.dataToSign q t2)
      DecisionController.privateKeyPath = Ret sig /\
    DecisionController.decisions S' =
      match DecisionController.findOne (DecisionController.q_paperId q)
              (DecisionController.decisions S) with
      | Some finalDecision =>
          DecisionController.findByIdAndUpdate (DecisionController._id finalDecision)
            (DecisionController.decisionDataOf q t1 sig) (DecisionController.decisions S)
      | None =>
          DecisionController.decisions S ++
            [DecisionController.newDecision newId t1
               (DecisionController.decisionDataOf q t1 sig)]
      end.
Proof.
  unfold DecisionController.makeDecision.
  destruct (_ || _); [by intros [=]|].
  destruct (negb _); [by intros [=]|].
  case_bool_decide; [by intros [=]|].
  destruct (negb _); [by intros [=]|].
  destruct (CryptoService.signData _ _ _ _) as [sig|]; [|by intros [=]].
  intros [= <-]. by exists sig.
Qed.

(** The update keeps the length of the collection, leaves the documents
    with another [_id] alone and overwrites the one it names. *)
Lemma findByIdAndUpdate_spec id u ds :
  length (DecisionController.findByIdAndUpdate id u ds) = length ds /\
  forall i d, ds !! i = Some d ->
    DecisionController.findByIdAndUpdate id u ds !! i
      = Some (if bool_decide (DecisionController._id d = id)
              then DecisionController.applyUpdate d u else d).
Proof.
  unfold DecisionController.findByIdAndUpdate. split; [by rewrite length_map|].
  intros i d Hd. by rewrite list_lookup_fmap, Hd.
Qed.

End DecisionFacts.





(** The two readings of the clock and the trimmed summary of the
    research portal: a decision whose summary ends in a blank, or whose
    two readings differ, does not verify although nothing was changed
    after signing. *)
Lemma portal_untrimmed_summary_does_not_verify :
  let q := {| DecisionController.q_paperId := "p1";
              DecisionController.q_decision := "ACCEPTED";
              DecisionController.q_summary :=
                "The reviewers agree that the paper is sound and well written. ";
              DecisionController.q_userId := "editor-1";
              DecisionController.q_userEmail := "editor@example.com";
              DecisionController.q_reviewsSummary := "";
              DecisionController.q_averageRating := "0" |} in
  let S := (DecisionController.makeDecision Scenario.keyFiles [] 1000 1000 "dec-1" q
              Scenario.portalPapers).2 in
  DecisionController.verifyDecisionSignature Scenario.keyFiles "dec-1" S = Some false.
Proof. vm_compute. reflexivity. Qed.

Lemma portal_clock_tick_does_not_verify :
  let S := (DecisionController.makeDecision Scenario.keyFiles [] 1000 1001 "dec-1"
              Scenario.accept Scenario.portalPapers).2 in
  DecisionController.verifyDecisionSignature Scenario.keyFiles "dec-1" S = Some false.
Proof. vm_compute. reflexivity. Qed.

(** Which handlers touch the stored papers, and with them the decisions. *)

Section FrameFacts.
Context `{NodeCrypto}.
Import Server.

Lemma getDecision_papers now sid pid S :
  papers (db (getDecision now sid pid S).2) = papers (db S).
Proof. unfold getDecision. frame. Qed.

Lemma getPaper_papers now sid pid S :
  papers (db (getPaper now sid pid S).2) = papers (db S).
Proof. unfold getPaper. frame. Qed.

Lemma getReview_papers now sid rid S :
  papers (db (getReview now sid rid S).2) = papers (db S).
Proof. unfold getReview. frame. Qed.

Lemma submitReview_papers now ent sid pid rb S :
  papers (db (submitReview now ent sid pid rb S).2) = papers (db S).
Proof. unfold submitReview. frame. Qed.

Lemma login_papers now sid email pw S :
  papers (db (login now sid email pw S).2) = papers (db S).
Proof. unfold login. frame. Qed.

Lemma verifyOtp_papers now email code D :
  papers (verifyOtp now email code D).2 = papers D.
Proof. unfold verifyOtp. frame. Qed.

Lemma createPaper_other now ent sid q S pid :
  pid <> e_id ent ->
  papers (db (createPaper now ent sid q S).2) !! pid = papers (db S) !! pid.
Proof. intros Hne. unfold createPaper. frame. by rewrite lookup_insert_ne. Qed.

Lemma issueDecision_other now sid pid text S pid' :
  pid' <> pid ->
  papers (db (issueDecision now sid pid text S).2) !! pid' = papers (db S) !! pid'.
Proof. intros Hne. unfold issueDecision. frame. by rewrite lookup_insert_ne. Qed.

End FrameFacts.





(* ===================================================================== *)
(** * Part II, continued: the remaining handlers                          *)
(* ===================================================================== *)

(** ** The password policy and the one-time codes *)

Section UtilsFacts.
Import Utils.

Lemma test_spec class s :
  test class s = true <->
  exists c, c ∈ String.list_ascii_of_string s /\ class c = true.
Proof.
  induction s as [|a s IH]; simpl.
  - split; [done|]. intros (c & Hc & _). by apply elem_of_nil in Hc.
  - rewrite orb_true_iff, IH. split.
    + intros [Ha|(c & Hc & Hcl)]; [exists a|exists c]; split; auto; set_solver.
    + intros (c & Hc & Hcl). apply elem_of_cons in Hc as [->|Hc]; [by left|].
      right. by exists c.
Qed.

Lemma test_app class s t :
  test class (s +:+ t) = test class s || test class t.
Proof.
  induction s as [|a s IH]; simpl; [done|]. by rewrite IH, orb_assoc.
Qed.

Lemma string_length_app s t :
  String.length (s +:+ t) = (String.length s + String.length t)%nat.
Proof. induction s as [|a s IH]; simpl; [done|]. by rewrite IH. Qed.

Lemma pretty_N_char_digit x : AuthController.isDigit (pretty_N_char x) = true.
Proof.
  unfold pretty_N_char. by repeat case_match.
Qed.

Lemma pretty_N_go_six (x : N) :
  (100000 <= x < 1000000)%N ->
  exists a b c d e f,
    pretty_N_go x "" =
      String (pretty_N_char a) (String (pretty_N_char b) (String (pretty_N_char c)
        (String (pretty_N_char d) (String (pretty_N_char e)
           (String (pretty_N_char f) ""))))).
Proof.
  intros Hx.
  do 6 (rewrite pretty_N_go_step by divlia).
  replace ((((((x `div` 10) `div` 10) `div` 10) `div` 10) `div` 10) `div` 10)%N
    with 0%N by divlia.
  rewrite pretty_N_go_0. by eexists _, _, _, _, _, _.
Qed.

Lemma pretty_six_digits (n : Z) :
  100000 <= n < 1000000 -> AuthController.sixDigits (pretty n) = true.
Proof.
  intros Hn. destruct n as [|p|p]; try lia.
  unfold pretty, pretty_Z, pretty, pretty_positive, pretty, pretty_N.
  rewrite decide_False by done.
  destruct (pretty_N_go_six (N.pos p)) as (a & b & c & d & e & f & ->); [lia|].
  unfold AuthController.sixDigits. simpl. by rewrite !pretty_N_char_digit.
Qed.
End UtilsFacts.

(** X6: the password policy.  [validatePassword] accepts a password
    exactly when it has at least twelve characters and among them an
    upper-case letter, a lower-case letter, a digit and a character that
    is none of these; so it keeps accepting a password that is made
    longer, at either end. *)
Theorem validatePassword_policy :
  (forall password,
     Utils.validatePassword password = true <->
     (12 <= String.length password)%nat /\
     (exists c, c ∈ String.list_ascii_of_string password /\ Utils.isUpper c = true) /\
     (exists c, c ∈ String.list_ascii_of_string password /\ Utils.isLower c = true) /\
     (exists c, c ∈ String.list_ascii_of_string password /\ Utils.isDigit c = true) /\
     (exists c, c ∈ String.list_ascii_of_string password /\
                Utils.isUpper c = false /\ Utils.isLower c = false /\
                Utils.isDigit c = false)) /\
  (forall password before after,
     Utils.validatePassword password = true ->
     Utils.validatePassword (before +:+ password +:+ after) = true).
Proof.
  assert (forall password,
     Utils.validatePassword password = true <->
     (12 <= String.length password)%nat /\
     Utils.test Utils.isUpper password = true /\
     Utils.test Utils.isLower password = true /\
     Utils.test Utils.isDigit password = true /\
     Utils.test Utils.isOther password = true) as Hv.
  { intros password. unfold Utils.validatePassword.
    destruct (decide (password = "")) as [->|Hne].
    { simpl. split; [done|]. intros [? _]. simpl in *. lia. }
    rewrite bool_decide_false by done. rewrite orb_false_l.
    destruct (Nat.ltb_spec (String.length password) 12) as [Hlt|Hge].
    { split; [done|]. intros [? _]. lia. }
    destruct (Utils.test Utils.isUpper _); simpl; [|naive_solver].
    destruct (Utils.test Utils.isLower _); simpl; [|naive_solver].
    destruct (Utils.test Utils.isDigit _); simpl; [|naive_solver].
    destruct (Utils.test Utils.isOther _); simpl; naive_solver. }
  split.
  - intros password. rewrite Hv, !test_spec.
    assert (forall c, Utils.isOther c = true <->
              Utils.isUpper c = false /\ Utils.isLower c = false /\
              Utils.isDigit c = false) as Ho.
    { intros c. unfold Utils.isOther.
      destruct (Utils.isUpper c), (Utils.isLower c), (Utils.isDigit c); naive_solver. }
    setoid_rewrite Ho. done.
  - intros password before after. rewrite !Hv.
    assert (forall class s t u, Utils.test class s = true ->
              Utils.test class (t +:+ s +:+ u) = true) as Hmono.
    { intros class s t u Hs. rewrite !test_app, Hs. apply orb_true_r. }
    intros (Hlen & Hu & Hl & Hd & Ho).
    split; [|by rewrite !Hmono].
    rewrite !string_length_app. lia.
Qed.

(** X7: the one-time codes.  For a draw in its range, the
    [generateOTP] of the server ([randomInt(100000, 1000000)]) and that
    of the research portal ([randomInt(100000, 999999)]) write a code of
    exactly six decimal digits, which is what the portal's check
    [/^\d{6}$/] lets through; different draws give different codes; and
    the portal never issues the code 999999. *)
Theorem generateOTP_six_digits :
  (forall n, 100000 <= n < 1000000 ->
     AuthController.sixDigits (Utils.generateOTP n) = true) /\
  (forall n, 100000 <= n < 999999 ->
     AuthController.sixDigits (PortalAuth.generateOTP n) = true /\
     PortalAuth.generateOTP n <> "999999") /\
  (forall m n, Utils.generateOTP m = Utils.generateOTP n -> m = n).
Proof.
  split; [|split].
  - intros n Hn. by apply pretty_six_digits.
  - intros n Hn. split; [apply pretty_six_digits; lia|].
    unfold PortalAuth.generateOTP. intros E.
    assert (n = 999999) as -> by (apply (inj pretty); by rewrite E). lia.
  - intros m n E. by apply (inj pretty).
Qed.

(** ** What each request does to the state *)

Section StepFacts.
Context `{NodeCrypto} `{NodeBcrypt}.
Import Server CryptoJs Handlers.

Lemma granted_create_paper r :
  Acl.granted (roleName r) "Paper" "create" = true -> r = Author.
Proof. by destruct r. Qed.

Lemma granted_create_review r :
  Acl.granted (roleName r) "Review" "create" = true -> r = Reviewer.
Proof. by destruct r. Qed.

Lemma granted_create_decision r :
  Acl.granted (roleName r) "FinalDecision" "create" = true -> r = Collaborator.
Proof. by destruct r. Qed.

Lemma granted_read_review r :
  Acl.granted (roleName r) "Review" "read" = true -> r = Collaborator.
Proof. by destruct r. Qed.

Lemma granted_read_decision r :
  Acl.granted (roleName r) "FinalDecision" "read"
    = match r with Reviewer => false | _ => true end.
Proof. by destruct r. Qed.

Lemma truthyAt_false {A} (m : gmap string A) k : truthyAt m k = false -> m !! k = None.
Proof. unfold truthyAt. by destruct (m !! k). Qed.

Lemma sameIdentity_refl u : sameIdentity u u.
Proof. by repeat split. Qed.

Lemma sameIdentity_withLogin u n l : sameIdentity u (withLogin u n l).
Proof. by repeat split. Qed.

Lemma signup_change now ent email pw role S :
  change (Signup ent email pw role) S (signup now ent email pw role S).2.
Proof.
  unfold signup.
  destruct (_ || _); [quiet|].
  destruct (roleOf role) as [r|]; [|quiet].
  destruct (negb _); [quiet|].
  destruct (truthyAt _ _) eqn:Ht; [quiet|].
  destruct (aesEncrypt _ _ _) as [enc|] eqn:Eenc; [|quiet].
  eapply (SignedUp _ _ _ email (newUser ent email pw r enc)); simpl; try done.
  - by apply truthyAt_false.
  - by exists ent, pw, role, r, enc.
Qed.

Lemma login_change now sid email pw S :
  change (Login sid email pw) S (login now sid email pw S).2.
Proof.
  unfold login.
  destruct (users (db S) !! email) as [u|] eqn:Hu; [|quiet].
  destruct (isLocked now u); [quiet|].
  destruct (negb (bcryptCompare pw (passwordHash u))) eqn:Hpw0.
  { by eapply (Counted _ _ _ email u (withLogin u _ _)). }
  destruct (negb (bcryptCompare pw (passwordHash u))) eqn:Hpw; [done|].
  apply negb_false_iff in Hpw.
  destruct (aesDecrypt _ _) as [plain|] eqn:Hdec.
  - eapply (LoggedIn _ _ _ sid email u (withLogin u _ _)); try done.
    by exists pw, plain.
  - by eapply (Counted _ _ _ email u (withLogin u _ _)).
Qed.

Lemma logout_change now sid S : change (Logout sid) S (logout now sid S).2.
Proof.
  unfold logout. destruct (sessions S !! sid); [|quiet].
  by eapply LoggedOut.
Qed.

Lemma verifyOtp_change now email code S :
  change (VerifyOtp email code) S (setDb S (verifyOtp now email code (db S)).2).
Proof. quiet; unfold verifyOtp; frame. Qed.

Lemma wrapKeys_dom seeds us key rs keys :
  wrapKeys seeds us key rs = Ret keys -> forall x, x ∈ dom keys -> x ∈ rs.
Proof.
  unfold wrapKeys. intros E x Hx.
  apply (wrapLoop_dom rs 0%nat seeds us key ∅ keys E x) in Hx as [Hx|[Hx _]]; [|done].
  by rewrite dom_empty_L in Hx.
Qed.

Lemma wrapKeys_wrapped seeds us key rs keys :
  wrapKeys seeds us key rs = Ret keys ->
  forall x y, keys !! x = Some y -> wrappedFor us key x y.
Proof.
  unfold wrapKeys. intros E. eapply wrapLoop_wrapped; [exact E|].
  intros y x Hx. by rewrite lookup_empty in Hx.
Qed.

Lemma createPaper_change now ent sid q S :
  change (CreatePaper ent sid q) S (createPaper now ent sid q S).2.
Proof.
  unfold createPaper, unauthenticated.
  destruct (sessions S !! sid) as [user|] eqn:Hs; [|quiet].
  destruct (Acl.granted _ _ _) eqn:Hg; simpl; [|quiet].
  destruct (_ || _); [quiet|].
  destruct (aesEncrypt _ _ _) as [enc|] eqn:Eenc; [|quiet].
  destruct (wrapKeys _ _ _ _) as [keys|] eqn:Ek; [|quiet].
  eapply (PaperCreated _ _ _ sid user (e_id ent)); simpl; cycle 8;
    [reflexivity|done|done|done|done| |exact Hs|by apply granted_create_paper
    |done|done|done|done|done|].
  - eexists. split; [reflexivity|]. simpl.
    exists (e_aesKey ent), (e_iv ent), (b64dec (q_fileBase64 q)).
    split; [done|]. by eapply wrapKeys_wrapped.
  - simpl. intros x Hx. apply (wrapKeys_dom _ _ _ _ _ Ek) in Hx.
    by apply paperRecipients_allowed in Hx.
Qed.

Lemma getPaper_change now sid pid S : change (GetPaper sid pid) S (getPaper now sid pid S).2.
Proof.
  unfold getPaper, unauthenticated, Custody.getPrivateKeyForSession.
  repeat (case_match || case_bool_decide); simplify_eq/=; quiet.
Qed.

Lemma getReview_change now sid rid S : change (GetReview sid rid) S (getReview now sid rid S).2.
Proof.
  unfold getReview, unauthenticated, Custody.getPrivateKeyForSession.
  repeat (case_match || case_bool_decide); simplify_eq/=; quiet.
Qed.

Lemma getDecision_change now sid pid S :
  change (GetDecision sid pid) S (getDecision now sid pid S).2.
Proof.
  unfold getDecision, unauthenticated.
  repeat (case_match || case_bool_decide); simplify_eq/=; quiet.
Qed.

Lemma submitReview_change now ent sid pid rb S :
  change (SubmitReview ent sid pid rb) S (submitReview now ent sid pid rb S).2.
Proof.
  unfold submitReview, unauthenticated.
  destruct (sessions S !! sid) as [user|] eqn:Hs; [|quiet].
  destruct (papers (db S) !! pid) as [paper|] eqn:Hp; [|quiet].
  case_bool_decide as Hin; simpl; [|quiet].
  destruct (Acl.granted _ _ _) eqn:Hg; simpl; [|quiet].
  destruct (aesEncrypt _ _ _) as [enc|] eqn:Eenc; [|quiet].
  destruct (wrapKeys _ _ _ _) as [keys|] eqn:Ek; [|quiet].
  eapply (ReviewFiled _ _ _ sid user (e_id ent) _ paper); simpl; cycle 8;
    [reflexivity|done|done|done|done| |exact Hs|by apply granted_create_review
    |done|done|exact Hp|done|done|].
  - exists (e_aesKey ent), (e_iv ent), (b64dec rb).
    split; [done|]. by eapply wrapKeys_wrapped.
  - simpl. intros x Hx. by apply (wrapKeys_dom _ _ _ _ _ Ek) in Hx.
Qed.

Lemma issueDecision_change now sid pid text S :
  change (IssueDecision sid pid text) S (issueDecision now sid pid text S).2.
Proof.
  unfold issueDecision, unauthenticated.
  destruct (sessions S !! sid) as [user|] eqn:Hs; [|quiet].
  destruct (papers (db S) !! pid) as [paper|] eqn:Hp; [|quiet].
  case_bool_decide as Hin; simpl; [|quiet].
  destruct (Acl.granted _ _ _) eqn:Hg; simpl; [|quiet].
  unfold Custody.getPrivateKeyForSession.
  destruct (privateKeyStore S !! sid) as [rec|] eqn:Hk; [|quiet].
  case_bool_decide; [quiet|].
  case_bool_decide; [quiet|].
  destruct (sign _ _) as [sig|] eqn:Esig; [|quiet].
  eapply (Decided _ _ _ sid user pid paper); simpl; cycle 5;
    [reflexivity|done|done|done|reflexivity| |exact Hs|by apply granted_create_decision
    |exact Hp|reflexivity|done].
  by exists rec.
Qed.

Lemma listPapers_change now sid S : change (ListPapers sid) S (listPapers now sid S).2.
Proof. unfold listPapers, authRequired, unauthenticated. case_match; quiet. Qed.

Lemma dashboard_change now sid S : change (Dashboard sid) S (dashboard now sid S).2.
Proof. unfold dashboard, authRequired, unauthenticated. case_match; quiet. Qed.

Lemma getLogs_change now sid S : change (GetLogs sid) S (getLogs now sid S).2.
Proof. unfold getLogs, authRequired, unauthenticated. repeat case_match; quiet. Qed.

Lemma me_change now sid S : change (Me sid) S (me now sid S).2.
Proof. unfold me, authRequired, unauthenticated. case_match; quiet. Qed.

(** Every request does one of the seven things. *)
Lemma handle_change now r S : change r S (handle now r S).
Proof.
  destruct r; simpl.
  - apply signup_change.
  - apply verifyOtp_change.
  - apply login_change.
  - apply logout_change.
  - apply createPaper_change.
  - apply getPaper_change.
  - apply submitReview_change.
  - apply getReview_change.
  - apply issueDecision_change.
  - apply getDecision_change.
  - apply listPapers_change.
  - apply dashboard_change.
  - apply getLogs_change.
  - apply me_change.
  - unfold otpSent. quiet.
  - quiet.
Qed.

End StepFacts.

(** ** Over sequences of requests *)

Section RunFacts.
Context `{NodeCrypto} `{NodeBcrypt}.
Import Server CryptoJs Handlers.

Lemma sameIdentity_trans u v w : sameIdentity u v -> sameIdentity v w -> sameIdentity u w.
Proof. unfold sameIdentity. intuition congruence. Qed.

Lemma sameContent_refl p : sameContent p p.
Proof. by repeat split. Qed.

Lemma sameContent_trans p q r : sameContent p q -> sameContent q r -> sameContent p r.
Proof. unfold sameContent. intuition congruence. Qed.

Lemma change_users r S S' e u :
  change r S S' -> users (db S) !! e = Some u ->
  exists u', users (db S') !! e = Some u' /\ sameIdentity u u'.
Proof.
  intros Hc Hu.
  destruct Hc as [Hus|email v Hnone _ Hus|email v v' Hv Hsame Hus
                 |sid email v v' key Hv Hsame Hus|sid Hus
                 |? ? ? ? _ _ _ _ _ _ _ _ _ Hus|? ? ? ? ? _ _ _ _ _ _ Hus
                 |? ? ? ? ? _ _ _ _ _ _ _ _ _ Hus];
    rewrite Hus; try (exists u; split; [done|apply sameIdentity_refl]).
  - destruct (decide (e = email)) as [->|Hne]; [congruence|].
    rewrite lookup_insert_ne by done. exists u. split; [done|apply sameIdentity_refl].
  - destruct (decide (e = email)) as [->|Hne].
    + rewrite lookup_insert_eq. exists v'. split; [done|]. congruence.
    + rewrite lookup_insert_ne by done. exists u. split; [done|apply sameIdentity_refl].
  - destruct (decide (e = email)) as [->|Hne].
    + rewrite lookup_insert_eq. exists v'. split; [done|]. congruence.
    + rewrite lookup_insert_ne by done. exists u. split; [done|apply sameIdentity_refl].
Qed.

Lemma change_papers r S S' pid p :
  change r S S' -> fresh r S -> papers (db S) !! pid = Some p ->
  exists p', papers (db S') !! pid = Some p' /\ sameContent p p'.
Proof.
  intros Hc Hf Hp.
  destruct Hc as [_ Hps|? ? _ _ _ Hps|? ? ? _ _ _ Hps
                 |? ? ? ? ? _ _ _ Hps|? _ Hps
                 |? ? pid' p' _ _ Hnone _ _ _ _ _ Hps|? ? pid' p' d _ _ Hp' _ _ Hps
                 |? ? ? ? ? _ _ _ _ _ _ _ _ _ _ Hps];
    rewrite Hps; try (exists p; split; [done|apply sameContent_refl]).
  - destruct (decide (pid = pid')) as [->|Hne]; [rewrite (Hnone Hf) in Hp; done|].
    rewrite lookup_insert_ne by done. exists p. split; [done|apply sameContent_refl].
  - destruct (decide (pid = pid')) as [->|Hne].
    + rewrite lookup_insert_eq. exists (withDecision p' d). split; [done|].
      assert (p' = p) as -> by congruence. by repeat split.
    + rewrite lookup_insert_ne by done. exists p. split; [done|apply sameContent_refl].
Qed.

Lemma run_users trace : forall S e u,
  users (db S) !! e = Some u ->
  exists u', users (db (run trace S)) !! e = Some u' /\ sameIdentity u u'.
Proof.
  induction trace as [|[now r] rest IH]; intros S e u Hu; simpl.
  - exists u. split; [done|apply sameIdentity_refl].
  - destruct (change_users r S (handle now r S) e u (handle_change now r S) Hu)
      as (u1 & Hu1 & Hs1).
    destruct (IH _ e u1 Hu1) as (u2 & Hu2 & Hs2).
    exists u2. split; [done|]. by eapply sameIdentity_trans.
Qed.

Lemma run_papers trace : forall S pid p,
  freshRun trace S -> papers (db S) !! pid = Some p ->
  exists p', papers (db (run trace S)) !! pid = Some p' /\ sameContent p p'.
Proof.
  induction trace as [|[now r] rest IH]; intros S pid p Hf Hp; simpl.
  - exists p. split; [done|apply sameContent_refl].
  - destruct Hf as [Hf Hrest].
    destruct (change_papers r S (handle now r S) pid p (handle_change now r S) Hf Hp)
      as (p1 & Hp1 & Hs1).
    destruct (IH _ pid p1 Hrest Hp1) as (p2 & Hp2 & Hs2).
    exists p2. split; [done|]. by eapply sameContent_trans.
Qed.

End RunFacts.

Section InvFacts.
Context `{NodeCrypto} `{NodeBcrypt}.
Import Server CryptoJs Handlers.

Lemma sessionOf_same u u' : sameIdentity u u' -> sessionOf u' = sessionOf u.
Proof. intros (?&?&?&?&?&?&?). unfold sessionOf. congruence. Qed.

Lemma registeredAs_change r S S' e role :
  change r S S' -> registeredAs S e role -> registeredAs S' e role.
Proof.
  intros Hc (u & Hu & Hr).
  destruct (change_users r S S' e u Hc Hu) as (u' & Hu' & Hs).
  exists u'. split; [done|]. destruct Hs as (_ & Hrole & _). congruence.
Qed.

Lemma session_registered S sid user :
  Inv S -> sessions S !! sid = Some user ->
  registeredAs S (s_email user) (s_role user).
Proof.
  intros HI Hs. destruct (inv_sessions S HI sid user Hs) as (u & Hu & ->).
  by exists u.
Qed.

(** Where a paper of the new state comes from. *)
Lemma change_paper_origin r S S' pid p' :
  Inv S -> fresh r S -> change r S S' ->
  papers (db S') !! pid = Some p' ->
  (exists p, papers (db S) !! pid = Some p /\ sameContent p p' /\
     (decision p' = decision p \/
      exists d, decision p' = Some d /\ d_by d ∈ collaborators p /\
                registeredAs S (d_by d) Collaborator)) \/
  (p_id p' = pid /\ length (versions p') = 1%nat /\
   registeredAs S (owner p') Author /\
   (forall x, x ∈ dom (encryptedKeys p') -> x ∈ allowedUsers p') /\
   decision p' = None).
Proof.
  intros HI Hf Hc Hp'.
  assert (forall p, papers (db S) !! pid = Some p' -> p = p' ->
          exists p, papers (db S) !! pid = Some p /\ sameContent p p' /\
            (decision p' = decision p \/
             exists d, decision p' = Some d /\ d_by d ∈ collaborators p /\
                       registeredAs S (d_by d) Collaborator)) as Hold.
  { intros p Hp _. exists p'. split; [done|]. split; [apply sameContent_refl|by left]. }
  destruct Hc as [_ Hps|? ? _ _ _ Hps|? ? ? _ _ _ Hps
                 |? ? ? ? ? _ _ _ Hps|? _ Hps
                 |sid user pid0 p0 Hs Hrole Hnone Hid Hown Hlen Hdec Hkeys Hps
                 |sid user pid0 p0 d Hs Hrole Hp0 Hby Hin Hps
                 |? ? ? ? ? _ _ _ _ _ _ _ _ _ _ Hps];
    rewrite Hps in Hp'; try (left; by apply (Hold p')).
  - destruct (decide (pid = pid0)) as [->|Hne].
    + rewrite lookup_insert_eq in Hp'. injection Hp' as <-. right.
      repeat split; try done. rewrite Hown, <- Hrole. by eapply session_registered.
    + rewrite lookup_insert_ne in Hp' by done. left. by apply (Hold p').
  - destruct (decide (pid = pid0)) as [->|Hne].
    + rewrite lookup_insert_eq in Hp'. injection Hp' as <-. left.
      exists p0. split; [done|]. split; [by repeat split|]. right.
      exists d. split; [done|]. rewrite Hby. split; [done|].
      rewrite <- Hrole. by eapply session_registered.
    + rewrite lookup_insert_ne in Hp' by done. left. by apply (Hold p').
Qed.

Lemma change_inv r S S' : Inv S -> fresh r S -> change r S S' -> Inv S'.
Proof.
  intros HI Hf Hc.
  assert (forall e role, registeredAs S e role -> registeredAs S' e role) as Hreg.
  { intros e role. by apply (registeredAs_change r). }
  assert (forall sid su, sessions S !! sid = Some su ->
            exists u, users (db S') !! s_email su = Some u /\ su = sessionOf u) as Hsess.
  { intros sid su Hs. destruct (inv_sessions S HI sid su Hs) as (u & Hu & ->).
    destruct (change_users r S S' _ u Hc Hu) as (u' & Hu' & Hsame).
    exists u'. split; [done|]. by rewrite (sessionOf_same u u'). }
  split.
  - (* users *)
    intros e u Hu.
    destruct Hc as [Hus|email v Hnone Hv Hus|email v v' Hv Hsame Hus
                   |sid email v v' key Hv Hsame Hus|sid Hus
                   |? ? ? ? _ _ _ _ _ _ _ _ _ Hus|? ? ? ? ? _ _ _ _ _ _ Hus
                   |? ? ? ? ? _ _ _ _ _ _ _ _ _ Hus];
      rewrite Hus in Hu; try (by apply (inv_users S HI)).
    + destruct (decide (e = email)) as [->|Hne].
      * rewrite lookup_insert_eq in Hu. congruence.
      * rewrite lookup_insert_ne in Hu by done. by apply (inv_users S HI).
    + destruct (decide (e = email)) as [->|Hne].
      * rewrite lookup_insert_eq in Hu. injection Hu as <-.
        destruct Hsame as (-> & _). by apply (inv_users S HI).
      * rewrite lookup_insert_ne in Hu by done. by apply (inv_users S HI).
    + destruct (decide (e = email)) as [->|Hne].
      * rewrite lookup_insert_eq in Hu. injection Hu as <-.
        destruct Hsame as (-> & _). by apply (inv_users S HI).
      * rewrite lookup_insert_ne in Hu by done. by apply (inv_users S HI).
  - (* sessions *)
    intros sid su Hs.
    destruct Hc as [_ _ _ Hss|? ? _ _ _ _ _ Hss|? ? ? _ _ _ _ _ Hss
                   |sid0 email v v' key Hv Hsame Hus _ _ Hss|sid0 _ _ _ Hss
                   |? ? ? ? _ _ _ _ _ _ _ _ _ _ _ Hss|? ? ? ? ? _ _ _ _ _ _ _ _ Hss
                   |? ? ? ? ? _ _ _ _ _ _ _ _ _ _ _ Hss];
      rewrite Hss in Hs; try (by eapply Hsess).
    + destruct (decide (sid = sid0)) as [->|Hne].
      * rewrite lookup_insert_eq in Hs. injection Hs as <-.
        exists v'. simpl. rewrite (inv_users S HI _ _ Hv), Hus, lookup_insert_eq.
        split; [done|]. by rewrite (sessionOf_same v v').
      * rewrite lookup_insert_ne in Hs by done. by eapply Hsess.
    + apply lookup_delete_Some in Hs as [_ Hs]. by eapply Hsess.
  - (* keys *)
    intros sid k Hk.
    destruct Hc as [_ _ _ Hss Hst|? ? _ _ _ _ _ Hss Hst|? ? ? _ _ _ _ _ Hss Hst
                   |sid0 ? ? ? ? _ _ _ _ _ Hss Hst|sid0 _ _ _ Hss Hst
                   |? ? ? ? _ _ _ _ _ _ _ _ _ _ _ Hss Hst
                   |? ? ? ? ? _ _ _ _ _ _ _ _ Hss Hst
                   |? ? ? ? ? _ _ _ _ _ _ _ _ _ _ _ Hss Hst];
      rewrite Hss; try rewrite Hst in Hk; try (by apply (inv_keys S HI sid k)).
    + apply (inv_keys S HI sid k). by eapply lookup_weaken.
    + destruct (decide (sid = sid0)) as [->|Hne].
      * by rewrite lookup_insert_eq.
      * rewrite lookup_insert_ne in Hk by done. rewrite lookup_insert_ne by done.
        by apply (inv_keys S HI sid k).
    + apply lookup_delete_Some in Hk as [Hne Hk].
      rewrite lookup_delete_ne by done. by apply (inv_keys S HI sid k).
    + apply (inv_keys S HI sid k). by eapply lookup_weaken.
  - (* papers *)
    intros pid p' Hp'.
    destruct (change_paper_origin r S S' pid p' HI Hf Hc Hp')
      as [(p & Hp & Hsame & Hdec)|(Hid & Hlen & Hown & Hkeys & Hdec)].
    + destruct (inv_papers S HI pid p Hp) as (Hid & Hlen & Hown & Hkeys & Hd).
      destruct Hsame as (E1 & E2 & E3 & E4 & E5 & E6 & E7 & E8).
      unfold allowedUsers in *. rewrite E1, E4, E5, E6, E7, E8.
      split; [done|]. split; [done|]. split; [by apply Hreg|]. split; [done|].
      intros d Hd'. destruct Hdec as [Hdec|(d0 & Hd0 & Hin & Hr)].
      * rewrite Hdec in Hd'. destruct (Hd d Hd') as [? ?]. split; [done|by apply Hreg].
      * assert (d = d0) as -> by congruence. split; [done|by apply Hreg].
    + split; [done|]. split; [done|]. split; [by apply Hreg|]. split; [done|].
      intros d Hd'. congruence.
  - (* reviews *)
    intros rid rv Hrv.
    assert (forall rv, reviews (db S) !! rid = Some rv ->
            r_id rv = rid /\
            exists p, papers (db S') !! r_pid rv = Some p /\ r_by rv ∈ reviewers p /\
              registeredAs S' (r_by rv) Reviewer /\
              (forall x, x ∈ dom (r_encryptedKeys rv) -> x ∈ reviewRecipients p)) as Hold.
    { intros rv0 Hrv0. destruct (inv_reviews S HI rid rv0 Hrv0) as (Hid & p & Hp & Hin & Hr & Hk).
      split; [done|].
      destruct (change_papers r S S' _ p Hc Hf Hp) as (p' & Hp' & Hsame).
      destruct Hsame as (E1 & E2 & E3 & E4 & E5 & E6 & E7 & E8).
      exists p'. unfold reviewRecipients. rewrite E4, E5, E6.
      repeat split; try done. by apply Hreg. }
    destruct Hc as [_ _ Hrs|? ? _ _ _ _ Hrs|? ? ? _ _ _ _ Hrs
                   |? ? ? ? ? _ _ _ _ Hrs|? _ _ Hrs
                   |? ? ? ? _ _ _ _ _ _ _ _ _ _ Hrs|? ? ? ? ? _ _ _ _ _ _ _ Hrs
                   |sid user rid0 rv0 p Hs Hrole Hnone Hid Hp Hby Hin Hkeys Hrs Hus Hps];
      rewrite Hrs in Hrv; try (by apply Hold).
    destruct (decide (rid = rid0)) as [->|Hne].
    + rewrite lookup_insert_eq in Hrv. injection Hrv as <-. split; [done|].
      exists p. rewrite Hps. split; [done|]. rewrite Hby. split; [done|].
      split; [|done]. apply Hreg. rewrite <- Hrole. by eapply session_registered.
    + rewrite lookup_insert_ne in Hrv by done. by apply Hold.
Qed.

Lemma initial_inv : Inv initial.
Proof. split; simpl; intros *; by rewrite lookup_empty. Qed.

Lemma run_inv trace : forall S, Inv S -> freshRun trace S -> Inv (run trace S).
Proof.
  induction trace as [|[now r] rest IH]; intros S HI Hf; simpl; [done|].
  destruct Hf as [Hf Hrest]. apply IH; [|done].
  eapply change_inv; [done|done|apply handle_change].
Qed.

End InvFacts.

Section LogFacts.
Context `{NodeCrypto} `{NodeBcrypt}.
Import Server CryptoJs Handlers.

(** A request appends to the log, or leaves it. *)
Lemma handle_logs now r S : logs (db S) `prefix_of` logs (db (handle now r S)).
Proof.
  destruct r; simpl.
  - unfold signup. logs_grow.
  - unfold verifyOtp. logs_grow.
  - unfold login. logs_grow.
  - unfold logout. logs_grow.
  - unfold createPaper. logs_grow.
  - unfold getPaper. logs_grow.
  - unfold submitReview. logs_grow.
  - unfold getReview. logs_grow.
  - unfold issueDecision. logs_grow.
  - unfold getDecision. logs_grow.
  - unfold listPapers. logs_grow.
  - unfold dashboard. logs_grow.
  - unfold getLogs. logs_grow.
  - unfold me. logs_grow.
  - unfold otpSent. simpl. by apply prefix_app_r.
  - reflexivity.
Qed.

End LogFacts.

(** ** Sign-up, and what follows it *)

Section SignupFacts.
Context `{NodeCrypto} `{NodeBcrypt}.
Import Server CryptoJs Handlers.

Lemma aesEncrypt_then_decrypt ivb plain key enc :
  base64_roundtrip -> gcm_ctr_involutive -> gcm_tag_length ->
  aesEncrypt ivb plain key = Ret enc -> aesDecrypt enc key = Ret plain.
Proof.
  intros Hb64 Hctr Htag Henc.
  assert (length key = 32%nat /\ ivb <> []) as [Hlen Hiv].
  { unfold aesEncrypt, gcmInit in Henc.
    case_bool_decide; simpl in Henc; [|done].
    case_bool_decide; simpl in Henc; done. }
  destruct (aes_roundtrip ivb plain key) as (enc' & Henc' & Hdec); try done.
  congruence.
Qed.

Lemma signup_ok now ent email pw role S S1 :
  signup now ent email pw role S = (json 200 JOk, S1) ->
  exists r enc,
    roleOf role = Some r /\
    Utils.validatePassword pw = true /\
    users (db S) !! email = None /\
    aesEncrypt (g_iv ent) (utf8enc (g_privateKey ent))
      (deriveKey pw (Hex.toHex (g_salt ent))) = Ret enc /\
    users (db S1) = <[email := newUser ent email pw r enc]> (users (db S)) /\
    otps (db S1) = <[email := newCode now ent]> (otps (db S)) /\
    papers (db S1) = papers (db S) /\ reviews (db S1) = reviews (db S) /\
    sessions S1 = sessions S /\ privateKeyStore S1 = privateKeyStore S.
Proof.
  unfold signup.
  destruct (_ || _); [by intros [=]|].
  destruct (roleOf role) as [r|]; [|by intros [=]].
  destruct (Utils.validatePassword pw); simpl; [|by intros [=]].
  destruct (truthyAt _ _) eqn:Ht; [by intros [=]|].
  destruct (aesEncrypt _ _ _) as [enc|] eqn:Eenc; [|by intros [=]].
  intros [= <-]. exists r, enc. simpl. repeat split; try done.
  by apply truthyAt_false.
Qed.


Lemma signup_refused now ent email pw role S u :
  users (db S) !! email = Some u ->
  (signup now ent email pw role S).1 <> json 200 JOk.
Proof.
  intros Hu E.
  destruct (signup now ent email pw role S) as [o S1] eqn:Es. simpl in E. subst o.
  apply signup_ok in Es as (r & enc & _ & _ & Hnone & _). congruence.
Qed.

End SignupFacts.

(** X8: an account can be used as soon as it is signed up.  After a
    successful [POST /api/signup], a [POST /api/login] with the same
    e-mail address and password succeeds at any later instant and from
    any session: the session gets the role chosen at sign-up and the
    uuid drawn there, and the private key generated at sign-up is bound
    to the session for the TTL.  The login does not look at the sign-up
    code: the code is still unused after it. *)
Theorem signup_then_login `{NodeCrypto} `{NodeBcrypt}
    now ent email pw role S S1 t sid :
  base64_roundtrip -> utf8_roundtrip -> gcm_ctr_involutive -> gcm_tag_length ->
  bcrypt_correct ->
  Handlers.signup now ent email pw role S = (Server.json 200 Server.JOk, S1) ->
  exists r S2,
    Handlers.roleOf role = Some r /\
    Server.login t sid email pw S1 = (Server.json 200 Server.JOk, S2) /\
    Server.sessions S2 !! sid
      = Some {| Server.s_email := email; Server.s_role := r;
                Server.s_id := Handlers.g_id ent |} /\
    Server.privateKeyStore S2 !! sid
      = Some {| Custody.privateKeyPem := Handlers.g_privateKey ent;
                Custody.expiresAt := t + Custody.TTL |} /\
    Server.otps (Server.db S2) !! email = Some (Handlers.newCode now ent) /\
    Server.used (Handlers.newCode now ent) = false.
Proof.
  intros Hb64 Hutf Hctr Htag Hbc Hs.
  apply signup_ok in Hs
    as (r & enc & Hr & _ & _ & Henc & Hus & Hos & _ & _ & _ & _).
  apply aesEncrypt_then_decrypt in Henc; [|done..].
  exists r. unfold Server.login. rewrite Hus, lookup_insert_eq. simpl.
  unfold Server.isLocked. simpl. rewrite Hbc. simpl. rewrite Henc.
  eexists. split; [done|]. split; [reflexivity|]. simpl.
  unfold Custody.storePrivateKeyForSession. rewrite !lookup_insert_eq, Hutf, Hos.
  by rewrite lookup_insert_eq.
Qed.

(** X9: the code issued at sign-up.  It is accepted, once, at any
    instant up to five minutes after the sign-up, that instant
    included; later it is refused as expired whatever is submitted, and
    it stays unused.  No code can be issued for that address again:
    after every sequence of events that follows (requests, sweeps, and
    mail callbacks that run before a later write) a sign-up for the
    address is refused. *)
Theorem signup_code_lifetime `{NodeCrypto} `{NodeBcrypt}
    now ent email pw role S S1 :
  Handlers.signup now ent email pw role S = (Server.json 200 Server.JOk, S1) ->
  (forall t, t <= now + Handlers.otpLifetime ->
     exists D',
       Server.verifyOtp t email (Utils.generateOTP (Handlers.g_otp ent)) (Server.db S1)
         = (Server.json 200 Server.JOk, D') /\
       Server.used <$> Server.otps D' !! email = Some true) /\
  (forall t code, t > now + Handlers.otpLifetime ->
     exists D',
       Server.verifyOtp t email code (Server.db S1) = (Server.otpExpired, D') /\
       Server.used <$> Server.otps D' !! email = Some false) /\
  (forall trace t ent' pw' role',
     (Handlers.signup t ent' email pw' role' (Handlers.run trace S1)).1
       <> Server.json 200 Server.JOk).
Proof.
  intros Hs.
  pose proof Hs as Hs'.
  apply signup_ok in Hs'
    as (r & enc & Hr & _ & _ & Henc & Hus & Hos & _ & _ & _ & _).
  split; [|split].
  - intros t Ht. unfold Server.verifyOtp. rewrite Hos, lookup_insert_eq. simpl.
    rewrite bool_decide_false by lia. rewrite bool_decide_true by done. simpl.
    eexists. split; [reflexivity|]. simpl. by rewrite lookup_insert_eq.
  - intros t code Ht. unfold Server.verifyOtp. rewrite Hos, lookup_insert_eq. simpl.
    rewrite bool_decide_true by lia.
    eexists. split; [reflexivity|]. simpl. by rewrite lookup_insert_eq.
  - intros trace t ent' pw' role'.
    destruct (run_users trace S1 email (Handlers.newUser ent email pw r enc))
      as (u' & Hu' & _).
    { by rewrite Hus, lookup_insert_eq. }
    by eapply signup_refused.
Qed.

(** X10: the write that follows the sign-up mail is stale.  The
    callback that logs [otp_sent] writes the database object of its own
    sign-up request to the file.  When another sign-up was served in
    between, its user is in the file before the callback and gone after
    it: all that is left is what the first sign-up saw, with one more
    log entry. *)
Theorem otp_sent_write_discards_later_signup `{NodeCrypto} `{NodeBcrypt}
    now1 ent1 a pw1 role1 S S1 now2 ent2 b pw2 role2 S2 t sent :
  Handlers.signup now1 ent1 a pw1 role1 S = (Server.json 200 Server.JOk, S1) ->
  Handlers.signup now2 ent2 b pw2 role2 S1 = (Server.json 200 Server.JOk, S2) ->
  let S3 := Handlers.otpSent t a sent (Server.db S1) S2 in
  is_Some (Server.users (Server.db S2) !! b) /\
  Server.users (Server.db S3) !! b = None /\
  Server.users (Server.db S3) = Server.users (Server.db S1) /\
  Server.otps (Server.db S3) = Server.otps (Server.db S1) /\
  length (Server.logs (Server.db S3)) = (length (Server.logs (Server.db S1)) + 1)%nat.
Proof.
  intros H1 H2 S3.
  apply signup_ok in H2
    as (r & enc & _ & _ & Hnone & _ & Hus & _).
  split; [by rewrite Hus, lookup_insert_eq|].
  split; [done|]. split; [done|]. split; [done|].
  simpl. rewrite length_app. simpl. lia.
Qed.

(** ** Lockout after the lock has lapsed, and logout *)



(** ** Who reads and who writes *)

Section RoleFacts.
Context `{NodeCrypto}.
Import Server CryptoJs Handlers.

Lemma getReview_reader now sid rid S f :
  plaintextOf (getReview now sid rid S).1 = Some f ->
  exists user review paper,
    sessions S !! sid = Some user /\ s_role user = Collaborator /\
    reviews (db S) !! rid = Some review /\
    papers (db S) !! r_pid review = Some paper /\
    (owner paper = s_email user \/ s_email user ∈ collaborators paper).
Proof.
  unfold getReview, unauthenticated.
  destruct (sessions S !! sid) as [user|] eqn:Hs; [|by intros [=]].
  destruct (reviews (db S) !! rid) as [review|] eqn:Hrv; [|by intros [=]].
  destruct (papers (db S) !! r_pid review) as [paper|] eqn:Hp; [|by intros [=]].
  destruct (negb _) eqn:Hm; [by intros [=]|].
  destruct (Acl.granted _ _ _) eqn:Hg; simpl; [|by intros [=]].
  intros _. exists user, review, paper. split; [done|].
  split; [by apply granted_read_review|]. split; [done|]. split; [done|].
  apply negb_false_iff, orb_true_iff in Hm as [Hm|Hm];
    apply bool_decide_eq_true in Hm; auto.
Qed.

Lemma getDecision_reader now sid pid S dec ok :
  (getDecision now sid pid S).1 = json 200 (JDecision dec ok) ->
  exists user, sessions S !! sid = Some user /\ s_role user <> Reviewer.
Proof.
  unfold getDecision, unauthenticated.
  destruct (sessions S !! sid) as [user|] eqn:Hs; [|by intros [=]].
  destruct (papers (db S) !! pid ≫= decision) as [d|]; [|by intros [=]].
  rewrite granted_read_decision.
  destruct (s_role user) eqn:Hr; simpl; try (by intros [=]);
    intros _; exists user; by rewrite Hr.
Qed.

Lemma getDecision_any_paper now sid pid S user paper dec ok :
  sessions S !! sid = Some user -> s_role user <> Reviewer ->
  papers (db S) !! pid = Some paper -> decision paper = Some dec ->
  verifyDecision (db S) dec = Ret ok ->
  (getDecision now sid pid S).1 = json 200 (JDecision dec ok).
Proof.
  intros Hs Hr Hp Hd Hv. unfold getDecision. rewrite Hs, Hp. simpl. rewrite Hd.
  rewrite granted_read_decision.
  destruct (s_role user); simpl; try done; by rewrite Hv.
Qed.

Lemma createPaper_writer now ent sid q S :
  papers (db (createPaper now ent sid q S).2) <> papers (db S) ->
  exists user, sessions S !! sid = Some user /\ s_role user = Author.
Proof.
  unfold createPaper, unauthenticated.
  destruct (sessions S !! sid) as [user|] eqn:Hs; [|done].
  destruct (Acl.granted _ _ _) eqn:Hg; simpl; [|done].
  intros _. exists user. split; [done|]. by apply granted_create_paper.
Qed.

Lemma submitReview_writer now ent sid pid rb S :
  reviews (db (submitReview now ent sid pid rb S).2) <> reviews (db S) ->
  exists user paper,
    sessions S !! sid = Some user /\ s_role user = Reviewer /\
    papers (db S) !! pid = Some paper /\ s_email user ∈ reviewers paper.
Proof.
  unfold submitReview, unauthenticated.
  destruct (sessions S !! sid) as [user|] eqn:Hs; [|done].
  destruct (papers (db S) !! pid) as [paper|] eqn:Hp; [|done].
  case_bool_decide; simpl; [|done].
  destruct (Acl.granted _ _ _) eqn:Hg; simpl; [|done].
  intros _. exists user, paper. split; [done|].
  split; [by apply granted_create_review|]. done.
Qed.

Lemma issueDecision_writer now sid pid text S :
  papers (db (issueDecision now sid pid text S).2) <> papers (db S) ->
  exists user paper,
    sessions S !! sid = Some user /\ s_role user = Collaborator /\
    papers (db S) !! pid = Some paper /\ s_email user ∈ collaborators paper.
Proof.
  unfold issueDecision, unauthenticated.
  destruct (sessions S !! sid) as [user|] eqn:Hs; [|done].
  destruct (papers (db S) !! pid) as [paper|] eqn:Hp; [|done].
  case_bool_decide; simpl; [|done].
  destruct (Acl.granted _ _ _) eqn:Hg; simpl; [|done].
  intros _. exists user, paper. split; [done|].
  split; [by apply granted_create_decision|]. done.
Qed.

End RoleFacts.

(** X13: who reads reviews and decisions.  [GET /api/reviews/:id]
    sends a plaintext only to a session with the role Collaborator who
    is the owner or a collaborator of the review's paper.
    [GET /api/papers/:id/decision] sends a decision only to a session
    whose role is not Reviewer; it makes no membership check: a session
    with the role Author or Collaborator is sent the stored decision of
    any paper, with the verdict of the signature check, whether or not
    its user is a recipient of that paper. *)
Theorem reads_by_role `{NodeCrypto} :
  (forall now sid rid S f,
     Server.plaintextOf (Server.getReview now sid rid S).1 = Some f ->
     exists user review paper,
       Server.sessions S !! sid = Some user /\
       Server.s_role user = Server.Collaborator /\
       Server.reviews (Server.db S) !! rid = Some review /\
       Server.papers (Server.db S) !! Server.r_pid review = Some paper /\
       (Server.owner paper = Server.s_email user \/
        Server.s_email user ∈ Server.collaborators paper)) /\
  (forall now sid pid S dec ok,
     (Server.getDecision now sid pid S).1
       = Server.json 200 (Server.JDecision dec ok) ->
     exists user,
       Server.sessions S !! sid = Some user /\
       Server.s_role user <> Server.Reviewer) /\
  (forall now sid pid S user paper dec ok,
     Server.sessions S !! sid = Some user ->
     Server.s_role user <> Server.Reviewer ->
     Server.papers (Server.db S) !! pid = Some paper ->
     Server.decision paper = Some dec ->
     Server.verifyDecision (Server.db S) dec = Ret ok ->
     (Server.getDecision now sid pid S).1
       = Server.json 200 (Server.JDecision dec ok)).
Proof.
  split; [apply getReview_reader|]. split; [apply getDecision_reader|].
  apply getDecision_any_paper.
Qed.

(** X14: who writes.  [POST /api/papers] changes the stored papers
    only for a session with the role Author,
    [POST /api/papers/:id/reviews] changes the stored reviews only for a
    session with the role Reviewer whose user is among the reviewers of
    the paper, and [POST /api/papers/:id/decision] changes the stored
    papers only for a session with the role Collaborator whose user is
    among the collaborators of the paper. *)
Theorem writes_by_role `{NodeCrypto} :
  (forall now ent sid q S,
     Server.papers (Server.db (Server.createPaper now ent sid q S).2)
       <> Server.papers (Server.db S) ->
     exists user,
       Server.sessions S !! sid = Some user /\ Server.s_role user = Server.Author) /\
  (forall now ent sid pid rb S,
     Server.reviews (Server.db (Server.submitReview now ent sid pid rb S).2)
       <> Server.reviews (Server.db S) ->
     exists user paper,
       Server.sessions S !! sid = Some user /\
       Server.s_role user = Server.Reviewer /\
       Server.papers (Server.db S) !! pid = Some paper /\
       Server.s_email user ∈ Server.reviewers paper) /\
  (forall now sid pid text S,
     Server.papers (Server.db (Server.issueDecision now sid pid text S).2)
       <> Server.papers (Server.db S) ->
     exists user paper,
       Server.sessions S !! sid = Some user /\
       Server.s_role user = Server.Collaborator /\
       Server.papers (Server.db S) !! pid = Some paper /\
       Server.s_email user ∈ Server.collaborators paper).
Proof.
  split; [apply createPaper_writer|]. split; [apply submitReview_writer|].
  apply issueDecision_writer.
Qed.

(** X15: the denial branches that throw.  For a logged-in session
    whose role is not Author, [POST /api/papers] does not answer 403: it
    throws a ReferenceError and writes nothing, no [access_denied] entry
    either.  [GET /api/logs] throws the same way for the role Reviewer,
    and sends the whole log to a session with the role Author or
    Collaborator. *)
Theorem denial_branches_throw `{NodeCrypto} :
  (forall now ent sid q S user,
     Server.sessions S !! sid = Some user ->
     Server.s_role user <> Server.Author ->
     Server.createPaper now ent sid q S
       = (Throw (ReferenceError "Cannot access 'DB' before initialization"), S)) /\
  (forall now sid S user,
     Server.sessions S !! sid = Some user ->
     Server.s_role user = Server.Reviewer ->
     Handlers.getLogs now sid S
       = (Throw (ReferenceError "Cannot access 'DB' before initialization"), S)) /\
  (forall now sid S user,
     Server.sessions S !! sid = Some user ->
     Server.s_role user <> Server.Reviewer ->
     Handlers.getLogs now sid S
       = (Ret (Handlers.Sent (Server.logs (Server.db S))), S)).
Proof.
  split; [|split].
  - intros now ent sid q S user Hs Hr. unfold Server.createPaper. rewrite Hs.
    by destruct (Server.s_role user).
  - intros now sid S user Hs Hr. unfold Handlers.getLogs. rewrite Hs, Hr. done.
  - intros now sid S user Hs Hr. unfold Handlers.getLogs. rewrite Hs.
    by destruct (Server.s_role user).
Qed.

(** ** The listings *)

Section ListFacts.
Context `{NodeCrypto}.
Import Server CryptoJs Handlers.

Lemma elem_of_objectValues {A} (m : gmap string A) (x : A) :
  x ∈ objectValues m <-> exists k, m !! k = Some x.
Proof.
  unfold objectValues. rewrite list_elem_of_fmap. split.
  - intros ([k y] & -> & Hin). exists k. by apply elem_of_map_to_list in Hin.
  - intros (k & Hk). exists (k, x). split; [done|]. by apply elem_of_map_to_list.
Qed.

(** With the membership test passed, [GET /api/papers/:id] has other
    answers than 403 forbidden. *)
Lemma getPaper_recipient now sid pid S user paper :
  sessions S !! sid = Some user ->
  papers (db S) !! pid = Some paper ->
  s_email user ∈ allowedUsers paper ->
  (getPaper now sid pid S).1 <> json 403 (JError "forbidden").
Proof.
  intros Hs Hp Hin. unfold getPaper. rewrite Hs, Hp.
  unfold allowedUsers in Hin. rewrite bool_decide_true by done. simpl.
  unfold Custody.getPrivateKeyForSession.
  repeat (case_match || case_bool_decide); simplify_eq/=; done.
Qed.

Lemma listPapers_spec now sid S user :
  sessions S !! sid = Some user ->
  exists l S',
    listPapers now sid S = (Ret (Sent l), S') /\
    forall s, s ∈ l <->
      exists pid p, papers (db S) !! pid = Some p /\
        s_email user ∈ allowedUsers p /\ s = summaryOf (db S) p.
Proof.
  intros Hs. unfold listPapers. rewrite Hs. eexists _, _. split; [reflexivity|].
  intros s. rewrite list_elem_of_fmap. split.
  - intros (p & -> & Hin). apply list_elem_of_filter in Hin as [Hal Hin].
    apply elem_of_objectValues in Hin as [pid Hp]. by exists pid, p.
  - intros (pid & p & Hp & Hal & ->). exists p. split; [done|].
    apply list_elem_of_filter. split; [done|]. apply elem_of_objectValues. by exists pid.
Qed.

End ListFacts.

(** X16: the listing agrees with the read.  For a logged-in session
    [GET /api/papers] answers with the summaries of exactly the stored
    papers that name the caller as owner, collaborator or reviewer, and
    a stored paper is in the listing exactly when
    [GET /api/papers/:id] does not answer 403 forbidden for it. *)
Theorem listPapers_matches_getPaper `{NodeCrypto} now sid S user :
  Server.sessions S !! sid = Some user ->
  exists l S',
    Handlers.listPapers now sid S = (Ret (Handlers.Sent l), S') /\
    (forall s, s ∈ l <->
       exists pid p, Server.papers (Server.db S) !! pid = Some p /\
         Server.s_email user ∈ Handlers.allowedUsers p /\
         s = Handlers.summaryOf (Server.db S) p) /\
    (forall pid p, Server.papers (Server.db S) !! pid = Some p ->
       (Handlers.summaryOf (Server.db S) p ∈ l <->
        (Server.getPaper now sid pid S).1
          <> Server.json 403 (Server.JError "forbidden"))).
Proof.
  intros Hs. destruct (listPapers_spec now sid S user Hs) as (l & S' & El & Hl).
  exists l, S'. split; [done|]. split; [done|].
  intros pid p Hp. rewrite Hl. split.
  - intros (pid' & p' & Hp' & Hal & Hsum).
    apply (getPaper_recipient now sid pid S user p Hs Hp).
    unfold Handlers.allowedUsers in *.
    assert (Server.owner p = Server.owner p') as -> by (by injection Hsum).
    assert (Server.collaborators p = Server.collaborators p') as ->
      by (by injection Hsum).
    assert (Server.reviewers p = Server.reviewers p') as -> by (by injection Hsum).
    done.
  - intros Hne. exists pid, p. split; [done|]. split; [|done].
    destruct (decide (Server.s_email user ∈ Handlers.allowedUsers p)) as [|Hnot]; [done|].
    exfalso. apply Hne.
    by rewrite (getPaper_not_recipient now sid pid S user p Hs Hp Hnot).
Qed.

(** X17: the dashboard is a part of the listing.  For a logged-in
    session [GET /api/dashboard] answers with one row for each stored
    paper the caller owns (role Author), is a collaborator of (role
    Collaborator) or is a reviewer of (role Reviewer), and every paper
    with a row on the dashboard has a summary in the listing of
    [GET /api/papers]. *)
Theorem dashboard_within_listing `{NodeCrypto} now sid S user :
  Server.sessions S !! sid = Some user ->
  exists rows l S1 S2,
    Handlers.dashboard now sid S
      = (Ret (Handlers.Sent (Server.roleName (Server.s_role user), rows)), S1) /\
    Handlers.listPapers now sid S = (Ret (Handlers.Sent l), S2) /\
    (forall id, id ∈ Handlers.rowId <$> rows <->
       exists pid p, Server.papers (Server.db S) !! pid = Some p /\
         Server.p_id p = id /\
         match Server.s_role user with
         | Server.Author => Server.owner p = Server.s_email user
         | Server.Collaborator => Server.s_email user ∈ Server.collaborators p
         | Server.Reviewer => Server.s_email user ∈ Server.reviewers p
         end) /\
    (forall id, id ∈ Handlers.rowId <$> rows -> id ∈ Handlers.sm_id <$> l).
Proof.
  intros Hs. destruct (listPapers_spec now sid S user Hs) as (l & S2 & El & Hl).
  unfold Handlers.dashboard. rewrite Hs.
  eexists _, l, _, S2. split; [reflexivity|]. split; [done|].
  assert (forall id, id ∈ Handlers.rowId <$> Handlers.rowsOf (Server.db S) user <->
          exists pid p, Server.papers (Server.db S) !! pid = Some p /\
            Server.p_id p = id /\
            match Server.s_role user with
            | Server.Author => Server.owner p = Server.s_email user
            | Server.Collaborator => Server.s_email user ∈ Server.collaborators p
            | Server.Reviewer => Server.s_email user ∈ Server.reviewers p
            end) as Hrows.
  { intros id. unfold Handlers.rowsOf. destruct (Server.s_role user);
      rewrite <- list_fmap_compose, list_elem_of_fmap; simpl; split.
    all: try (intros (p & -> & Hin); apply list_elem_of_filter in Hin as [Hc Hin];
              apply elem_of_objectValues in Hin as [pid Hp]; by exists pid, p).
    all: intros (pid & p & Hp & <- & Hc); exists p; split; [done|];
         apply list_elem_of_filter; split; [done|];
         apply elem_of_objectValues; by exists pid. }
  split; [exact Hrows|].
  intros id Hid. apply Hrows in Hid as (pid & p & Hp & <- & Hc).
  apply list_elem_of_fmap. exists (Handlers.summaryOf (Server.db S) p).
  split; [done|]. apply Hl. exists pid, p. split; [done|]. split; [|done].
  unfold Handlers.allowedUsers.
  destruct (Server.s_role user); [rewrite Hc|..]; set_solver.
Qed.

(** ** What no sequence of requests undoes *)

(** X18: the log only grows.  Through every sequence of events
    (requests, the hourly sweep, and mail callbacks that run before a
    later write) the log the server started with is a prefix of the log
    it ends with: no handler removes or rewrites an entry.  A mail
    callback that runs after a later write is not such an event, and
    does rewrite the log. *)
Theorem log_is_append_only `{NodeCrypto} `{NodeBcrypt} trace S :
  Server.logs (Server.db S)
    `prefix_of` Server.logs (Server.db (Handlers.run trace S)).
Proof.
  revert S. induction trace as [|[now r] rest IH]; intros S; simpl; [done|].
  etrans; [apply handle_logs|apply IH].
Qed.

(** X19: an account keeps its identity.  A user who is registered
    stays registered through every sequence of events (requests, sweeps,
    mail callbacks that run before a later write), under the same
    e-mail address, with the role, password hash, public key, sealed
    private key, salt and uuid of the sign-up: no handler removes a
    user, changes a role or a password, or rotates a key. *)
Theorem user_identity_is_stable `{NodeCrypto} `{NodeBcrypt} trace S e u :
  Server.users (Server.db S) !! e = Some u ->
  exists u',
    Server.users (Server.db (Handlers.run trace S)) !! e = Some u' /\
    Server.u_email u' = Server.u_email u /\
    Server.u_role u' = Server.u_role u /\
    Server.passwordHash u' = Server.passwordHash u /\
    Server.rsaPublicKey u' = Server.rsaPublicKey u /\
    Server.rsaPrivateKeyEncrypted u' = Server.rsaPrivateKeyEncrypted u /\
    Server.rsaPrivSalt u' = Server.rsaPrivSalt u /\
    Server.u_id u' = Server.u_id u.
Proof.
  intros Hu. destruct (run_users trace S e u Hu) as (u' & Hu' & Hsame).
  by exists u'.
Qed.

(** X20: a paper keeps its content and its recipients.  Through
    every sequence of events (requests, sweeps, mail callbacks that run
    before a later write) whose fresh uuids are not in use, a
    stored paper stays stored under its id with the title, metadata,
    owner, collaborators, reviewers, versions and wrapped keys it was
    created with: no handler adds a version, adds or removes a
    recipient, or wraps the key again; only the decision can change. *)
Theorem paper_content_is_stable `{NodeCrypto} `{NodeBcrypt} trace S pid p :
  Handlers.freshRun trace S ->
  Server.papers (Server.db S) !! pid = Some p ->
  exists p',
    Server.papers (Server.db (Handlers.run trace S)) !! pid = Some p' /\
    Server.p_id p' = Server.p_id p /\
    Server.p_title p' = Server.p_title p /\
    Server.p_metadata p' = Server.p_metadata p /\
    Server.owner p' = Server.owner p /\
    Server.collaborators p' = Server.collaborators p /\
    Server.reviewers p' = Server.reviewers p /\
    Server.versions p' = Server.versions p /\
    Server.encryptedKeys p' = Server.encryptedKeys p.
Proof.
  intros Hf Hp. destruct (run_papers trace S pid p Hf Hp) as (p' & Hp' & Hsame).
  by exists p'.
Qed.


(** X22: the owner of a paper never reads its reviews.  In every
    state the server reaches from the empty file by a sequence of events
    (requests, sweeps, mail callbacks that run before a later write;
    fresh uuids not in use), a session of the owner of a paper that asks
    for a review of that paper is answered 403 forbidden-role, although every review is
    sealed for the owner: the owner signed up as Author, and the matrix
    gives Authors nothing on reviews. *)
Theorem owner_never_reads_reviews `{NodeCrypto} `{NodeBcrypt}
    trace now sid rid user review paper :
  Handlers.freshRun trace Handlers.initial ->
  let S := Handlers.run trace Handlers.initial in
  Server.sessions S !! sid = Some user ->
  Server.reviews (Server.db S) !! rid = Some review ->
  Server.papers (Server.db S) !! Server.r_pid review = Some paper ->
  Server.owner paper = Server.s_email user ->
  (Server.getReview now sid rid S).1
    = Server.json 403 (Server.JError "forbidden-role").
Proof.
  intros Hf S Hs Hrv Hp Hown.
  pose proof (run_inv trace Handlers.initial initial_inv Hf) as HI. fold S in HI.
  destruct (Handlers.inv_papers S HI _ paper Hp) as (_ & _ & (u & Hu & Hrole) & _).
  destruct (Handlers.inv_sessions S HI sid user Hs) as (u' & Hu' & Hsu).
  assert (u' = u) as -> by congruence.
  assert (Server.s_role user = Server.Author) as Hr by (by rewrite Hsu).
  unfold Server.getReview. rewrite Hs, Hrv, Hp.
  rewrite (bool_decide_true (Server.owner paper = Server.s_email user)) by done.
  simpl. by rewrite Hr.
Qed.

(** ** The recipient list *)

Section DedupeFacts.
Import Server.

Lemma imap_pair_snd (a : list string) : (imap (fun i v => (i, v)) a).*2 = a.
Proof.
  apply list_eq. intros i. rewrite list_lookup_fmap, list_lookup_imap.
  by destruct (a !! i).
Qed.

Lemma imap_pair_NoDup (a : list string) : NoDup (imap (fun i v => (i, v)) a).
Proof.
  apply NoDup_alt. intros i j [k v] Hi Hj.
  rewrite list_lookup_imap in Hi. rewrite list_lookup_imap in Hj.
  destruct (a !! i); destruct (a !! j); simplify_eq/=. done.
Qed.

End DedupeFacts.

(** X23: the recipient list.  The filter
    [a.filter((v,i,a) => a.indexOf(v) === i)] that builds the recipients
    of a new paper keeps the first occurrence of every address and
    drops the later ones: the result has no duplicates, the same members
    as the list, their order, and for a paper the author comes first. *)
Theorem dedupe_keeps_first_occurrences :
  (forall a, NoDup (Server.dedupe a)) /\
  (forall a x, x ∈ Server.dedupe a <-> x ∈ a) /\
  (forall a, Server.dedupe a `sublist_of` a) /\
  (forall author q, head (Server.paperRecipients author q) = Some author).
Proof.
  split; [|split; [|split]].
  - intros a. unfold Server.dedupe. apply NoDup_fmap_2_strong.
    + intros [i v] [j w] Hi Hj Heq. simpl in Heq. subst w.
      apply list_elem_of_filter in Hi as [Hi _]. apply list_elem_of_filter in Hj as [Hj _].
      simpl in *. congruence.
    + apply NoDup_filter, imap_pair_NoDup.
  - intros a x. apply elem_of_dedupe.
  - intros a. unfold Server.dedupe.
    rewrite <- (imap_pair_snd a) at 2. apply fmap_sublist, sublist_filter.
  - intros author q. unfold Server.paperRecipients, Server.dedupe.
    cbn [imap]. rewrite filter_cons_True; [done|].
    simpl. by rewrite bool_decide_true.
Qed.

(** ** The research portal: codes, sessions, decisions *)

Section PortalFacts.
Import AuthController PortalAuth.

Lemma sixDigits_nonempty s : sixDigits s = true -> s <> "".
Proof. by intros Hs ->. Qed.

Lemma resendOTP_pending now draw sent S pending :
  userId (session S) = None -> pendingRegistration (session S) = Some pending ->
  exists reply pending1,
    resendOTP now draw sent S
      = (reply, withSession S {| userId := None; mfaVerified := mfaVerified (session S);
                                 pendingRegistration := Some pending1 |}) /\
    reply = (if sent then resent else sendFailed) /\
    pe_otpCode pending1 = generateOTP draw /\
    pe_otpExpiry pending1 = now + OTP_EXPIRY.
Proof.
  intros Hu Hp. unfold resendOTP. rewrite Hu, Hp.
  destruct sent; simpl; eexists _, _; (split; [reflexivity|]); done.
Qed.

Lemma resendOTP_user now draw sent S uid user :
  userId (session S) = Some uid -> users S !! uid = Some user ->
  exists reply user1,
    resendOTP now draw sent S
      = (reply, {| users := <[uid := user1]> (users S); session := session S;
                   audit := audit S |}) /\
    reply = (if sent then resent else sendFailed) /\
    otpCode user1 = Some (generateOTP draw) /\
    otpExpiry user1 = Some (now + OTP_EXPIRY).
Proof.
  intros Hu Hp. unfold resendOTP. rewrite Hu, Hp.
  destruct (pendingRegistration (session S));
    destruct sent; simpl; eexists _, _; (split; [reflexivity|]); done.
Qed.

End PortalFacts.

(** X24: a resent code replaces the old one.  When [resendOTP]
    answers 200, or 500 because the mail could not be sent, the pending
    registration or the user holds the new code with a lifetime of five
    minutes from now: [verifyOTP] accepts the new code up to that
    instant and answers Invalid OTP to any other six-digit code, the
    earlier one included.  The session is no more verified than
    before. *)
Theorem resend_replaces_the_code now draw sent S reply S1 :
  100000 <= draw < 999999 ->
  PortalAuth.resendOTP now draw sent S = (reply, S1) ->
  AuthController.status reply = 200 \/ AuthController.status reply = 500 ->
  AuthController.mfaVerified (AuthController.session S1)
    = AuthController.mfaVerified (AuthController.session S) /\
  (forall t newId, t <= now + PortalAuth.OTP_EXPIRY ->
     let r := (AuthController.verifyOTP t newId (PortalAuth.generateOTP draw) S1).1 in
     AuthController.status r = 200 \/ AuthController.status r = 201) /\
  (forall t newId other,
     AuthController.sixDigits other = true -> other <> PortalAuth.generateOTP draw ->
     (AuthController.verifyOTP t newId other S1).1 = AuthController.invalidOTP).
Proof.
  intros Hdraw Hr Hst.
  assert (AuthController.sixDigits (PortalAuth.generateOTP draw) = true) as H6
    by (apply pretty_six_digits; lia).
  pose proof (sixDigits_nonempty _ H6) as Hne.
  destruct (AuthController.userId (AuthController.session S)) as [uid|] eqn:Hu.
  - destruct (AuthController.users S !! uid) as [user|] eqn:Hus.
    + destruct (resendOTP_user now draw sent S uid user Hu Hus)
        as (reply' & user1 & E & _ & Hc & He).
      rewrite E in Hr. injection Hr as <- <-. simpl. split; [done|].
      unfold AuthController.verifyOTP. simpl. rewrite Hu, lookup_insert_eq.
      split.
      * intros t newId Ht. rewrite bool_decide_false by done. rewrite H6. simpl.
        rewrite Hc. rewrite bool_decide_true by done. simpl.
        unfold AuthController.after. rewrite He. simpl.
        rewrite bool_decide_false by lia. simpl. by left.
      * intros t newId other Ho Hdiff.
        rewrite bool_decide_false by (by apply sixDigits_nonempty). rewrite Ho. simpl.
        rewrite Hc. rewrite bool_decide_false by congruence. done.
    + exfalso. unfold PortalAuth.resendOTP in Hr. rewrite Hu, Hus in Hr.
      destruct (AuthController.pendingRegistration (AuthController.session S));
        injection Hr as <- _; simpl in Hst; lia.
  - destruct (AuthController.pendingRegistration (AuthController.session S))
      as [pending|] eqn:Hp.
    + destruct (resendOTP_pending now draw sent S pending Hu Hp)
        as (reply' & pending1 & E & _ & Hc & He).
      rewrite E in Hr. injection Hr as <- <-. simpl. split; [done|].
      unfold AuthController.verifyOTP. simpl.
      split.
      * intros t newId Ht. rewrite bool_decide_false by done. rewrite H6. simpl.
        rewrite Hc. rewrite bool_decide_true by done. simpl.
        rewrite He. rewrite bool_decide_false by lia. simpl. by right.
      * intros t newId other Ho Hdiff.
        rewrite bool_decide_false by (by apply sixDigits_nonempty). rewrite Ho. simpl.
        rewrite Hc. rewrite bool_decide_false by congruence. done.
    + exfalso. unfold PortalAuth.resendOTP in Hr. rewrite Hu, Hp in Hr.
      injection Hr as <- _. simpl in Hst. lia.
Qed.

(** X25: a session is authenticated by an accepted code only.  The
    check [isAuthenticated] of the protected routes passes for the
    session that [verifyOTP] leaves exactly when it passed before or the
    code was accepted (answer 200 or 201); [resendOTP] never changes
    what the check says. *)
Theorem authenticated_by_an_accepted_code_only :
  (forall now newId otp S,
     let r := AuthController.verifyOTP now newId otp S in
     PortalAuth.isAuthenticated (AuthController.session r.2) = true <->
     PortalAuth.isAuthenticated (AuthController.session S) = true \/
     AuthController.status r.1 = 200 \/ AuthController.status r.1 = 201) /\
  (forall now draw sent S,
     PortalAuth.isAuthenticated
       (AuthController.session (PortalAuth.resendOTP now draw sent S).2)
     = PortalAuth.isAuthenticated (AuthController.session S)).
Proof.
  split.
  - intros now newId otp S. unfold AuthController.verifyOTP, PortalAuth.isAuthenticated.
    destruct S as [us [uid mfa pend] aud]. simpl.
    repeat (case_match || case_bool_decide); simplify_eq/=;
      try (by destruct mfa; naive_solver lia);
      try (rewrite bool_decide_true by done; naive_solver);
      try (exfalso; match goal with Hn : ¬ is_Some (Some _) |- _ => apply Hn; by eexists end).
  - intros now draw sent S. unfold PortalAuth.resendOTP, PortalAuth.isAuthenticated.
    destruct S as [us [uid mfa pend] aud]. simpl.
    repeat (case_match || case_bool_decide); simplify_eq/=; try done;
      try (exfalso; by eapply is_Some_None); naive_solver.
Qed.

(** X26: the session timeout slides.  [checkSessionTimeout] ends a
    session whose last request is more than an hour old, and otherwise
    stamps the session with the present instant; a session without a
    stamp passes.  So a session whose requests follow one another at
    most an hour apart passes the check at every one of them, however
    long ago it began. *)
Theorem session_timeout_slides :
  (forall now last,
     last <> 0 -> now - last > PortalAuth.SESSION_TIMEOUT ->
     PortalAuth.checkSessionTimeout now (Some last) = None) /\
  (forall now last,
     now - last <= PortalAuth.SESSION_TIMEOUT ->
     PortalAuth.checkSessionTimeout now (Some last) = Some now) /\
  (forall now, PortalAuth.checkSessionTimeout now None = Some now) /\
  (forall times last,
     (forall i a b, (last :: times) !! i = Some a -> times !! i = Some b ->
                    b - a <= PortalAuth.SESSION_TIMEOUT) ->
     PortalAuth.served times (Some last) = true).
Proof.
  unfold PortalAuth.checkSessionTimeout, PortalAuth.SESSION_TIMEOUT.
  split; [|split; [|split]].
  - intros now last H0 Hold. rewrite (bool_decide_false (last = 0)) by done.
    by rewrite bool_decide_true by lia.
  - intros now last Hrecent.
    destruct (bool_decide (last = 0)); by rewrite bool_decide_false by lia.
  - intros now. by rewrite bool_decide_false by lia.
  - intros times. induction times as [|t rest IH]; intros last Hgap; [done|].
    simpl. unfold PortalAuth.checkSessionTimeout, PortalAuth.SESSION_TIMEOUT.
    pose proof (Hgap 0%nat last t eq_refl eq_refl) as H0.
    unfold PortalAuth.SESSION_TIMEOUT in H0.
    assert (bool_decide
              (t - (if bool_decide (last = 0) then t else last) > 3600000) = false) as ->.
    { destruct (bool_decide (last = 0)); apply bool_decide_false; lia. }
    apply IH. intros i a b Ha Hb. by apply (Hgap (S i) a b).
Qed.

(** ** One decision for a paper *)

Section OneDecisionFacts.
Context `{NodeCrypto}.
Import DecisionController.

Lemma find_app_None {A} (f : A -> bool) l1 l2 :
  find f l1 = None -> find f (l1 ++ l2) = find f l2.
Proof.
  induction l1 as [|x l1 IH]; simpl; [done|]. destruct (f x); [done|apply IH].
Qed.

Lemma findOne_Some pid ds d :
  findOne pid ds = Some d -> d ∈ ds /\ paperId d = pid.
Proof.
  unfold findOne. intros Hf. apply find_some in Hf as [Hin Hp].
  split; [by apply list_elem_of_In|]. by apply bool_decide_eq_true in Hp.
Qed.

Lemma findOne_None pid ds : findOne pid ds = None -> pid ∉ paperId <$> ds.
Proof.
  unfold findOne. intros Hf Hin. apply list_elem_of_fmap in Hin as (d & -> & Hin).
  apply list_elem_of_In in Hin.
  pose proof (find_none _ _ Hf d Hin) as Hd. simpl in Hd.
  by rewrite bool_decide_true in Hd.
Qed.

Lemma update_ids id u ds : _id <$> findByIdAndUpdate id u ds = _id <$> ds.
Proof.
  unfold findByIdAndUpdate. rewrite <- list_fmap_compose. apply list_fmap_ext.
  intros i d _. simpl. by case_bool_decide.
Qed.

Lemma update_paperIds fd u ds :
  NoDup (_id <$> ds) -> fd ∈ ds -> dd_paperId u = paperId fd ->
  paperId <$> findByIdAndUpdate (_id fd) u ds = paperId <$> ds.
Proof.
  intros Hnd Hin Hpid. unfold findByIdAndUpdate. rewrite <- list_fmap_compose.
  apply list_fmap_ext. intros i d Hd. simpl. case_bool_decide as Heq; [|done].
  simpl. rewrite Hpid.
  apply list_elem_of_lookup in Hin as [j Hj].
  assert (i = j) as ->.
  { eapply NoDup_lookup; [exact Hnd| |]; rewrite list_lookup_fmap.
    - by rewrite Hd.
    - rewrite Hj. simpl. by rewrite Heq. }
  congruence.
Qed.

End OneDecisionFacts.

(** X27: the portal keeps one decision for a paper.  When the
    decisions have pairwise different ids and pairwise different papers
    and the id drawn for a new decision is not in use, they still do
    after [makeDecision]: a second decision for a paper is written into
    the document of the first.  After an answer 201 the decision found
    for the paper is the one just made; after any other answer nothing
    has changed. *)
Theorem one_decision_for_a_paper `{NodeCrypto} fs salt t1 t2 newId q S :
  NoDup (DecisionController._id <$> DecisionController.decisions S) ->
  NoDup (DecisionController.paperId <$> DecisionController.decisions S) ->
  newId ∉ DecisionController._id <$> DecisionController.decisions S ->
  let r := DecisionController.makeDecision fs salt t1 t2 newId q S in
  NoDup (DecisionController._id <$> DecisionController.decisions r.2) /\
  NoDup (DecisionController.paperId <$> DecisionController.decisions r.2) /\
  (DecisionController.status r.1 = 201 ->
   exists d,
     DecisionController.findOne (DecisionController.q_paperId q)
       (DecisionController.decisions r.2) = Some d /\
     DecisionController.decision d = DecisionController.q_decision q /\
     DecisionController.summary d = trim (DecisionController.q_summary q) /\
     DecisionController.decidedAt d = t1) /\
  (DecisionController.status r.1 <> 201 -> r.2 = S).
Proof.
  intros Hids Hpids Hnew r. subst r.
  unfold DecisionController.makeDecision.
  destruct (_ || _); [by simpl|].
  destruct (negb _); [by simpl|].
  case_bool_decide; [by simpl|].
  destruct (negb _); [by simpl|].
  destruct (CryptoService.signData _ _ _ _) as [sig|]; [|by simpl].
  simpl.
  destruct (DecisionController.findOne _ _) as [fd|] eqn:Hf.
  - apply findOne_Some in Hf as [Hin Hpid].
    rewrite update_ids, (update_paperIds fd) by done.
    split; [done|]. split; [done|]. split; [|done]. intros _.
    exists (DecisionController.applyUpdate fd (DecisionController.decisionDataOf q t1 sig)).
    split; [|done].
    unfold DecisionController.findOne, DecisionController.findByIdAndUpdate.
    assert (forall ds, NoDup (DecisionController._id <$> ds) ->
      NoDup (DecisionController.paperId <$> ds) -> fd ∈ ds ->
      find (fun d => bool_decide (DecisionController.paperId d = DecisionController.q_paperId q))
        (map (fun d => if bool_decide (DecisionController._id d = DecisionController._id fd)
                       then DecisionController.applyUpdate d
                              (DecisionController.decisionDataOf q t1 sig)
                       else d) ds)
      = Some (DecisionController.applyUpdate fd
                (DecisionController.decisionDataOf q t1 sig))) as Hfind.
    { induction ds as [|d ds IH]; intros Hni Hnd Hd; [by apply elem_of_nil in Hd|].
      rewrite fmap_cons in Hni, Hnd.
      apply NoDup_cons in Hni as [Hi Hni]. apply NoDup_cons in Hnd as [Hnotin Hnd].
      apply elem_of_cons in Hd as [<-|Hd]; simpl.
      - rewrite (bool_decide_true (DecisionController._id fd = _)) by done. simpl.
        by rewrite bool_decide_true.
      - assert (DecisionController.paperId d <> DecisionController.q_paperId q) as Hne.
        { intros E. apply Hnotin. apply list_elem_of_fmap. exists fd.
          split; [congruence|done]. }
        assert (DecisionController._id d <> DecisionController._id fd) as Hne'.
        { intros E. apply Hi. apply list_elem_of_fmap. by exists fd. }
        rewrite (bool_decide_false (DecisionController._id d = _)) by done.
        rewrite bool_decide_false by done. by apply IH. }
    by apply Hfind.
  - apply findOne_None in Hf.
    rewrite !fmap_app. simpl.
    split; [apply NoDup_app; split; [done|]; split; [|apply NoDup_singleton];
            intros x Hx ->%list_elem_of_singleton; done|].
    split; [apply NoDup_app; split; [done|]; split; [|apply NoDup_singleton];
            intros x Hx ->%list_elem_of_singleton; done|].
    split; [|done]. intros _.
    exists (DecisionController.newDecision newId t1
              (DecisionController.decisionDataOf q t1 sig)).
    split; [|done].
    assert (DecisionController.findOne (DecisionController.q_paperId q)
              (DecisionController.decisions S) = None) as Hnone.
    { destruct (DecisionController.findOne _ _) as [d|] eqn:E; [|done].
      apply findOne_Some in E as [Hin Hp]. exfalso. apply Hf.
      apply list_elem_of_fmap. by exists d. }
    unfold DecisionController.findOne in *. rewrite (find_app_None _ _ _ Hnone).
    simpl. by rewrite bool_decide_true.
Qed.

(** ** Keys and sealed objects of the reached states *)

Section SealedFacts.
Context `{NodeCrypto} `{NodeBcrypt}.
Import Server CryptoJs Handlers.

Hypothesis Hb64 : base64_roundtrip.
Hypothesis Hutf : utf8_roundtrip.
Hypothesis Hctr : gcm_ctr_involutive.
Hypothesis Htag : gcm_tag_length.
Hypothesis Hbind : bcrypt_binding.
Hypothesis Hsig : pkcs1_correct.

Lemma wrappedFor_change r S S' key x y :
  change r S S' ->
  wrappedFor (users (db S)) key x y -> wrappedFor (users (db S')) key x y.
Proof.
  intros Hc (u & seed & c & Hu & Henc & ->).
  destruct (change_users r S S' x u Hc Hu) as (u' & Hu' & Hsame).
  destruct Hsame as (_ & _ & _ & Hpk & _).
  exists u', seed, c. by rewrite Hpk.
Qed.

Lemma sealedFor_change r S S' enc keys :
  change r S S' ->
  sealedFor (users (db S)) enc keys -> sealedFor (users (db S')) enc keys.
Proof.
  intros Hc (key & ivb & plain & Henc & Hw).
  exists key, ivb, plain. split; [done|].
  intros x y Hxy. eapply wrappedFor_change; [done|]. by apply Hw.
Qed.

Lemma verifyDecision_change r S S' d :
  change r S S' ->
  verifyDecision (db S) d = Ret true -> verifyDecision (db S') d = Ret true.
Proof.
  intros Hc. unfold verifyDecision.
  destruct (users (db S) !! d_by d) as [u|] eqn:Hu; [|done].
  destruct (change_users r S S' _ u Hc Hu) as (u' & Hu' & Hsame).
  destruct Hsame as (_ & _ & _ & Hpk & _).
  rewrite Hu'. simpl. by rewrite Hpk.
Qed.

(** The key a login binds is the private key of the user's pair. *)
Lemma unlocked_key S u key :
  Sealed S -> (exists e, users (db S) !! e = Some u) -> unlockedBy u key ->
  keyPair (rsaPublicKey u) (Custody.privateKeyPem key).
Proof.
  intros HS [e Hu] (pw & plain & Hpw & Hdec & Hpem).
  destruct (sl_users S HS e u Hu) as (pw0 & salt & ivb & sk & Hh & Henc & Hk).
  rewrite Hh in Hpw. apply Hbind in Hpw as ->.
  apply aesEncrypt_then_decrypt in Henc; [|done..].
  assert (plain = utf8enc sk) as -> by congruence.
  by rewrite Hpem, Hutf.
Qed.

Lemma signed_verifies S sid user d :
  Sealed S -> sessions S !! sid = Some user -> d_by d = s_email user ->
  signedWith S sid d -> verifyDecision (db S) d = Ret true.
Proof.
  intros HS Hs Hby (k & Hk & Hsign).
  destruct (sl_keys S HS sid k user Hk Hs) as (u & Hu & Hpair).
  eapply signed_decision_verifies; try done. by rewrite Hby.
Qed.

Lemma change_sealed r S S' :
  Inv S -> Sealed S -> goodKeys r -> change r S S' -> Sealed S'.
Proof.
  intros HI HS Hgood Hc.
  assert (forall e u, users (db S) !! e = Some u ->
            exists u', users (db S') !! e = Some u' /\ sameIdentity u u') as Hstay.
  { intros e u. by apply (change_users r). }
  assert (forall sid k su,
            privateKeyStore S !! sid = Some k -> sessions S !! sid = Some su ->
            exists u, users (db S') !! s_email su = Some u /\
              keyPair (rsaPublicKey u) (Custody.privateKeyPem k)) as Hkeys.
  { intros sid k su Hk Hs. destruct (sl_keys S HS sid k su Hk Hs) as (u & Hu & Hp).
    destruct (Hstay _ u Hu) as (u' & Hu' & (_ & _ & _ & Hpk & _)).
    exists u'. by rewrite Hpk. }
  split.
  - (* users *)
    intros e u' Hu'.
    assert (forall u, users (db S) !! e = Some u -> sameIdentity u u' ->
              exists pw salt ivb sk,
                passwordHash u' = bcryptHash pw salt /\
                aesEncrypt ivb (utf8enc sk) (deriveKey pw (rsaPrivSalt u'))
                  = Ret (rsaPrivateKeyEncrypted u') /\
                keyPair (rsaPublicKey u') sk) as Hold.
    { intros u Hu (_ & _ & Hh & Hpk & Hse & Hsa & _).
      rewrite Hh, Hpk, Hse, Hsa. by apply (sl_users S HS e). }
    destruct Hc as [Hus|email v Hnone Hv Hus _ _ _ _ Hmade|email v v' Hv Hsame Hus
                   |sid email v v' key Hv Hsame Hus|sid Hus
                   |? ? ? ? _ _ _ _ _ _ _ _ _ Hus|? ? ? ? ? _ _ _ _ _ _ Hus
                   |? ? ? ? ? _ _ _ _ _ _ _ _ _ Hus];
      rewrite Hus in Hu';
      try (apply (Hold u'); [done|apply sameIdentity_refl]).
    + destruct (decide (e = email)) as [->|Hne].
      * rewrite lookup_insert_eq in Hu'. injection Hu' as <-.
        destruct Hmade as (ent & pw & role & ro & enc & -> & -> & Henc).
        exists pw, (g_bcryptSalt ent), (g_iv ent), (g_privateKey ent).
        simpl. done.
      * rewrite lookup_insert_ne in Hu' by done.
        apply (Hold u'); [done|apply sameIdentity_refl].
    + destruct (decide (e = email)) as [->|Hne].
      * rewrite lookup_insert_eq in Hu'. injection Hu' as <-. by apply (Hold v).
      * rewrite lookup_insert_ne in Hu' by done.
        apply (Hold u'); [done|apply sameIdentity_refl].
    + destruct (decide (e = email)) as [->|Hne].
      * rewrite lookup_insert_eq in Hu'. injection Hu' as <-. by apply (Hold v).
      * rewrite lookup_insert_ne in Hu' by done.
        apply (Hold u'); [done|apply sameIdentity_refl].
  - (* keys *)
    intros sid k su Hk Hs.
    destruct Hc as [_ _ _ Hss Hst|? ? _ _ _ _ _ Hss Hst|? ? ? _ _ _ _ _ Hss Hst
                   |sid0 email v v' key Hv Hsame Hus _ _ Hss Hst Hunl|sid0 _ _ _ Hss Hst
                   |? ? ? ? _ _ _ _ _ _ _ _ _ _ _ Hss Hst
                   |? ? ? ? ? _ _ _ _ _ _ _ _ Hss Hst
                   |? ? ? ? ? _ _ _ _ _ _ _ _ _ _ _ Hss Hst];
      rewrite Hss in Hs; try rewrite Hst in Hk; try (by eapply Hkeys).
    + eapply Hkeys; [|done]. by eapply lookup_weaken.
    + destruct (decide (sid = sid0)) as [->|Hne].
      * rewrite lookup_insert_eq in Hk. rewrite lookup_insert_eq in Hs.
        injection Hk as <-. injection Hs as <-. simpl.
        rewrite (inv_users S HI _ _ Hv), Hus, lookup_insert_eq.
        exists v'. split; [done|].
        destruct Hsame as (_ & _ & _ & -> & _).
        eapply unlocked_key; [done|by exists email|done].
      * rewrite lookup_insert_ne in Hk by done. rewrite lookup_insert_ne in Hs by done.
        by eapply Hkeys.
    + apply lookup_delete_Some in Hk as [_ Hk].
      apply lookup_delete_Some in Hs as [_ Hs]. by eapply Hkeys.
    + eapply Hkeys; [|done]. by eapply lookup_weaken.
  - (* decisions *)
    intros pid p' d' Hp' Hd'.
    assert (forall p, papers (db S) !! pid = Some p -> decision p = Some d' ->
              verifyDecision (db S') d' = Ret true) as Hold.
    { intros p Hp Hd. eapply verifyDecision_change; [done|]. by eapply sl_decisions. }
    destruct Hc as [_ Hps|? ? _ _ _ Hps|? ? ? _ _ _ Hps
                   |? ? ? ? ? _ _ _ Hps|? _ Hps
                   |sid user pid0 p0 _ _ _ _ _ _ Hdec _ Hps
                   |sid user pid0 p0 d Hs Hrole Hp0 Hby Hin Hps Hus _ _ _ Hsigned
                   |? ? ? ? ? _ _ _ _ _ _ _ _ _ _ Hps];
      rewrite Hps in Hp'; try (by eapply Hold).
    + destruct (decide (pid = pid0)) as [->|Hne].
      * rewrite lookup_insert_eq in Hp'. injection Hp' as <-. congruence.
      * rewrite lookup_insert_ne in Hp' by done. by eapply Hold.
    + destruct (decide (pid = pid0)) as [->|Hne].
      * rewrite lookup_insert_eq in Hp'. injection Hp' as <-. simpl in Hd'.
        injection Hd' as <-. unfold verifyDecision. rewrite Hus.
        by eapply signed_verifies.
      * rewrite lookup_insert_ne in Hp' by done. by eapply Hold.
  - (* papers *)
    intros pid p' Hp'.
    assert (forall p, papers (db S) !! pid = Some p ->
              exists v, versions p = [v] /\
                sealedFor (users (db S')) (v_enc v) (encryptedKeys p)) as Hold.
    { intros p Hp. destruct (sl_papers S HS pid p Hp) as (v & Hv & Hsl).
      exists v. split; [done|]. by eapply sealedFor_change. }
    destruct Hc as [_ Hps|? ? _ _ _ Hps|? ? ? _ _ _ Hps
                   |? ? ? ? ? _ _ _ Hps|? _ Hps
                   |sid user pid0 p0 _ _ _ _ _ _ _ _ Hps Hus _ _ _ Hsl
                   |sid user pid0 p0 d _ _ Hp0 _ _ Hps
                   |? ? ? ? ? _ _ _ _ _ _ _ _ _ _ Hps];
      rewrite Hps in Hp'; try (by eapply Hold).
    + destruct (decide (pid = pid0)) as [->|Hne].
      * rewrite lookup_insert_eq in Hp'. injection Hp' as <-. by rewrite Hus.
      * rewrite lookup_insert_ne in Hp' by done. by eapply Hold.
    + destruct (decide (pid = pid0)) as [->|Hne].
      * rewrite lookup_insert_eq in Hp'. injection Hp' as <-. simpl. by eapply Hold.
      * rewrite lookup_insert_ne in Hp' by done. by eapply Hold.
  - (* reviews *)
    intros rid rv Hrv.
    assert (forall rv, reviews (db S) !! rid = Some rv ->
              sealedFor (users (db S')) (r_enc rv) (r_encryptedKeys rv)) as Hold.
    { intros rv0 Hrv0. eapply sealedFor_change; [done|]. by eapply sl_reviews. }
    destruct Hc as [_ _ Hrs|? ? _ _ _ _ Hrs|? ? ? _ _ _ _ Hrs
                   |? ? ? ? ? _ _ _ _ Hrs|? _ _ Hrs
                   |? ? ? ? _ _ _ _ _ _ _ _ _ _ Hrs|? ? ? ? ? _ _ _ _ _ _ _ Hrs
                   |sid user rid0 rv0 p _ _ _ _ _ _ _ _ Hrs Hus _ _ _ Hsl];
      rewrite Hrs in Hrv; try (by eapply Hold).
    destruct (decide (rid = rid0)) as [->|Hne].
    + rewrite lookup_insert_eq in Hrv. injection Hrv as <-. by rewrite Hus.
    + rewrite lookup_insert_ne in Hrv by done. by eapply Hold.
Qed.

Lemma initial_sealed : Sealed initial.
Proof. split; simpl; intros *; by rewrite lookup_empty. Qed.

Lemma run_sealed trace : forall S,
  Inv S -> Sealed S -> freshRun trace S -> Forall (fun tr => goodKeys tr.2) trace ->
  Inv (run trace S) /\ Sealed (run trace S).
Proof.
  induction trace as [|[now r] rest IH]; intros S HI HS Hf Hg; simpl; [done|].
  destruct Hf as [Hf Hrest]. apply Forall_cons in Hg as [Hg Hgs]. simpl in Hg.
  apply IH; [| |done|done].
  - eapply change_inv; [done|done|apply handle_change].
  - eapply change_sealed; [done|done|done|apply handle_change].
Qed.

End SealedFacts.

Section OpenFacts.
Context `{NodeCrypto} `{NodeBcrypt}.
Import Server CryptoJs Handlers.

(** The holder of a wrapped key who has the private key of their pair
    opens the sealed object. *)
Lemma unwrap_ok S sid su k enc keys encKey :
  base64_roundtrip -> gcm_ctr_involutive -> gcm_tag_length -> rsa_roundtrip ->
  Sealed S ->
  sessions S !! sid = Some su -> privateKeyStore S !! sid = Some k ->
  sealedFor (users (db S)) enc keys -> keys !! s_email su = Some encKey ->
  is_Ret (unwrapAndDecrypt (Custody.privateKeyPem k) encKey (Some enc)) = true.
Proof.
  intros Hb64 Hctr Htag Hrsa HS Hs Hk (key & ivb & plain & Henc & Hw) He.
  destruct (sl_keys S HS sid k su Hk Hs) as (u & Hu & Hpair).
  unfold unwrapAndDecrypt.
  rewrite (unwrap_roundtrip (users (db S)) key (s_email su) encKey u
             (Custody.privateKeyPem k)); try done; [|by apply Hw].
  simpl. by rewrite (aesEncrypt_then_decrypt ivb plain key enc).
Qed.

End OpenFacts.



(** ** The statements on the run of [Story] *)

Lemma toy_bcrypt_correct : @bcrypt_correct Toy.crypto ToyBcrypt.bcrypt.
Proof. intros password salt. simpl. by rewrite bool_decide_true. Qed.

Lemma toy_bcrypt_binding : @bcrypt_binding Toy.crypto ToyBcrypt.bcrypt.
Proof.
  intros password password' salt. simpl. intros Hp.
  by apply bool_decide_eq_true in Hp.
Qed.

Lemma story_fresh : Handlers.freshRun Story.trace Handlers.initial.
Proof. vm_compute. repeat split. Qed.

Lemma story_goodKeys : Forall (fun tr => Handlers.goodKeys tr.2) Story.trace.
Proof. repeat constructor. Qed.

Lemma validatePassword_policy_witness :
  Utils.validatePassword Scenario.password = true /\
  Utils.validatePassword ("my " +:+ Scenario.password +:+ " again") = true.
Proof.
  split; [reflexivity|].
  apply (proj2 validatePassword_policy Scenario.password "my " " again"). reflexivity.
Defined.

Lemma generateOTP_six_digits_witness :
  100000 <= 482913 < 1000000 /\
  AuthController.sixDigits (Utils.generateOTP 482913) = true.
Proof.
  split; [lia|]. apply (proj1 generateOTP_six_digits 482913). lia.
Defined.

Lemma signup_then_login_witness :
  exists r S2,
    Handlers.roleOf "Author" = Some r /\
    Server.login 5000 "sess-a" Scenario.alice Scenario.password Story.aliceOnly
      = (Server.json 200 Server.JOk, S2) /\
    Server.sessions S2 !! "sess-a"
      = Some {| Server.s_email := Scenario.alice; Server.s_role := r;
                Server.s_id := "id-alice@example.com" |} /\
    Server.privateKeyStore S2 !! "sess-a"
      = Some {| Custody.privateKeyPem := "KEY-A";
                Custody.expiresAt := 5000 + Custody.TTL |} /\
    Server.otps (Server.db S2) !! Scenario.alice
      = Some (Handlers.newCode 1000 Story.drawsA) /\
    Server.used (Handlers.newCode 1000 Story.drawsA) = false.
Proof.
  apply (signup_then_login 1000 Story.drawsA Scenario.alice Scenario.password "Author"
           Handlers.initial Story.aliceOnly 5000 "sess-a"
           toy_base64_roundtrip toy_utf8_roundtrip toy_gcm_ctr_involutive
           toy_gcm_tag_length toy_bcrypt_correct).
  vm_compute. reflexivity.
Defined.

Lemma signup_code_lifetime_witness :
  (forall t, t <= 1000 + Handlers.otpLifetime ->
     exists D',
       Server.verifyOtp t Scenario.alice "482913" (Server.db Story.aliceOnly)
         = (Server.json 200 Server.JOk, D') /\
       Server.used <$> Server.otps D' !! Scenario.alice = Some true) /\
  (forall t code, t > 1000 + Handlers.otpLifetime ->
     exists D',
       Server.verifyOtp t Scenario.alice code (Server.db Story.aliceOnly)
         = (Server.otpExpired, D') /\
       Server.used <$> Server.otps D' !! Scenario.alice = Some false) /\
  (forall trace t ent' pw' role',
     (Handlers.signup t ent' Scenario.alice pw' role'
        (Handlers.run trace Story.aliceOnly)).1 <> Server.json 200 Server.JOk).
Proof.
  apply (signup_code_lifetime 1000 Story.drawsA Scenario.alice Scenario.password "Author"
           Handlers.initial Story.aliceOnly).
  vm_compute. reflexivity.
Defined.

Lemma otp_sent_write_discards_later_signup_witness :
  let S2 := (Handlers.signup 2000 Story.drawsC Scenario.colab Scenario.password
               "Collaborator" Story.aliceOnly).2 in
  let S3 := Handlers.otpSent 2500 Scenario.alice true (Server.db Story.aliceOnly) S2 in
  is_Some (Server.users (Server.db S2) !! Scenario.colab) /\
  Server.users (Server.db S3) !! Scenario.colab = None /\
  Server.users (Server.db S3) = Server.users (Server.db Story.aliceOnly) /\
  Server.otps (Server.db S3) = Server.otps (Server.db Story.aliceOnly) /\
  length (Server.logs (Server.db S3))
    = (length (Server.logs (Server.db Story.aliceOnly)) + 1)%nat.
Proof.
  apply (otp_sent_write_discards_later_signup
           1000 Story.drawsA Scenario.alice Scenario.password "Author"
           Handlers.initial Story.aliceOnly
           2000 Story.drawsC Scenario.colab Scenario.password "Collaborator"
           (Handlers.signup 2000 Story.drawsC Scenario.colab Scenario.password
              "Collaborator" Story.aliceOnly).2
           2500 true).
  - vm_compute. reflexivity.
  - vm_compute. reflexivity.
Defined.



Lemma reads_by_role_witness :
(Story.dave ∉ [Scenario.alice; Scenario.colab; Scenario.rev]) /\
  (Server.getDecision 20000 "sess-d" "paper-1" Story.done).1
    = Server.json 200 (Server.JDecision Scenario.storedDecision true).
Proof.
  split; [by apply (bool_decide_unpack _)|].
  eapply (proj2 (proj2 reads_by_role) 20000 "sess-d" "paper-1" Story.done).
  - vm_compute. reflexivity.
  - discriminate.
  - vm_compute. reflexivity.
  - reflexivity.
  - vm_compute. reflexivity.
Defined.

Lemma writes_by_role_witness :
  exists user,
    Server.sessions Scenario.loggedIn !! "sess-a" = Some user /\
    Server.s_role user = Server.Author.
Proof.
  apply (proj1 writes_by_role 7000 Scenario.entropy "sess-a" Scenario.paperReq
           Scenario.loggedIn).
  intros Heq. apply (f_equal (fun m => m !! "paper-1")) in Heq.
  vm_compute in Heq. discriminate.
Defined.

Lemma denial_branches_throw_witness :
  Server.createPaper 7000 Scenario.entropy "sess-c" Scenario.paperReq Scenario.loggedIn
    = (Throw (ReferenceError "Cannot access 'DB' before initialization"),
       Scenario.loggedIn) /\
  Handlers.getLogs 7000 "sess-r" Scenario.loggedIn
    = (Throw (ReferenceError "Cannot access 'DB' before initialization"),
       Scenario.loggedIn).
Proof.
  split.
  - apply (proj1 denial_branches_throw 7000 Scenario.entropy "sess-c" Scenario.paperReq
             Scenario.loggedIn
             {| Server.s_email := Scenario.colab; Server.s_role := Server.Collaborator;
                Server.s_id := "id-colab@example.com" |}).
    + vm_compute. reflexivity.
    + discriminate.
  - apply (proj1 (proj2 denial_branches_throw) 7000 "sess-r" Scenario.loggedIn
             {| Server.s_email := Scenario.rev; Server.s_role := Server.Reviewer;
                Server.s_id := "id-rev@example.com" |}).
    + vm_compute. reflexivity.
    + reflexivity.
Defined.

Lemma listPapers_matches_getPaper_witness :
  exists l S',
    Handlers.listPapers 20000 "sess-c" Story.done = (Ret (Handlers.Sent l), S') /\
    (forall s, s ∈ l <->
       exists pid p, Server.papers (Server.db Story.done) !! pid = Some p /\
         Scenario.colab ∈ Handlers.allowedUsers p /\
         s = Handlers.summaryOf (Server.db Story.done) p) /\
    (forall pid p, Server.papers (Server.db Story.done) !! pid = Some p ->
       (Handlers.summaryOf (Server.db Story.done) p ∈ l <->
        (Server.getPaper 20000 "sess-c" pid Story.done).1
          <> Server.json 403 (Server.JError "forbidden"))).
Proof.
  apply (listPapers_matches_getPaper 20000 "sess-c" Story.done
           {| Server.s_email := Scenario.colab; Server.s_role := Server.Collaborator;
              Server.s_id := "id-colab@example.com" |}).
  vm_compute. reflexivity.
Defined.

Lemma dashboard_within_listing_witness :
  exists rows l S1 S2,
    Handlers.dashboard 20000 "sess-c" Story.done
      = (Ret (Handlers.Sent ("Collaborator", rows)), S1) /\
    Handlers.listPapers 20000 "sess-c" Story.done = (Ret (Handlers.Sent l), S2) /\
    (forall id, id ∈ Handlers.rowId <$> rows <->
       exists pid p, Server.papers (Server.db Story.done) !! pid = Some p /\
         Server.p_id p = id /\ Scenario.colab ∈ Server.collaborators p) /\
    (forall id, id ∈ Handlers.rowId <$> rows -> id ∈ Handlers.sm_id <$> l).
Proof.
  apply (dashboard_within_listing 20000 "sess-c" Story.done
           {| Server.s_email := Scenario.colab; Server.s_role := Server.Collaborator;
              Server.s_id := "id-colab@example.com" |}).
  vm_compute. reflexivity.
Defined.

Lemma user_identity_is_stable_witness :
  exists u',
    Server.users (Server.db (Handlers.run Story.work Story.signedUp)) !! Scenario.alice
      = Some u' /\
    Server.u_email u' = Scenario.alice /\
    Server.u_role u' = Server.Author /\
    Server.passwordHash u' = Scenario.password /\
    Server.rsaPublicKey u' = "KEY-A" /\
    Server.rsaPrivateKeyEncrypted u' = Scenario.sealedKey "KEY-A" Scenario.password /\
    Server.rsaPrivSalt u' = "00" /\
    Server.u_id u' = "id-alice@example.com".
Proof.
  apply (user_identity_is_stable Story.work Story.signedUp Scenario.alice
           (Scenario.mkUser Scenario.alice Server.Author "KEY-A" Scenario.password)).
  vm_compute. reflexivity.
Defined.

Lemma paper_content_is_stable_witness :
  exists p p',
    Server.papers (Server.db Scenario.sealed) !! "paper-1" = Some p /\
    Server.papers (Server.db (Handlers.run
       [(9000, Handlers.IssueDecision "sess-c" "paper-1" Scenario.decisionText1);
        (9500, Handlers.Logout "sess-a")] Scenario.sealed)) !! "paper-1" = Some p' /\
    Server.versions p' = Server.versions p /\
    Server.encryptedKeys p' = Server.encryptedKeys p /\
    Server.decision p = None /\ is_Some (Server.decision p').
Proof.
  assert (Hp : exists p, Server.papers (Server.db Scenario.sealed) !! "paper-1" = Some p
                         /\ Server.decision p = None).
  { eexists. split; vm_compute; reflexivity. }
  destruct Hp as (p & Hp & Hd).
  destruct (paper_content_is_stable
              [(9000, Handlers.IssueDecision "sess-c" "paper-1" Scenario.decisionText1);
               (9500, Handlers.Logout "sess-a")] Scenario.sealed "paper-1" p)
    as (p' & Hp' & _ & _ & _ & _ & _ & _ & Hv & Hk).
  - vm_compute. repeat split.
  - exact Hp.
  - exists p, p'. repeat split; try done.
    revert Hp'. vm_compute. intros [= <-]. by eexists.
Defined.


Lemma owner_never_reads_reviews_witness :
  exists review paper,
    Server.reviews (Server.db Story.done) !! "review-1" = Some review /\
    Server.papers (Server.db Story.done) !! Server.r_pid review = Some paper /\
    Server.owner paper = Scenario.alice /\
    is_Some (Server.r_encryptedKeys review !! Scenario.alice) /\
    (Server.getReview 20000 "sess-a" "review-1" Story.done).1
      = Server.json 403 (Server.JError "forbidden-role").
Proof.
  eexists _, _. split; [vm_compute; reflexivity|].
  split; [vm_compute; reflexivity|].
  split; [reflexivity|].
  split; [vm_compute; by eexists|].
  eapply (owner_never_reads_reviews Story.trace 20000 "sess-a" "review-1"
            {| Server.s_email := Scenario.alice; Server.s_role := Server.Author;
               Server.s_id := "id-alice@example.com" |}).
  - vm_compute. repeat split.
  - vm_compute. reflexivity.
  - vm_compute. reflexivity.
  - vm_compute. reflexivity.
  - reflexivity.
Defined.

Lemma resend_replaces_the_code_witness :
  let S1 := (PortalAuth.resendOTP 1000 123456 true Scenario.portalState).2 in
  AuthController.mfaVerified (AuthController.session S1)
    = AuthController.mfaVerified (AuthController.session Scenario.portalState) /\
  (forall t newId, t <= 1000 + PortalAuth.OTP_EXPIRY ->
     let r := (AuthController.verifyOTP t newId "123456" S1).1 in
     AuthController.status r = 200 \/ AuthController.status r = 201) /\
  (forall t newId other,
     AuthController.sixDigits other = true -> other <> "123456" ->
     (AuthController.verifyOTP t newId other S1).1 = AuthController.invalidOTP).
Proof.
  apply (resend_replaces_the_code 1000 123456 true Scenario.portalState PortalAuth.resent).
  - lia.
  - vm_compute. reflexivity.
  - left. reflexivity.
Defined.

Lemma session_timeout_slides_witness :
  PortalAuth.served Story.fiftyMinutes (Some 0) = true.
Proof.
  apply (proj2 (proj2 (proj2 session_timeout_slides)) Story.fiftyMinutes 0).
  intros i a b Ha Hb.
  destruct i as [|[|[|[|i]]]]; simpl in Ha, Hb; simplify_eq;
    unfold PortalAuth.SESSION_TIMEOUT; lia.
Defined.

Lemma one_decision_for_a_paper_witness :
  let r := DecisionController.makeDecision Scenario.keyFiles [] 2000 2000 "dec-2"
             Scenario.reject Scenario.accepted in
  NoDup (DecisionController._id <$> DecisionController.decisions r.2) /\
  NoDup (DecisionController.paperId <$> DecisionController.decisions r.2) /\
  (DecisionController.status r.1 = 201 ->
   exists d,
     DecisionController.findOne "p1" (DecisionController.decisions r.2) = Some d /\
     DecisionController.decision d = "REJECTED" /\
     DecisionController.summary d
       = trim (DecisionController.q_summary Scenario.reject) /\
     DecisionController.decidedAt d = 2000) /\
  (DecisionController.status r.1 <> 201 -> r.2 = Scenario.accepted).
Proof.
  apply (one_decision_for_a_paper Scenario.keyFiles [] 2000 2000 "dec-2"
           Scenario.reject Scenario.accepted).
  - vm_compute. apply NoDup_singleton.
  - vm_compute. apply NoDup_singleton.
  - vm_compute. intros Hin. apply list_elem_of_singleton in Hin. discriminate.
Defined.


